(** * Commit scheduling and synchronisation engine: a shallow embedding

    The development follows the JavaScript sources of the repository:

    - [Text]     : template literals, [String.prototype.includes], join;
    - [Moment]   : the part of the moment library the sources call
                   (calendar arithmetic in one fixed-offset zone, UTC);
    - [Js]       : completions (return / throw) and the effect monad over
                   the observable world;
    - [Pattern]  : the pattern script (PATTERNS, generateDate, createCommit,
                   drawPattern, pushCommits, main);
    - [Obs]      : what is observed of a trace (calls, sleeps, commit dates);
    - [Config]   : the fields of config.js the services read;
    - [Git]      : git-service.js (ensureInitialized, add, commit, push, pull);
    - [Commit]   : commit-service.js (createCommit, createTodayContributions,
                   backfillContributions);
    - [Sched]    : scheduler.js (constructor, executeTask, runNow) together
                   with the interleavings of its asynchronous runs;
    - [Sample]   : sample worlds and inputs;
    - [Hoare]    : a judgement for what a computation does between two
                   states;
    - [Settings] : config.js as a whole, with validateConfig;
    - [Control]  : scheduler.js (start, stop, getStatus, updateNextRun);
    - [Health]   : the health server (handleRequest and its handlers,
                   start, stop) and the event loop with its requests;
    - [App]      : the application (showBanner, runOnce, runBackfill,
                   runScheduled with its shutdown handler, main);
    - [Random]   : the random script (generateDate, createCommit,
                   markCommit, makeRandomCommits, pushCommits, main);
    - [Seen]     : further observations of a trace;
    - [Cases]    : further sample worlds and inputs.

    Numbers are JavaScript numbers holding integers and are modelled in [Z];
    [Math.random()] is a rational in the unit interval.  The outside world
    (simple-git, jsonfile, the clock, the random source) is an oracle [Env]
    consulted in order; everything the program does to the outside world is
    appended to a trace of [Event]s. *)

From Stdlib Require Import ZArith QArith Qround List String Ascii Bool Lia Arith.
From Stdlib Require Import DecimalString Sorted.
Import ListNotations.

Local Open Scope string_scope.
Local Open Scope Z_scope.

(* ===================================================================== *)
(** * Definitions *)
(* ===================================================================== *)

(* --------------------------------------------------------------------- *)
(** ** Text helpers *)

Module Text.

(** The double-quote character, for template literals that quote a name. *)
Definition dquote : string := String (ascii_of_nat 34) EmptyString.

(** Decimal rendering of a number inside a template literal. *)
Definition of_nat (n : nat) : string :=
  NilZero.string_of_uint (Nat.to_uint n).

Definition of_Z (z : Z) : string :=
  if z <? 0 then "-" ++ of_nat (Z.to_nat (- z)) else of_nat (Z.to_nat z).

Fixpoint zeros (n : nat) : string :=
  match n with
  | O => EmptyString
  | S n' => String "0" (zeros n')
  end.

(** moment's zeroFill: sign, then the magnitude padded to [width] digits. *)
Definition zeroFill (z : Z) (width : nat) : string :=
  let digits := of_nat (Z.to_nat (Z.abs z)) in
  (if z <? 0 then "-" else "") ++ zeros (width - String.length digits) ++ digits.

(** [hay.includes(needle)] *)
Fixpoint includes (hay needle : string) : bool :=
  if String.prefix needle hay then true
  else match hay with
       | EmptyString => false
       | String _ rest => includes rest needle
       end.

(** The line feed of a template literal. *)
Definition nl : string := String (ascii_of_nat 10) EmptyString.

(** [s.repeat(n)] *)
Fixpoint repeat (s : string) (n : nat) : string :=
  match n with
  | O => EmptyString
  | S n' => s ++ repeat s n'
  end.

(** [parts.join(sep)] *)
Fixpoint join (sep : string) (parts : list string) : string :=
  match parts with
  | [] => EmptyString
  | [p] => p
  | p :: rest => p ++ sep ++ join sep rest
  end.

End Text.

(* --------------------------------------------------------------------- *)
(** ** The moment library, as far as the sources use it

    A moment is a local wall-clock instant: the number of the calendar day
    (days since 1970-01-01) and the milliseconds since that day's midnight.
    The zone is a fixed-offset one (UTC), so that adding a day never changes
    the time of day. *)

Module Moment.

Record t := mk { days : Z; ms : Z }.

Definition msPerDay : Z := 86400000.

Definition isLeapYear (y : Z) : bool :=
  ((y mod 4 =? 0) && negb (y mod 100 =? 0)) || (y mod 400 =? 0).

(** Months are numbered 1..12. *)
Definition daysInMonth (y m : Z) : Z :=
  if m =? 2 then (if isLeapYear y then 29 else 28)
  else if (m =? 4) || (m =? 6) || (m =? 9) || (m =? 11) then 30
  else 31.

(** Day number of a proleptic Gregorian date. *)
Definition days_from_civil (y m d : Z) : Z :=
  let y' := if m <=? 2 then y - 1 else y in
  let era := y' / 400 in
  let yoe := y' - era * 400 in
  let mp := if 2 <? m then m - 3 else m + 9 in
  let doy := (153 * mp + 2) / 5 + d - 1 in
  let doe := yoe * 365 + yoe / 4 - yoe / 100 + doy in
  era * 146097 + doe - 719468.

(** Proleptic Gregorian date (year, month, day of month) of a day number. *)
Definition civil_from_days (z : Z) : Z * Z * Z :=
  let z' := z + 719468 in
  let era := z' / 146097 in
  let doe := z' - era * 146097 in
  let yoe := (doe - doe / 1460 + doe / 36524 - doe / 146096) / 365 in
  let doy := doe - (365 * yoe + yoe / 4 - yoe / 100) in
  let mp := (5 * doy + 2) / 153 in
  let d := doy - (153 * mp + 2) / 5 + 1 in
  let m := if mp <? 10 then mp + 3 else mp - 9 in
  let y := yoe + era * 400 in
  ((if m <=? 2 then y + 1 else y), m, d).

(** [.subtract(n, "y")]: same month one or more years earlier, the day of
    the month clamped to the length of that month. *)
Definition subtract_y (n : Z) (x : t) : t :=
  let '(y, m, d) := civil_from_days (days x) in
  let y' := y - n in
  mk (days_from_civil y' m (Z.min d (daysInMonth y' m))) (ms x).

(** [.add(n, "d")] *)
Definition add_d (n : Z) (x : t) : t := mk (days x + n) (ms x).

(** [.add(n, "w")] *)
Definition add_w (n : Z) (x : t) : t := add_d (7 * n) x.

(** [.add(k, "ms")] for an integral number of milliseconds. *)
Definition add_ms (k : Z) (x : t) : t :=
  let total := ms x + k in
  mk (days x + total / msPerDay) (total mod msPerDay).

(** [.add(q, "minutes")] for a fractional, non-negative number of minutes:
    the instant is moved by the whole milliseconds of [q] minutes. *)
Definition add_minutes (q : Q) (x : t) : t :=
  add_ms (Qfloor (q * 60000)) x.

(** [.day()]: 0 is Sunday, 6 is Saturday; 1970-01-01 was a Thursday. *)
Definition day (x : t) : Z := (days x + 4) mod 7.

(** [.hour(h)] and [.minute(m)] for values inside their ranges. *)
Definition hour (h : Z) (x : t) : t :=
  mk (days x) (h * 3600000 + ms x mod 3600000).

Definition minute (m : Z) (x : t) : t :=
  mk (days x) (ms x / 3600000 * 3600000 + m * 60000 + ms x mod 60000).

(** [a.isSameOrBefore(b)] *)
Definition isSameOrBefore (a b : t) : bool :=
  (days a <? days b) || ((days a =? days b) && (ms a <=? ms b)).

(** The calendar part [YYYY-MM-DD] of [.format()]. *)
Definition formatDate (dayNumber : Z) : string :=
  let '(y, m, d) := civil_from_days dayNumber in
  Text.zeroFill y 4 ++ "-" ++ Text.zeroFill m 2 ++ "-" ++ Text.zeroFill d 2.

(** The clock part [HH:mm:ss] of [.format()]; milliseconds are dropped. *)
Definition formatTime (msOfDay : Z) : string :=
  Text.zeroFill (msOfDay / 3600000) 2 ++ ":" ++
  Text.zeroFill (msOfDay / 60000 mod 60) 2 ++ ":" ++
  Text.zeroFill (msOfDay / 1000 mod 60) 2.

(** [.format()]: ISO 8601 with the zone offset, [YYYY-MM-DDTHH:mm:ss+00:00]. *)
Definition format (x : t) : string :=
  formatDate (days x) ++ "T" ++ formatTime (ms x) ++ "+00:00".

(** [.format("YYYY-MM-DD HH:mm:ss")] *)
Definition formatPlain (x : t) : string :=
  formatDate (days x) ++ " " ++ formatTime (ms x).

End Moment.

(* --------------------------------------------------------------------- *)
(** ** Completions, the outside world and the effect monad *)

Module Js.

(** How a call ends: it returns a value or throws an [Error]; the error is
    represented by its [message]. *)
Inductive Completion (A : Type) : Type :=
| Returned (value : A)
| Thrown (message : string).
Arguments Returned {A} value.
Arguments Thrown {A} message.

Inductive Level := Debug | Info | Warn | Error.

Inductive Stream := Stdout | Stderr.

(** Calls that leave the program: jsonfile and simple-git. *)
Inductive Call :=
| WriteFile (date message : string)   (* jsonfile.writeFile(dataFile, data) *)
| GitInitialize                       (* the simple-git calls of initialize() *)
| GitAdd                              (* git.add([dataFile]) *)
| GitCommit (message date : string)   (* git.commit(message, {"--date": date}) *)
| GitPush (remote branch : string)    (* git.push(remote, branch, ...) *)
| GitPull (remote branch : string).   (* git.pull(remote, branch, ...) *)

(** What the outside world answers to a call: it resolves with a payload
    (for a commit, its hash) or rejects with an error message. *)
Inductive Answer :=
| Ok (payload : string)
| Fail (message : string).

Inductive Event :=
| ECall (c : Call) (a : Answer)
| EConsole (s : Stream) (text : string)
| ELog (l : Level) (message : string)
| ESleep (ms : Z)
| EExit (code : Z).

(** The oracle.  The [n]-th call gets [answer n], the [n]-th reading of the
    clock gets [clock n], the [n]-th use of the random source gets
    [random n] (for Math.random) or [hex n] (for crypto.randomBytes). *)
Record Env := mkEnv {
  answer : nat -> Answer;
  clock : nat -> Moment.t;
  random : nat -> Q;
  hex : nat -> string;
}.

(** The state a run threads: the trace so far (oldest event first), how
    often each part of the oracle was consulted, and the one mutable field
    of the GitService singleton. *)
Record State := mkState {
  trace : list Event;
  calls : nat;
  clockReads : nat;
  draws : nat;
  initialized : bool;
}.

Definition initial : State := mkState [] 0 0 0 false.

Definition M (A : Type) : Type := Env -> State -> Completion A * State.

Definition ret {A} (a : A) : M A := fun _ st => (Returned a, st).

Definition throw {A} (message : string) : M A := fun _ st => (Thrown message, st).

Definition bind {A B} (c : M A) (k : A -> M B) : M B :=
  fun env st =>
    match c env st with
    | (Returned a, st') => k a env st'
    | (Thrown e, st') => (Thrown e, st')
    end.

(** [try { c } catch (error) { handler(error.message) }] *)
Definition try_catch {A} (c : M A) (handler : string -> M A) : M A :=
  fun env st =>
    match c env st with
    | (Returned a, st') => (Returned a, st')
    | (Thrown e, st') => handler e env st'
    end.

(** The state with more events at the end of its trace. *)
Definition extend (st : State) (es : list Event) : State :=
  mkState (trace st ++ es)%list (calls st) (clockReads st) (draws st) (initialized st).

Definition emit (e : Event) : M unit :=
  fun _ st => (Returned tt, extend st [e]).

(** The state once the outside world has answered the call [c]. *)
Definition answered (env : Env) (st : State) (c : Call) : State :=
  mkState (trace st ++ [ECall c (answer env (calls st))])%list (S (calls st))
          (clockReads st) (draws st) (initialized st).

(** [await] of a call into jsonfile or simple-git. *)
Definition call (c : Call) : M string :=
  fun env st =>
    match answer env (calls st) with
    | Ok payload => (Returned payload, answered env st c)
    | Fail message => (Thrown message, answered env st c)
    end.

(** [moment()] *)
Definition now : M Moment.t :=
  fun env st =>
    (Returned (clock env (clockReads st)),
     mkState (trace st) (calls st) (S (clockReads st)) (draws st) (initialized st)).

(** [Math.random()] *)
Definition mathRandom : M Q :=
  fun env st =>
    (Returned (random env (draws st)),
     mkState (trace st) (calls st) (clockReads st) (S (draws st)) (initialized st)).

(** [crypto.randomBytes(4).toString("hex")] *)
Definition randomHex : M string :=
  fun env st =>
    (Returned (hex env (draws st)),
     mkState (trace st) (calls st) (clockReads st) (S (draws st)) (initialized st)).

Definition getInitialized : M bool := fun _ st => (Returned (initialized st), st).

Definition setInitialized (b : bool) : M unit :=
  fun _ st =>
    (Returned tt, mkState (trace st) (calls st) (clockReads st) (draws st) b).

Definition console_log (text : string) : M unit := emit (EConsole Stdout text).
Definition console_error (text : string) : M unit := emit (EConsole Stderr text).
Definition log (l : Level) (message : string) : M unit := emit (ELog l message).

(** [await sleep(ms)] *)
Definition sleep (ms : Z) : M unit := emit (ESleep ms).

(** [Math.floor(r * k)] *)
Definition floorMul (r : Q) (k : Z) : Z := Qfloor (r * inject_Z k).

(** [for (const x of xs) { body(x) }], the accumulator being the variables
    the body updates. *)
Fixpoint forEach {A S} (xs : list A) (body : A -> S -> M S) (acc : S) : M S :=
  match xs with
  | [] => ret acc
  | x :: rest => bind (body x acc) (forEach rest body)
  end.

(** The indices [0, 1, ..., n-1] of a counting loop [for (i = 0; i < n; i++)];
    empty when [n] is not positive. *)
Definition upto (n : Z) : list Z := map Z.of_nat (seq 0 (Z.to_nat n)).

End Js.

Declare Scope js_scope.
Delimit Scope js_scope with js.
Notation "x <- c ;; k" := (Js.bind c (fun x => k))
  (at level 61, c at next level, right associativity) : js_scope.
Notation "c ;; k" := (Js.bind c (fun _ => k))
  (at level 61, right associativity) : js_scope.
Local Open Scope js_scope.

(* --------------------------------------------------------------------- *)
(** ** The pattern script: PATTERNS, generateDate, createCommit, drawPattern,
       pushCommits, main *)

Module Pattern.
Import Js.

(** [pattern[day][week]]: seven rows (days, row 0 is Sunday) of cells. *)
Definition Grid := list (list Z).

Record Config := mkConfig {
  dataFile : string;
  yearsBack : Z;
  commitsPerCell : Z;   (* commits per cell, for intensity *)
}.

Definition CONFIG : Config := mkConfig "./data.json" 1 5.

(** The object literal PATTERNS, its keys in the order they are written. *)
Definition PATTERNS : list (string * Grid) :=
  [ ("heart",
     [ [0; 1; 1; 0; 0; 1; 1; 0];
       [1; 1; 1; 1; 1; 1; 1; 1];
       [1; 1; 1; 1; 1; 1; 1; 1];
       [1; 1; 1; 1; 1; 1; 1; 1];
       [0; 1; 1; 1; 1; 1; 1; 0];
       [0; 0; 1; 1; 1; 1; 0; 0];
       [0; 0; 0; 1; 1; 0; 0; 0] ]);
    ("hi",
     [ [1; 0; 1; 0; 1; 1; 1];
       [1; 0; 1; 0; 0; 1; 0];
       [1; 1; 1; 0; 0; 1; 0];
       [1; 0; 1; 0; 0; 1; 0];
       [1; 0; 1; 0; 0; 1; 0];
       [1; 0; 1; 0; 0; 1; 0];
       [1; 0; 1; 0; 1; 1; 1] ]);
    ("smiley",
     [ [0; 0; 1; 1; 1; 1; 0; 0];
       [0; 1; 0; 0; 0; 0; 1; 0];
       [1; 0; 1; 0; 0; 1; 0; 1];
       [1; 0; 0; 0; 0; 0; 0; 1];
       [1; 0; 1; 0; 0; 1; 0; 1];
       [0; 1; 0; 1; 1; 0; 1; 0];
       [0; 0; 1; 1; 1; 1; 0; 0] ]);
    ("checkerboard",
     [ [1; 0; 1; 0; 1; 0; 1; 0];
       [0; 1; 0; 1; 0; 1; 0; 1];
       [1; 0; 1; 0; 1; 0; 1; 0];
       [0; 1; 0; 1; 0; 1; 0; 1];
       [1; 0; 1; 0; 1; 0; 1; 0];
       [0; 1; 0; 1; 0; 1; 0; 1];
       [1; 0; 1; 0; 1; 0; 1; 0] ]);
    ("wave",
     [ [0; 0; 0; 1; 0; 0; 0; 1];
       [0; 0; 1; 0; 0; 0; 1; 0];
       [0; 1; 0; 0; 0; 1; 0; 0];
       [1; 0; 0; 0; 1; 0; 0; 0];
       [0; 1; 0; 0; 0; 1; 0; 0];
       [0; 0; 1; 0; 0; 0; 1; 0];
       [0; 0; 0; 1; 0; 0; 0; 1] ]) ].

(** [Object.keys(table)] *)
Definition keys (table : list (string * Grid)) : list string := map fst table.

(** The property names an object literal inherits from [Object.prototype];
    each of them holds a function or an object, none of them an array. *)
Definition inherited : list string :=
  [ "constructor"; "__defineGetter__"; "__defineSetter__"; "hasOwnProperty";
    "__lookupGetter__"; "__lookupSetter__"; "isPrototypeOf";
    "propertyIsEnumerable"; "toString"; "valueOf"; "__proto__";
    "toLocaleString" ].

Definition isInherited (key : string) : bool :=
  existsb (String.eqb key) inherited.

(** What [table[key]] evaluates to. *)
Inductive Property :=
| Undefined
| Own (g : Grid)
| FromPrototype.

Fixpoint own (table : list (string * Grid)) (key : string) : option Grid :=
  match table with
  | [] => None
  | (k, g) :: rest => if String.eqb k key then Some g else own rest key
  end.

Definition get (table : list (string * Grid)) (key : string) : Property :=
  match own table key with
  | Some g => Own g
  | None => if isInherited key then FromPrototype else Undefined
  end.

(** [pattern[day] && pattern[day][week] === 1] *)
Definition cell (pattern : Grid) (day week : nat) : bool :=
  match nth_error pattern day with
  | None => false
  | Some row =>
      match nth_error row week with
      | Some v => v =? 1
      | None => false
      end
  end.

(** [pattern.flat().filter(cell => cell === 1).length] *)
Definition totalCells (pattern : Grid) : nat :=
  List.length (filter (fun c => c =? 1) (List.concat pattern)).

(** A pattern grid as the patterns are written: seven rows of one width. *)
Definition width (pattern : Grid) : nat := List.length (hd [] pattern).

Definition wellFormed (pattern : Grid) : Prop :=
  List.length pattern = 7%nat
  /\ Forall (fun row => List.length row = width pattern) pattern.

(** The cells of one week that are set, among the days [days]. *)
Definition column (pattern : Grid) (week : nat) (days : list nat) : list (nat * nat) :=
  map (pair week) (filter (fun day => cell pattern day week) days).

(** The cells that are set, as (week, day), week by week and day by day
    within a week. *)
Definition onCells (pattern : Grid) : list (nat * nat) :=
  flat_map (fun week => column pattern week (seq 0 7)) (seq 0 (width pattern)).

(** (week, day) comes before (week', day') in column-major order. *)
Definition colMajor (a b : nat * nat) : Prop :=
  (fst a < fst b)%nat \/ (fst a = fst b /\ (snd a < snd b)%nat).

Section Script.
Variable config : Config.
Variable table : list (string * Grid).

(** The value of generateDate when [moment()] reads [t]. *)
Definition generateDateAt (t : Moment.t) (weeksBack dayOfWeek : Z) : string :=
  Moment.format
    (Moment.add_d dayOfWeek
       (Moment.add_w weeksBack
          (Moment.add_d 1
             (Moment.subtract_y (yearsBack config) t)))).

(** The expansion of a pattern as the specification words it: for each
    cell that is set, in column-major order, the date of the cell
    [intensity] times over; the date of a cell is generateDate at the
    clock reading made for that cell, the readings being numbered from
    [reading]. *)
Fixpoint expand (clock : nat -> Moment.t) (startWeekOffset : Z) (intensity : nat)
    (reading : nat) (cells : list (nat * nat)) : list string :=
  match cells with
  | [] => []
  | (week, day) :: rest =>
      (List.repeat
         (generateDateAt (clock reading) (startWeekOffset + Z.of_nat week)
                         (Z.of_nat day))
         intensity
       ++ expand clock startWeekOffset intensity (S reading) rest)%list
  end.

Definition expandPattern (clock : nat -> Moment.t) (grid : Grid)
    (startWeekOffset : Z) (intensity : nat) (reading : nat) : list string :=
  expand clock startWeekOffset intensity reading (onCells grid).

Definition generateDate (weeksBack dayOfWeek : Z) : M string :=
  t <- now ;;
  ret (generateDateAt t weeksBack dayOfWeek).

(** The marker record is [{ date, timestamp: Date.now() }]; only its date
    is kept in the trace. *)
Definition writeData (date : string) : M unit :=
  _ <- call (WriteFile date "") ;; ret tt.

Definition createCommit (date : string) : M unit :=
  writeData date ;;
  _ <- call GitAdd ;;
  _ <- call (GitCommit date date) ;;
  ret tt.

(** The body of the two loops over [week] and [day]; [currentCommit] is
    the counter the loops update. *)
Definition drawCell (pattern : Grid) (startWeek : Z) (week day : nat)
    (currentCommit : Z) : M Z :=
  if cell pattern day week then
    date <- generateDate (startWeek + Z.of_nat week) (Z.of_nat day) ;;
    currentCommit' <-
      forEach (upto (commitsPerCell config))
              (fun _ n => createCommit date ;; ret (n + 1))
              currentCommit ;;
    console_log ("✓ Week " ++ Text.of_nat week ++ ", Day " ++ Text.of_nat day
                 ++ " - " ++ Text.of_Z (commitsPerCell config) ++ " commits") ;;
    ret currentCommit'
  else ret currentCommit.

Definition notFound (patternName : string) : string :=
  "❌ Pattern " ++ Text.dquote ++ patternName ++ Text.dquote ++ " not found!".

Definition available : string :=
  "Available patterns: " ++ Text.join ", " (keys table).

Definition drawPattern (patternName : string) (startWeek : Z) : M unit :=
  match get table patternName with
  | Undefined =>
      console_error (notFound patternName) ;;
      console_log available ;;
      ret tt
  | found =>
      console_log (Text.nl ++ "🎨 Drawing pattern: " ++ patternName) ;;
      console_log ("Starting at week: " ++ Text.of_Z startWeek ++ Text.nl) ;;
      match found with
      | Own pattern =>
          let totalCells := totalCells pattern in
          let totalCommits := Z.of_nat totalCells * commitsPerCell config in
          match pattern with
          | [] => throw "Cannot read properties of undefined (reading 'length')"
          | row0 :: _ =>
              let weeks := List.length row0 in
              currentCommit <-
                forEach (seq 0 weeks)
                        (fun week =>
                           forEach (seq 0 7) (drawCell pattern startWeek week))
                        0 ;;
              console_log (Text.nl ++ "📊 Total commits created: "
                           ++ Text.of_Z currentCommit)
          end
      | _ => throw "pattern.flat is not a function"
      end
  end.

(** [git.push()] without arguments: no remote and no branch are named. *)
Definition pushCommits : M unit :=
  console_log (Text.nl ++ "📤 Pushing to remote...") ;;
  _ <- call (GitPush "" "") ;;
  console_log "✅ Push completed!".

(** [argv2] is [process.argv[2]] and [argv3] is [parseInt(process.argv[3])],
    [None] standing for [undefined] and for [NaN]. *)
Definition main (argv2 : option string) (argv3 : option Z) : M unit :=
  try_catch
    (let patternName :=
       match argv2 with
       | Some s => if String.eqb s "" then "heart" else s
       | None => "heart"
       end in
     let startWeek :=
       match argv3 with
       | Some z => if z =? 0 then 10 else z
       | None => 10
       end in
     console_log (Text.repeat "=" 50) ;;
     console_log "   GitHub Contribution Pattern Generator" ;;
     console_log (Text.repeat "=" 50) ;;
     console_log (Text.nl ++ available) ;;
     console_log ("Usage: npm run pattern <pattern-name> <start-week>" ++ Text.nl) ;;
     drawPattern patternName startWeek ;;
     pushCommits ;;
     console_log (Text.nl ++ "🎉 Done! Check your GitHub profile."))
    (fun message =>
       console_error (Text.nl ++ "❌ Error: " ++ message) ;;
       emit (EExit 1)).

End Script.

End Pattern.

(* --------------------------------------------------------------------- *)
(** ** Reading a trace *)

Module Obs.
Import Js.

(** The events a run added: those of [after] behind the ones of [before]. *)
Definition since (before after : State) : list Event :=
  skipn (List.length (trace before)) (trace after).

Definition isLog (e : Event) : bool :=
  match e with
  | ELog _ _ => true
  | _ => false
  end.

(** The calls into jsonfile and simple-git, in order. *)
Definition callsOf (es : list Event) : list Call :=
  flat_map (fun e => match e with ECall c _ => [c] | _ => [] end) es.

(** The waits, in order. *)
Definition sleepsOf (es : list Event) : list Z :=
  flat_map (fun e => match e with ESleep ms => [ms] | _ => [] end) es.

(** The authored dates of the commits that were created, in order. *)
Definition commitDates (es : list Event) : list string :=
  flat_map (fun e => match e with
                     | ECall (GitCommit _ date) (Ok _) => [date]
                     | _ => []
                     end) es.


Definition isNetwork (c : Call) : bool :=
  match c with
  | GitPush _ _ | GitPull _ _ => true
  | _ => false
  end.

(** The place of a call in a run of executeTask: initialisation, pull,
    commit creation, push. *)
Definition phase (c : Call) : nat :=
  match c with
  | GitInitialize => 0
  | GitPull _ _ => 1
  | WriteFile _ _ | GitAdd | GitCommit _ _ => 2
  | GitPush _ _ => 3
  end.


(** From [w] to [w'] the trace has grown, and the commits created on the
    way bear the dates [dates]. *)
Definition adds (w w' : State) (dates : list string) : Prop :=
  exists es, trace w' = (trace w ++ es)%list /\ commitDates es = dates.

(** Every call of the oracle succeeds. *)
Definition allOk (env : Env) : Prop :=
  forall i, exists payload, answer env i = Ok payload.

(** Math.random() stays in the unit interval. *)
Definition unitRandom (env : Env) : Prop :=
  forall i, (0 <= random env i)%Q /\ (random env i < 1)%Q.

(** [needle] occurs in [hay]. *)
Definition occursIn (needle hay : string) : Prop :=
  exists before after, hay = before ++ needle ++ after.

End Obs.

(* --------------------------------------------------------------------- *)
(** ** config.js: the settings the services read *)

Module Config.

Record t := mk {
  git_remoteName : string;
  git_branch : string;
  commits_minPerDay : Z;
  commits_maxPerDay : Z;
  backfill_skipWeekends : bool;
  backfill_minCommits : Z;
  backfill_maxCommits : Z;
  app_dryRun : bool;
  app_retryAttempts : Z;
  app_retryDelay : Z;
}.


(** CONFIG when no environment variable is set. *)
Definition defaults : t := mk "origin" "main" 1 5 false 1 8 false 3 1000.

End Config.

(* --------------------------------------------------------------------- *)
(** ** git-service.js *)

Module Git.
Import Js.

(** What [push] resolves with. *)
Inductive PushResult :=
| PushFlags (pushed : bool) (local : option bool)  (* { pushed } or { pushed, local } *)
| PushOutput (payload : string)                    (* the result of git.push *)
| PushNothing.                                     (* undefined: the loop ran out *)

(** What [pull] resolves with. *)
Inductive PullResult :=
| PullEmpty                                        (* {} *)
| PullOutput (payload : string).                   (* the result of git.pull *)

(** What [commit] resolves with. *)
Inductive CommitResult :=
| CommitDryRun                  (* { commit: "dry-run", summary: { changes: 0 } } *)
| CommitOutput (hash : string). (* the result of git.commit *)



(** [options = {}] of push and pull. *)
Record Options := mkOptions { remote : option string; branch : option string }.

Definition noOptions : Options := mkOptions None None.

(** [value || fallback] on strings: undefined and the empty string are falsy. *)
Definition orElse (value : option string) (fallback : string) : string :=
  match value with
  | Some s => if String.eqb s "" then fallback else s
  | None => fallback
  end.

(** The test of the catch block of push. *)
Definition remoteAbsent (message : string) : bool :=
  Text.includes message "does not appear to be a git repository"
  || Text.includes message "repository not found"
  || Text.includes message "Could not read from remote".

(** The test of the catch block of pull. *)
Definition pullIgnored (message : string) : bool :=
  Text.includes message "no tracking information"
  || Text.includes message "couldn't find remote ref"
  || Text.includes message "does not appear to be a git repository"
  || Text.includes message "repository not found"
  || Text.includes message "unstaged changes"
  || Text.includes message "You have unstaged changes".

(** The failures of pull that the specification calls recoverable: the
    message names one of these conditions. *)
Definition recoverableClasses : list string :=
  [ "no tracking information";
    "couldn't find remote ref";
    "does not appear to be a git repository";
    "repository not found";
    "unstaged changes" ].

Definition recoverable (message : string) : Prop :=
  exists phrase, In phrase recoverableClasses /\ Obs.occursIn phrase message.

(** The failures of push of the remote-absent class. *)
Definition remoteAbsentClasses : list string :=
  [ "does not appear to be a git repository";
    "repository not found";
    "Could not read from remote" ].

Definition remoteMissing (message : string) : Prop :=
  exists phrase, In phrase remoteAbsentClasses /\ Obs.occursIn phrase message.

Section Service.
Variable CONFIG : Config.t.

(** The simple-git calls of initialize (checkIsRepo, init, addConfig,
    getRemotes, addRemote) are one call to the outside world: it fails
    when any of them does. *)
Definition initialize : M bool :=
  try_catch
    (log Info "Initializing Git service..." ;;
     _ <- call GitInitialize ;;
     setInitialized true ;;
     log Info "Git service initialized successfully" ;;
     ret true)
    (fun message =>
       log Error "Failed to initialize Git service" ;;
       throw message).

Definition ensureInitialized : M unit :=
  ready <- getInitialized ;;
  if ready then ret tt else (_ <- initialize ;; ret tt).

Definition add : M unit :=
  ensureInitialized ;;
  try_catch
    (_ <- call GitAdd ;;
     log Debug "Files staged")
    (fun message =>
       log Error "Failed to stage files" ;;
       throw message).

(** [commit(message, { date })]. *)
Definition commit (message date : string) : M CommitResult :=
  ensureInitialized ;;
  try_catch
    (if Config.app_dryRun CONFIG then
       log Info "[DRY RUN] Would commit" ;;
       ret CommitDryRun
     else
       hash <- call (GitCommit message date) ;;
       log Debug "Commit created" ;;
       ret (CommitOutput hash))
    (fun error =>
       log Error "Failed to create commit" ;;
       throw error).

(** One round of the loop of push: [Some r] when the round returns [r],
    [None] when it ends with the wait before the next attempt. *)
Definition pushAttempt (options : Options) (attempt : Z) : M (option PushResult) :=
  let maxRetries := Config.app_retryAttempts CONFIG in
  let retryDelay := Config.app_retryDelay CONFIG in
  try_catch
    (if Config.app_dryRun CONFIG then
       log Info "[DRY RUN] Would push to remote" ;;
       ret (Some (PushFlags true None))
     else
       let remote := orElse (remote options) (Config.git_remoteName CONFIG) in
       let branch := orElse (branch options) (Config.git_branch CONFIG) in
       log Info ("Pushing to " ++ remote ++ "/" ++ branch ++ " (attempt "
                 ++ Text.of_Z attempt ++ "/" ++ Text.of_Z maxRetries ++ ")") ;;
       result <- call (GitPush remote branch) ;;
       log Info "Push successful" ;;
       ret (Some (PushOutput result)))
    (fun message =>
       if remoteAbsent message then
         log Warn "Remote repository not available. Commits saved locally." ;;
         ret (Some (PushFlags false (Some true)))
       else
         log Warn ("Push attempt " ++ Text.of_Z attempt ++ " failed") ;;
         if attempt =? maxRetries then
           log Error "All push attempts failed" ;;
           throw message
         else
           sleep (retryDelay * attempt) ;;
           ret None).

(** The first line a round of push logs. *)
Definition pushing (options : Options) (attempt : Z) : Event :=
  ELog Info ("Pushing to " ++ orElse (remote options) (Config.git_remoteName CONFIG)
             ++ "/" ++ orElse (branch options) (Config.git_branch CONFIG)
             ++ " (attempt " ++ Text.of_Z attempt ++ "/"
             ++ Text.of_Z (Config.app_retryAttempts CONFIG) ++ ")").

(** The call of a round of push, answered by [a]. *)
Definition pushCall (options : Options) (a : Answer) : Event :=
  ECall (GitPush (orElse (remote options) (Config.git_remoteName CONFIG))
                 (orElse (branch options) (Config.git_branch CONFIG))) a.

(** What a round of push leaves in the trace when its attempt fails with
    [message] and is to be followed by another attempt. *)
Definition failedRound (options : Options) (attempt : Z) (message : string)
    : list Event :=
  [ pushing options attempt;
    pushCall options (Fail message);
    ELog Warn ("Push attempt " ++ Text.of_Z attempt ++ " failed");
    ESleep (Config.app_retryDelay CONFIG * attempt) ].

(** The state after [k] such rounds, the first of them being attempt
    number [attempt] and round [i] failing with [msg i]. *)
Definition afterRounds (options : Options) (attempt : Z) (msg : nat -> string)
    (k : nat) (w : State) : State :=
  mkState
    (trace w ++
       flat_map (fun i => failedRound options (attempt + Z.of_nat i) (msg i))
                (seq 0 k))%list
    (calls w + k)%nat (clockReads w) (draws w) (initialized w).

(** The state after a round whose attempt fails with [message] and which
    ends the loop, [closing] being what the round logs behind the call. *)
Definition lastRound (options : Options) (attempt : Z) (message : string)
    (closing : list Event) (w : State) : State :=
  mkState
    (trace w ++ [pushing options attempt; pushCall options (Fail message)]
             ++ closing)%list
    (S (calls w)) (clockReads w) (draws w) (initialized w).

(** [for (let attempt = 1; attempt <= maxRetries; attempt++)]: [rounds]
    is the number of values of [attempt] still to go. *)
Fixpoint pushLoop (options : Options) (rounds : nat) (attempt : Z) : M PushResult :=
  match rounds with
  | O => ret PushNothing
  | S rounds' =>
      r <- pushAttempt options attempt ;;
      match r with
      | Some result => ret result
      | None => pushLoop options rounds' (attempt + 1)
      end
  end.

Definition push (options : Options) : M PushResult :=
  ensureInitialized ;;
  pushLoop options (Z.to_nat (Config.app_retryAttempts CONFIG)) 1.

Definition pull (options : Options) : M PullResult :=
  ensureInitialized ;;
  try_catch
    (let remote := orElse (remote options) (Config.git_remoteName CONFIG) in
     let branch := orElse (branch options) (Config.git_branch CONFIG) in
     if Config.app_dryRun CONFIG then
       log Info "[DRY RUN] Would pull from remote" ;;
       ret PullEmpty
     else
       result <- call (GitPull remote branch) ;;
       log Info "Pull successful" ;;
       ret (PullOutput result))
    (fun message =>
       if pullIgnored message then
         log Debug "Remote not available or local changes, skipping pull" ;;
         ret PullEmpty
       else
         log Error "Failed to pull" ;;
         throw message).

End Service.

End Git.

(* --------------------------------------------------------------------- *)
(** ** commit-service.js *)

Module Commit.
Import Js.

(** The counters backfillContributions returns. *)
Record Stats := mkStats {
  totalDays : Z;
  totalCommits : Z;
  skippedDays : Z;
  errors : Z;
}.

(** [options = {}] of backfillContributions. *)
Record Options := mkOptions {
  skipWeekends : option bool;
  minCommits : option Z;
  maxCommits : option Z;
}.

Definition noOptions : Options := mkOptions None None None.

(** [value ?? fallback] *)
Definition nullish {A} (value : option A) (fallback : A) : A :=
  match value with
  | Some v => v
  | None => fallback
  end.

(** The calendar days [first], [first + 1], ..., [count] of them. *)
Definition daysFrom (first : Z) (count : nat) : list Z :=
  map (fun i => first + Z.of_nat i) (seq 0 count).

(** The calendar days of a range of dates, both ends included. *)
Definition range (start end_ : Moment.t) : list Z :=
  daysFrom (Moment.days start)
           (Z.to_nat (Moment.days end_ - Moment.days start + 1)).

(** The calendar day is a Saturday or a Sunday. *)
Definition isWeekend (dayNumber : Z) : bool :=
  ((dayNumber + 4) mod 7 =? 0) || ((dayNumber + 4) mod 7 =? 6).

(** Of the calendar days [ds], how many the loop skips and how many it
    processes. *)
Definition skippedIn (skip : bool) (ds : list Z) : Z :=
  if skip then Z.of_nat (List.length (filter isWeekend ds)) else 0.

Definition processedIn (skip : bool) (ds : list Z) : Z :=
  Z.of_nat (List.length ds) - skippedIn skip ds.

(** The event, when it writes the marker file or creates a commit, bears
    the formatted date of a moment that, with [skip] set, falls on
    neither a Saturday nor a Sunday. *)
Definition dated (skip : bool) (e : Event) : Prop :=
  let workday date :=
    exists m, date = Moment.format m
              /\ (skip = true -> Moment.day m <> 0 /\ Moment.day m <> 6) in
  match e with
  | ECall (WriteFile date _) _ => workday date
  | ECall (GitCommit _ date) _ => workday date
  | _ => True
  end.

Section Service.
Variable CONFIG : Config.t.

Definition generateCommitMessage (date : Moment.t) : M string :=
  hash <- randomHex ;;
  let timestamp := Moment.formatPlain date in
  ret ("chore: contribution " ++ timestamp ++ " [" ++ hash ++ "]").

Definition getRandomCommitCount : M Z :=
  let min := Config.commits_minPerDay CONFIG in
  let max := Config.commits_maxPerDay CONFIG in
  r <- mathRandom ;;
  ret (floorMul r (max - min + 1) + min).

(** The marker record is [{ date, message, timestamp, id }]; its date and
    message are kept in the trace. *)
Definition writeDataFile (date message : string) : M unit :=
  _ <- call (WriteFile date message) ;; ret tt.

(** [createCommit(date, message = null)] *)
Definition createCommit (date : Moment.t) (message : option string)
    : M Git.CommitResult :=
  let commitDate := Moment.format date in
  commitMessage <-
    match message with
    | Some m => if String.eqb m "" then generateCommitMessage date else ret m
    | None => generateCommitMessage date
    end ;;
  try_catch
    (writeDataFile commitDate commitMessage ;;
     Git.add ;;
     result <- Git.commit CONFIG commitMessage commitDate ;;
     log Info "Commit created" ;;
     ret result)
    (fun error =>
       log Error "Failed to create commit" ;;
       throw error).

(** The zone of the model is UTC and [.tz(CONFIG.schedule.timezone)]
    is left out: the dates of these commits are formatted with the
    offset written out, as those of local moments are.  The minutes are
    added as the exact product [Math.random() * 60 * 12]. *)
Definition createTodayContributions : M (list Git.CommitResult) :=
  today <- now ;;
  commitCount <- getRandomCommitCount ;;
  log Info ("Creating " ++ Text.of_Z commitCount ++ " contributions for today") ;;
  forEach (upto commitCount)
    (fun i results =>
       r <- mathRandom ;;
       let commitTime := Moment.add_minutes (r * 60 * 12) today in
       try_catch
         (result <- createCommit commitTime None ;;
          sleep 100 ;;
          ret (results ++ [result])%list)
         (fun error =>
            log Error ("Failed to create commit " ++ Text.of_Z (i + 1) ++ "/"
                       ++ Text.of_Z commitCount) ;;
            ret results))
    [].

(** The body of the loop over [i] of backfillContributions. *)
Definition backfillCommit (current : Moment.t) (stats : Stats) : M Stats :=
  try_catch
    (r1 <- mathRandom ;;
     r2 <- mathRandom ;;
     let commitTime :=
       Moment.minute (floorMul r2 60) (Moment.hour (9 + floorMul r1 12) current) in
     _ <- createCommit commitTime None ;;
     let stats' := mkStats (totalDays stats) (totalCommits stats + 1)
                           (skippedDays stats) (errors stats) in
     sleep 50 ;;
     ret stats')
    (fun error =>
       log Error "Backfill commit failed" ;;
       ret (mkStats (totalDays stats) (totalCommits stats)
                    (skippedDays stats) (errors stats + 1))).

(** [while (current.isSameOrBefore(end)) { ... }]; [fuel] bounds the
    number of rounds. *)
Fixpoint backfillLoop (fuel : nat) (skipWeekends : bool) (minCommits maxCommits : Z)
    (end_ current : Moment.t) (stats : Stats) : M Stats :=
  match fuel with
  | O => ret stats
  | S fuel' =>
      if Moment.isSameOrBefore current end_ then
        let dayOfWeek := Moment.day current in
        let isWeekend := (dayOfWeek =? 0) || (dayOfWeek =? 6) in
        if skipWeekends && isWeekend then
          log Debug "Skipping weekend" ;;
          backfillLoop fuel' skipWeekends minCommits maxCommits end_
            (Moment.add_d 1 current)
            (mkStats (totalDays stats) (totalCommits stats)
                     (skippedDays stats + 1) (errors stats))
        else
          r <- mathRandom ;;
          let commitCount := floorMul r (maxCommits - minCommits + 1) + minCommits in
          log Info ("Processing " ++ Moment.formatDate (Moment.days current)
                    ++ " with " ++ Text.of_Z commitCount ++ " commits") ;;
          stats1 <- forEach (upto commitCount)
                            (fun _ => backfillCommit current) stats ;;
          let stats2 := mkStats (totalDays stats1 + 1) (totalCommits stats1)
                                (skippedDays stats1) (errors stats1) in
          (if totalDays stats2 mod 7 =? 0
           then log Info "Backfill progress" else ret tt) ;;
          backfillLoop fuel' skipWeekends minCommits maxCommits end_
            (Moment.add_d 1 current) stats2
      else ret stats
  end.

(** The rounds the loop can make: one for each calendar day from the
    start to the end. *)
Definition rounds (start end_ : Moment.t) : nat :=
  Z.to_nat (Moment.days end_ - Moment.days start + 1).

Definition backfillContributions (startDate endDate : Moment.t)
    (options : Options) : M Stats :=
  let start := startDate in
  let end_ := endDate in
  let skipWeekends := nullish (skipWeekends options) (Config.backfill_skipWeekends CONFIG) in
  let minCommits := nullish (minCommits options) (Config.backfill_minCommits CONFIG) in
  let maxCommits := nullish (maxCommits options) (Config.backfill_maxCommits CONFIG) in
  log Info "Starting backfill operation" ;;
  stats <- backfillLoop (rounds start end_) skipWeekends minCommits maxCommits
                        end_ start (mkStats 0 0 0 0) ;;
  log Info "Backfill completed" ;;
  ret stats.

End Service.

End Commit.

(* --------------------------------------------------------------------- *)
(** ** scheduler.js *)

Module Sched.
Import Js.

Record Stats := mkStats {
  totalRuns : Z;
  successfulRuns : Z;
  failedRuns : Z;
}.

(** The fields of the Scheduler singleton; [job] is the cron expression of
    the registered job, [None] for [null]. *)
Record Scheduler := mkScheduler {
  job : option string;
  isRunning : bool;
  lastRun : option Moment.t;
  nextRun : option string;
  stats : Stats;
}.

Definition constructor : Scheduler :=
  mkScheduler None false None None (mkStats 0 0 0).

Definition setRunning (b : bool) (s : Scheduler) : Scheduler :=
  mkScheduler (job s) b (lastRun s) (nextRun s) (stats s).

Definition setLastRun (t : Moment.t) (s : Scheduler) : Scheduler :=
  mkScheduler (job s) (isRunning s) (Some t) (nextRun s) (stats s).

(** [this.stats.totalRuns++] and its two siblings. *)
Definition countRun (s : Scheduler) : Scheduler :=
  mkScheduler (job s) (isRunning s) (lastRun s) (nextRun s)
    (mkStats (totalRuns (stats s) + 1) (successfulRuns (stats s)) (failedRuns (stats s))).

Definition countSuccess (s : Scheduler) : Scheduler :=
  mkScheduler (job s) (isRunning s) (lastRun s) (nextRun s)
    (mkStats (totalRuns (stats s)) (successfulRuns (stats s) + 1) (failedRuns (stats s))).

Definition countFailure (s : Scheduler) : Scheduler :=
  mkScheduler (job s) (isRunning s) (lastRun s) (nextRun s)
    (mkStats (totalRuns (stats s)) (successfulRuns (stats s)) (failedRuns (stats s) + 1)).

(** The two notices of the skip path and of runNow. *)
Definition skipNotice : Event :=
  ELog Warn "Task already running, skipping this execution".

Definition manualNotice : Event :=
  ELog Info "Manual task execution triggered".

Definition startedNotice : Event :=
  ELog Info "Starting scheduled contribution task".

Definition completedNotice : Event :=
  ELog Info "Scheduled task completed successfully".

Definition failedNotice : Event :=
  ELog Error "Scheduled task failed".

(** The world once executeTask has read the clock for [lastRun] and logged
    its start. *)
Definition started (w : State) : State :=
  extend (mkState (trace w) (calls w) (S (clockReads w)) (draws w) (initialized w))
         [startedNotice].

Section Service.
Variable CONFIG : Config.t.

(** executeTask, run from its first line to its last without another
    task of the event loop in between. *)
Definition executeTask (this : Scheduler) : M Scheduler :=
  if isRunning this then
    log Warn "Task already running, skipping this execution" ;;
    ret this
  else
    t <- now ;;
    let this := countRun (setLastRun t (setRunning true this)) in
    log Info "Starting scheduled contribution task" ;;
    this <-
      try_catch
        (_ <- Git.pull CONFIG Git.noOptions ;;
         results <- Commit.createTodayContributions CONFIG ;;
         _ <- Git.push CONFIG Git.noOptions ;;
         let this := countSuccess this in
         log Info "Scheduled task completed successfully" ;;
         ret this)
        (fun error =>
           let this := countFailure this in
           log Error "Scheduled task failed" ;;
           ret this) ;;
    ret (setRunning false this).

(** The callback of the cron job: [async () => { await this.executeTask() }]. *)
Definition cronTick (this : Scheduler) : M Scheduler := executeTask this.

Definition runNow (this : Scheduler) : M Scheduler :=
  log Info "Manual task execution triggered" ;;
  executeTask this.

(** *** executeTask cut at its awaits

    An executeTask call that is under way is suspended at one of its
    three awaits; between two awaits other tasks of the event loop run,
    among them further triggers. *)
Inductive Await :=
| AwaitPull
| AwaitCreate
| AwaitPush (results : list Git.CommitResult).

(** From the entry of executeTask up to its first await,
    [await gitService.pull()].  The call of pull is counted with the
    resumption: what pull does before its own first await, the first
    line of the log of an initialisation when the service is not
    initialised, shows in the trace there. *)
Definition enter (this : Scheduler) : M (Scheduler * option Await) :=
  if isRunning this then
    log Warn "Task already running, skipping this execution" ;;
    ret (this, None)
  else
    t <- now ;;
    let this := countRun (setLastRun t (setRunning true this)) in
    log Info "Starting scheduled contribution task" ;;
    ret (this, Some AwaitPull).

(** The catch block followed by the finally block. *)
Definition caught (this : Scheduler) : M (Scheduler * option Await) :=
  let this := countFailure this in
  log Error "Scheduled task failed" ;;
  ret (setRunning false this, None).

(** From the settlement of one await to the next await, or to the end. *)
Definition resume (a : Await) (this : Scheduler) : M (Scheduler * option Await) :=
  match a with
  | AwaitPull =>
      try_catch
        (_ <- Git.pull CONFIG Git.noOptions ;; ret (this, Some AwaitCreate))
        (fun _ => caught this)
  | AwaitCreate =>
      try_catch
        (results <- Commit.createTodayContributions CONFIG ;;
         ret (this, Some (AwaitPush results)))
        (fun _ => caught this)
  | AwaitPush results =>
      try_catch
        (_ <- Git.push CONFIG Git.noOptions ;;
         let this := countSuccess this in
         log Info "Scheduled task completed successfully" ;;
         ret (setRunning false this, None))
        (fun _ => caught this)
  end.

(** A call that is run on from await to await until it ends; a call
    passes at most three awaits. *)
Fixpoint drive (awaits : nat) (a : option Await) (this : Scheduler) : M Scheduler :=
  match a, awaits with
  | None, _ => ret this
  | Some _, O => ret this
  | Some a', S awaits' =>
      r <- resume a' this ;;
      drive awaits' (snd r) (fst r)
  end.

(** The scheduler object, the executeTask calls under way, and the world. *)
Record System := mkSystem {
  scheduler : Scheduler;
  suspended : list Await;
  world : State;
}.

Definition boot (w : State) : System := mkSystem constructor [] w.

Definition park (a : option Await) (l : list Await) : list Await :=
  match a with
  | Some a' => (l ++ [a'])%list
  | None => l
  end.

(** One task of the event loop is a trigger (the cron tick or runNow)
    running up to its first await, or one suspended call running on from
    its await. *)
Inductive trigger (env : Env) : System -> System -> Prop :=
| trigger_tick : forall sys this a w,
    enter (scheduler sys) env (world sys) = (Returned (this, a), w) ->
    trigger env sys (mkSystem this (park a (suspended sys)) w)
| trigger_runNow : forall sys this a w,
    (log Info "Manual task execution triggered" ;; enter (scheduler sys))
      env (world sys) = (Returned (this, a), w) ->
    trigger env sys (mkSystem this (park a (suspended sys)) w).

Inductive step (env : Env) : System -> System -> Prop :=
| step_trigger : forall sys sys',
    trigger env sys sys' -> step env sys sys'
| step_resume : forall sys before a after this a' w,
    suspended sys = (before ++ a :: after)%list ->
    resume a (scheduler sys) env (world sys) = (Returned (this, a'), w) ->
    step env sys (mkSystem this (park a' (before ++ after)%list) w).

(** What the interleavings keep: a call is suspended exactly while the
    flag is set, there is never more than one, and the run under way is
    the one counted in totalRuns and not yet in the other two counters. *)
Definition consistent (sys : System) : Prop :=
  let st := stats (scheduler sys) in
  0 <= successfulRuns st /\ 0 <= failedRuns st
  /\ if isRunning (scheduler sys)
     then (exists a, suspended sys = [a])
          /\ totalRuns st = successfulRuns st + failedRuns st + 1
     else suspended sys = []
          /\ totalRuns st = successfulRuns st + failedRuns st.

(** What one task of the event loop does to the counters. *)
Definition unchanged (this this' : Scheduler) : Prop :=
  stats this' = stats this /\ isRunning this' = isRunning this.

Definition begins (this this' : Scheduler) : Prop :=
  isRunning this = false /\ isRunning this' = true
  /\ totalRuns (stats this') = totalRuns (stats this) + 1
  /\ successfulRuns (stats this') = successfulRuns (stats this)
  /\ failedRuns (stats this') = failedRuns (stats this).

Definition ends (this this' : Scheduler) : Prop :=
  isRunning this = true /\ isRunning this' = false
  /\ totalRuns (stats this') = totalRuns (stats this)
  /\ ((successfulRuns (stats this') = successfulRuns (stats this) + 1
       /\ failedRuns (stats this') = failedRuns (stats this))
      \/ (successfulRuns (stats this') = successfulRuns (stats this)
          /\ failedRuns (stats this') = failedRuns (stats this) + 1)).

Inductive reachable (env : Env) (w0 : State) : System -> Prop :=
| reach_boot : reachable env w0 (boot w0)
| reach_step : forall sys sys',
    reachable env w0 sys -> step env sys sys' -> reachable env w0 sys'.

End Service.

End Sched.

(* --------------------------------------------------------------------- *)
(** ** Sample inputs *)

Module Sample.
Import Js.

(** Ten in the morning of Sunday 2024-03-10, one second later at every reading. *)
Definition clockFrom (n : nat) : Moment.t :=
  Moment.mk (Moment.days_from_civil 2024 3 10) (36000000 + 1000 * Z.of_nat n).

(** A world in which every call succeeds. *)
Definition calm : Env :=
  mkEnv (fun _ => Ok "abc1234") clockFrom (fun _ => (1 # 2)%Q) (fun _ => "deadbeef").

(** A world in which every call fails with [message]. *)
Definition failing (message : string) : Env :=
  mkEnv (fun _ => Fail message) clockFrom (fun _ => (1 # 2)%Q) (fun _ => "deadbeef").

(** A state whose GitService is initialised. *)
Definition ready : State := mkState [] 0 0 0 true.

(** A scheduler in the middle of its first run. *)
Definition busy : Sched.Scheduler :=
  Sched.mkScheduler (Some "0 9 * * *") true (Some (clockFrom 0)) None
                    (Sched.mkStats 1 0 0).


(** The heart of the pattern table. *)
Definition heart : Pattern.Grid :=
  [ [0; 1; 1; 0; 0; 1; 1; 0];
    [1; 1; 1; 1; 1; 1; 1; 1];
    [1; 1; 1; 1; 1; 1; 1; 1];
    [1; 1; 1; 1; 1; 1; 1; 1];
    [0; 1; 1; 1; 1; 1; 1; 0];
    [0; 0; 1; 1; 1; 1; 0; 0];
    [0; 0; 0; 1; 1; 0; 0; 0] ].

Definition midnight (y m d : Z) : Moment.t :=
  Moment.mk (Moment.days_from_civil y m d) 0.

End Sample.

(* --------------------------------------------------------------------- *)
(** ** Judgements on runs *)

Module Hoare.
Import Js.

(** From a state satisfying [I], the run of [c] ends in a state satisfying
    [I], completes as [R] says, and adds to the trace only events
    satisfying [Q]. *)
Definition triple {A} (env : Env) (I : State -> Prop) (Q : Event -> Prop)
    (c : M A) (R : Completion A -> Prop) : Prop :=
  forall w, I w ->
    I (snd (c env w))
    /\ R (fst (c env w))
    /\ exists es, trace (snd (c env w)) = (trace w ++ es)%list /\ Forall Q es.

(** [I] reads nothing of a state but the GitService flag. *)
Definition flagOnly (I : State -> Prop) : Prop :=
  forall w w', initialized w' = initialized w -> I w -> I w'.

(** The same, with nothing said about the completion. *)
Definition footprint {A} (env : Env) (I : State -> Prop) (Q : Event -> Prop)
    (c : M A) : Prop :=
  triple env I Q c (fun _ => True).

(** The GitService has been initialised. *)
Definition ready (w : State) : Prop := initialized w = true.

(** The calls among the events belong to phase [p] of a run. *)
Definition inPhase (p : nat) (e : Event) : Prop :=
  match e with
  | ECall c _ => Obs.phase c = p
  | _ => True
  end.

Definition returns {A} (r : Completion A) : Prop :=
  match r with
  | Returned _ => True
  | Thrown _ => False
  end.

End Hoare.


(* --------------------------------------------------------------------- *)
(** ** config.js: the whole CONFIG object and validateConfig *)

Module Settings.

(** CONFIG, with the fields the application reads besides those of the
    services. *)
Record t := mk {
  services : Config.t;
  git_userEmail : string;
  git_repoUrl : string;
  schedule_enabled : bool;
  schedule_cron : string;
  schedule_timezone : string;
  backfill_enabled : bool;
  backfill_startDate : string;
  backfill_endDate : string;
  app_env : string;
  health_enabled : bool;
  health_port : Z;
}.

(** CONFIG when no environment variable is set. *)
Definition defaults : t :=
  mk Config.defaults "contributor@example.com" "" false "0 9 * * *" "UTC"
     false "" "" "development" false 3000.

(** [!s] on a string: only the empty string is falsy. *)
Definition blank (s : string) : bool := String.eqb s "".

Record Validation := mkValidation { valid : bool; errors : list string }.

Definition validateConfig (CONFIG : t) : Validation :=
  let errors := [] in
  let errors :=
    if blank (git_userEmail CONFIG)
       || String.eqb (git_userEmail CONFIG) "contributor@example.com"
    then (errors ++ ["GIT_USER_EMAIL is required"])%list
    else errors in
  let errors :=
    if blank (git_repoUrl CONFIG) && String.eqb (app_env CONFIG) "production"
    then (errors ++ ["GIT_REPO_URL is required in production"])%list
    else errors in
  mkValidation (Nat.eqb (List.length errors) 0) errors.

End Settings.

(* --------------------------------------------------------------------- *)
(** ** scheduler.js: start, stop, getStatus, updateNextRun

    [cron.validate] is the function of node-cron; registering the job with
    [cron.schedule] and [job.start] shows in the [job] field only. *)

Module Control.
Import Js.

(** What getStatus returns. *)
Record Status := mkStatus {
  running : bool;
  isExecuting : bool;
  lastRun : option Moment.t;
  nextRun : option string;
  stats : Sched.Stats;
  cron : string;
  timezone : string;
}.

Definition setJob (j : option string) (s : Sched.Scheduler) : Sched.Scheduler :=
  Sched.mkScheduler j (Sched.isRunning s) (Sched.lastRun s) (Sched.nextRun s)
                    (Sched.stats s).

Section Service.
Variable CONFIG : Settings.t.
Variable validate : string -> bool.

Definition updateNextRun (this : Sched.Scheduler) : Sched.Scheduler :=
  Sched.mkScheduler (Sched.job this) (Sched.isRunning this) (Sched.lastRun this)
    (Some ("See cron expression: " ++ Settings.schedule_cron CONFIG))
    (Sched.stats this).

Definition start (this : Sched.Scheduler) : M Sched.Scheduler :=
  match Sched.job this with
  | Some _ =>
      log Warn "Scheduler already running" ;;
      ret this
  | None =>
      let cronExpression := Settings.schedule_cron CONFIG in
      if negb (validate cronExpression) then
        throw ("Invalid cron expression: " ++ cronExpression)
      else
        log Info "Starting scheduler" ;;
        let this := setJob (Some cronExpression) this in
        log Info "Scheduler started successfully" ;;
        ret (updateNextRun this)
  end.

Definition stop (this : Sched.Scheduler) : M Sched.Scheduler :=
  match Sched.job this with
  | Some _ =>
      let this := setJob None this in
      log Info "Scheduler stopped" ;;
      ret this
  | None => ret this
  end.

Definition getStatus (this : Sched.Scheduler) : Status :=
  mkStatus (match Sched.job this with Some _ => true | None => false end)
           (Sched.isRunning this) (Sched.lastRun this) (Sched.nextRun this)
           (Sched.stats this)
           (Settings.schedule_cron CONFIG) (Settings.schedule_timezone CONFIG).

End Service.

End Control.

(* --------------------------------------------------------------------- *)
(** ** health-server.js

    A request comes with its method and the pathname its URL parses to.
    The body of a response is the object handed to [JSON.stringify]; of
    that object the uptime, the memory usage and the package version, which
    the process supplies, are left out. *)

Module Health.
Import Js.

Record Request := mkRequest { method : string; pathname : string }.

Inductive Body :=
| ErrorBody (error : string)
| HealthBody (status : string) (timestamp : Moment.t)
| StatusBody (application environment : string) (scheduler : Control.Status)
             (timestamp : Moment.t)
| TriggerBody (message : string) (timestamp : Moment.t).

Record Response := mkResponse {
  headers : list (string * string);
  statusCode : Z;
  body : Body;
}.

(** The two headers handleRequest sets on every response. *)
Definition cors : list (string * string) :=
  [ ("Access-Control-Allow-Origin", "*"); ("Content-Type", "application/json") ].

(** The notice of the callback [scheduler.runNow().catch(...)]. *)
Definition triggerFailedNotice : Event := ELog Error "Manual trigger failed".

Section Service.
Variable CONFIG : Settings.t.

Definition handleHealth (sys : Sched.System) : M (Response * Sched.System) :=
  timestamp <- now ;;
  ret (mkResponse cors 200 (HealthBody "healthy" timestamp), sys).

Definition handleStatus (sys : Sched.System) : M (Response * Sched.System) :=
  let status := Control.getStatus CONFIG (Sched.scheduler sys) in
  timestamp <- now ;;
  ret (mkResponse cors 200
         (StatusBody "github-contributions-generator" (Settings.app_env CONFIG)
                     status timestamp),
       sys).

(** [scheduler.runNow().catch(...)]: runNow runs up to its first await;
    the call is left suspended there, and a rejection goes to the
    callback. *)
Definition background (sys : Sched.System) : M Sched.System :=
  try_catch
    (log Info "Manual task execution triggered" ;;
     r <- Sched.enter (Sched.scheduler sys) ;;
     ret (Sched.mkSystem (fst r) (Sched.park (snd r) (Sched.suspended sys))
                         (Sched.world sys)))
    (fun _ =>
       emit triggerFailedNotice ;;
       ret sys).

Definition handleTrigger (req : Request) (sys : Sched.System)
    : M (Response * Sched.System) :=
  if negb (String.eqb (method req) "POST") then
    ret (mkResponse cors 405 (ErrorBody "Method not allowed. Use POST."), sys)
  else
    try_catch
      (log Info "Manual trigger received via HTTP" ;;
       sys' <- background sys ;;
       timestamp <- now ;;
       ret (mkResponse cors 202 (TriggerBody "Task triggered successfully" timestamp),
            sys'))
      (fun message =>
         ret (mkResponse cors 500 (ErrorBody message), sys)).

Definition handleRequest (req : Request) (sys : Sched.System)
    : M (Response * Sched.System) :=
  if String.eqb (pathname req) "/health" || String.eqb (pathname req) "/" then
    handleHealth sys
  else if String.eqb (pathname req) "/status" then
    handleStatus sys
  else if String.eqb (pathname req) "/trigger" then
    handleTrigger req sys
  else
    ret (mkResponse cors 404 (ErrorBody "Not found"), sys).

(** The system once the request has been handled: the handler runs on
    the world of the system and leaves its world behind. *)
Definition serve (req : Request) (env : Env) (sys : Sched.System)
    : option Response * Sched.System :=
  match handleRequest req sys env (Sched.world sys) with
  | (Returned (response, sys'), w) =>
      (Some response, Sched.mkSystem (Sched.scheduler sys') (Sched.suspended sys') w)
  | (Thrown _, w) =>
      (None, Sched.mkSystem (Sched.scheduler sys) (Sched.suspended sys) w)
  end.

(** [this.server] is the port the server listens on, [None] for [null]. *)
Definition start (server : option Z) : M (option Z) :=
  match server with
  | Some _ =>
      log Warn "Health server already running" ;;
      ret server
  | None =>
      let port := Settings.health_port CONFIG in
      ret (Some port)
  end.

(** The callback of [server.listen]. *)
Definition listening : M unit :=
  let port := Settings.health_port CONFIG in
  log Info ("Health server listening on port " ++ Text.of_Z port) ;;
  log Info "Endpoints: /health, /status, /trigger (POST)".

(** The callback of [server.on("error", ...)]. *)
Definition onError : M unit :=
  log Error "Health server error".

Definition stop (server : option Z) : M (option Z) :=
  match server with
  | Some _ =>
      log Info "Health server stopped" ;;
      ret None
  | None => ret server
  end.

(** *** The event loop with the health server

    A task of the event loop is a request being handled or a task of
    the scheduler. *)
Inductive step (env : Env) : Sched.System -> Sched.System -> Prop :=
| step_request : forall req sys,
    step env sys (snd (serve req env sys))
| step_task : forall sys sys',
    Sched.step (Settings.services CONFIG) env sys sys' -> step env sys sys'.

Inductive reachable (env : Env) (w0 : State) : Sched.System -> Prop :=
| reach_boot : reachable env w0 (Sched.boot w0)
| reach_step : forall sys sys',
    reachable env w0 sys -> step env sys sys' -> reachable env w0 sys'.

End Service.

End Health.

(* --------------------------------------------------------------------- *)
(** ** index.js of the application: runOnce, runBackfill, runScheduled,
       main

    [parse] is [moment(string)] on the two dates of the backfill. *)

Module App.
Import Js.

(** The two singletons the application starts and stops. *)
Record Objects := mkObjects {
  scheduler : Sched.Scheduler;
  healthServer : option Z;
}.

Definition initialObjects : Objects := mkObjects Sched.constructor None.

Definition banner : string :=
  Text.nl
  ++ "╔═══════════════════════════════════════════════════════════╗" ++ Text.nl
  ++ "║        GitHub Contributions Generator v1.0.0              ║" ++ Text.nl
  ++ "║        Automated Daily Contribution System                ║" ++ Text.nl
  ++ "╚═══════════════════════════════════════════════════════════╝" ++ Text.nl
  ++ "  ".

Definition showBanner : M unit := console_log banner.

Section Service.
Variable CONFIG : Settings.t.
Variable validate : string -> bool.
Variable parse : string -> Moment.t.

Definition runOnce : M bool :=
  log Info "Running in single execution mode" ;;
  try_catch
    (_ <- Git.initialize ;;
     _ <- Git.pull (Settings.services CONFIG) Git.noOptions ;;
     results <- Commit.createTodayContributions (Settings.services CONFIG) ;;
     _ <- Git.push (Settings.services CONFIG) Git.noOptions ;;
     log Info "Single execution completed successfully" ;;
     ret true)
    (fun error =>
       log Error "Single execution failed" ;;
       throw error).

Definition runBackfill : M Commit.Stats :=
  let startDate := Settings.backfill_startDate CONFIG in
  let endDate := Settings.backfill_endDate CONFIG in
  if Settings.blank startDate || Settings.blank endDate then
    throw "BACKFILL_START_DATE and BACKFILL_END_DATE are required"
  else
    log Info "Running in backfill mode" ;;
    try_catch
      (_ <- Git.initialize ;;
       stats <- Commit.backfillContributions (Settings.services CONFIG)
                  (parse startDate) (parse endDate) Commit.noOptions ;;
       _ <- Git.push (Settings.services CONFIG) Git.noOptions ;;
       log Info "Backfill completed successfully" ;;
       ret stats)
      (fun error =>
         log Error "Backfill failed" ;;
         throw error).

(** The handler of SIGTERM and SIGINT. *)
Definition shutdown (signal : string) (o : Objects) : M Objects :=
  log Info ("Received " ++ signal ++ ", shutting down gracefully...") ;;
  sched <- Control.stop (scheduler o) ;;
  server <- Health.stop (healthServer o) ;;
  emit (EExit 0) ;;
  ret (mkObjects sched server).

(** runScheduled up to its last line, [await new Promise(() => {})],
    where it stays for good: when it returns here, the process lives
    on. *)
Definition runScheduled (o : Objects) : M Objects :=
  log Info "Running in scheduled mode" ;;
  try_catch
    (_ <- Git.initialize ;;
     server <- (if Settings.health_enabled CONFIG
                then Health.start CONFIG (healthServer o)
                else ret (healthServer o)) ;;
     sched <- Control.start CONFIG validate (scheduler o) ;;
     log Info "Application started in scheduled mode" ;;
     log Info ("Schedule: " ++ Settings.schedule_cron CONFIG ++ " ("
               ++ Settings.schedule_timezone CONFIG ++ ")") ;;
     ret (mkObjects sched server))
    (fun error =>
       log Error "Failed to start scheduled mode" ;;
       throw error).

(** main; [process.exit] ends the process, so that nothing of main runs
    behind it. *)
Definition main (o : Objects) : M Objects :=
  showBanner ;;
  let validation := Settings.validateConfig CONFIG in
  if negb (Settings.valid validation)
     && String.eqb (Settings.app_env CONFIG) "production"
  then
    log Error "Configuration validation failed" ;;
    emit (EExit 1) ;;
    ret o
  else
    (if negb (Settings.valid validation)
     then log Warn "Configuration warnings"
     else ret tt) ;;
    log Info "Starting application" ;;
    try_catch
      (if Settings.backfill_enabled CONFIG then
         _ <- runBackfill ;;
         emit (EExit 0) ;;
         ret o
       else if Settings.schedule_enabled CONFIG then
         runScheduled o
       else
         _ <- runOnce ;;
         emit (EExit 0) ;;
         ret o)
      (fun error =>
         log Error "Application error" ;;
         emit (EExit 1) ;;
         ret o).

End Service.

End App.

(* --------------------------------------------------------------------- *)
(** ** The random script (index.js at the root): generateDate, createCommit,
       markCommit, makeRandomCommits, pushCommits, main

    [random.int(min, max)] of the random package is
    [Math.floor(Math.random() * (max - min + 1) + min)]. *)

Module Random.
Import Js.

Record Config := mkConfig {
  dataFile : string;
  commitsCount : Z;
  yearsBack : Z;
  weeksRange : Z;
  daysRange : Z;
}.

Definition CONFIG : Config := mkConfig "./data.json" 50 1 54 7.

Section Script.
Variable config : Config.

(** The value of generateDate when [moment()] reads [t]. *)
Definition generateDateAt (t : Moment.t) (weeksBack dayOfWeek : Z) : string :=
  Moment.format
    (Moment.add_d dayOfWeek
       (Moment.add_w weeksBack
          (Moment.add_d 1
             (Moment.subtract_y (yearsBack config) t)))).

Definition generateDate (weeksBack dayOfWeek : Z) : M string :=
  t <- now ;;
  ret (generateDateAt t weeksBack dayOfWeek).

(** The marker record is [{ date }]. *)
Definition writeData (date : string) : M unit :=
  _ <- call (WriteFile date "") ;; ret tt.

Definition createCommit (date : string) : M unit :=
  writeData date ;;
  _ <- call GitAdd ;;
  _ <- call (GitCommit date date) ;;
  console_log ("✓ Commit created: " ++ date).

Definition markCommit (week day : Z) : M unit :=
  date <- generateDate week day ;;
  createCommit date.

Definition randomInt (min max : Z) : M Z :=
  r <- mathRandom ;;
  ret (floorMul r (max - min + 1) + min).

(** The dates makeRandomCommits can give a commit: from the day behind
    the day [yearsBack] years before a reading of the clock, over
    [weeksRange - 1] weeks and [daysRange] days, at the time of day of
    the reading. *)
Definition window (env : Env) (m : Moment.t) : Prop :=
  exists i,
    let t := clock env i in
    let first := Moment.days (Moment.subtract_y (yearsBack config) t) + 1 in
    first <= Moment.days m < first + 7 * (weeksRange config - 1) + daysRange config
    /\ Moment.ms m = Moment.ms t.

(** The date of commit number [i] (from 0) of a run of makeRandomCommits
    that starts at the given readings of the clock and of the random
    source. *)
Definition dateOfCommit (env : Env) (reading draw i : nat) : string :=
  generateDateAt (clock env (reading + i))
    (floorMul (random env (draw + 2 * i)) (weeksRange config - 1 - 0 + 1) + 0)
    (floorMul (random env (draw + 2 * i + 1)) (daysRange config - 1 - 0 + 1) + 0).

(** The body of the loop of makeRandomCommits. *)
Definition randomCommit (count i : Z) : M unit :=
  week <- randomInt 0 (weeksRange config - 1) ;;
  day <- randomInt 0 (daysRange config - 1) ;;
  date <- generateDate week day ;;
  createCommit date ;;
  if (i + 1) mod 10 =? 0 then
    console_log (Text.nl ++ "📊 Progress: " ++ Text.of_Z (i + 1) ++ "/"
                 ++ Text.of_Z count ++ " commits" ++ Text.nl)
  else ret tt.

Definition makeRandomCommits (count : Z) : M unit :=
  console_log (Text.nl ++ "🚀 Starting to create " ++ Text.of_Z count
               ++ " random commits..." ++ Text.nl) ;;
  forEach (upto count) (fun i _ => randomCommit count i) tt ;;
  console_log (Text.nl ++ "✅ All " ++ Text.of_Z count
               ++ " commits created successfully!").

(** [git.push()] without arguments: no remote and no branch are named. *)
Definition pushCommits : M unit :=
  console_log (Text.nl ++ "📤 Pushing commits to remote...") ;;
  _ <- call (GitPush "" "") ;;
  console_log "✅ Push completed!".

Definition main : M unit :=
  try_catch
    (console_log (Text.repeat "=" 50) ;;
     console_log "   GitHub Contribution Graph Generator" ;;
     console_log (Text.repeat "=" 50) ;;
     makeRandomCommits (commitsCount config) ;;
     pushCommits ;;
     console_log (Text.nl ++ "🎉 Done! Check your GitHub profile."))
    (fun message =>
       console_error (Text.nl ++ "❌ Error: " ++ message) ;;
       emit (EExit 1)).

End Script.

End Random.

(* --------------------------------------------------------------------- *)
(** ** More to read off a trace *)

Module Seen.
Import Js.

Definition isGitPush (c : Call) : bool :=
  match c with
  | GitPush _ _ => true
  | _ => false
  end.

Definition isGitInitialize (c : Call) : bool :=
  match c with
  | GitInitialize => true
  | _ => false
  end.

(** The exit codes the process was ended with. *)
Definition exitsOf (es : list Event) : list Z :=
  flat_map (fun e => match e with EExit code => [code] | _ => [] end) es.

(** The event is one the services make: a call, a line of the logger or
    a wait; it neither writes to the console nor ends the process. *)
Definition service (e : Event) : Prop :=
  match e with
  | ECall _ _ | ELog _ _ | ESleep _ => True
  | _ => False
  end.

(** The event is not a call of the initialisation. *)
Definition initialised (e : Event) : Prop :=
  match e with
  | ECall GitInitialize _ => False
  | _ => True
  end.

(** The event stays on this machine: it is no push and no pull, and it
    does not end the process. *)
Definition local (e : Event) : Prop :=
  match e with
  | ECall c _ => Obs.isNetwork c = false
  | EExit _ => False
  | _ => True
  end.

(** Every marker file written and every commit asked for bears the
    formatted value of a moment that satisfies [P]. *)
Definition stamped (P : Moment.t -> Prop) (e : Event) : Prop :=
  match e with
  | ECall (WriteFile date _) _ => exists m, date = Moment.format m /\ P m
  | ECall (GitCommit _ date) _ => exists m, date = Moment.format m /\ P m
  | _ => True
  end.

(** The time of day of the moment is from 09:00:00 up to 20:59:59. *)
Definition officeHours (m : Moment.t) : Prop :=
  9 * 3600000 <= Moment.ms m < 21 * 3600000.

End Seen.

(* --------------------------------------------------------------------- *)
(** ** More sample inputs *)

Module Cases.
Import Js.

(** A world in which the first two calls fail and the later ones
    succeed. *)
Definition recovering : Env :=
  mkEnv (fun i => if (i <? 2)%nat then Fail "network timeout" else Ok "abc1234")
        Sample.clockFrom (fun _ => (1 # 2)%Q) (fun _ => "deadbeef").

(** A world in which the first call succeeds and the later ones fail. *)
Definition breaking : Env :=
  mkEnv (fun i => if (i <? 1)%nat then Ok "abc1234" else Fail "disk full")
        Sample.clockFrom (fun _ => (1 # 2)%Q) (fun _ => "deadbeef").

(** A world in which every marker file fails to be written while the
    initialisation, the pull and the push succeed: of a run from the
    initial state, the calls number 2, 3 and 4 are the three writes. *)
Definition commitsFail : Env :=
  mkEnv (fun i => if ((2 <=? i) && (i <=? 4))%nat then Fail "disk full"
                  else Ok "abc1234")
        Sample.clockFrom (fun _ => (1 # 2)%Q) (fun _ => "deadbeef").

(** A world in which Math.random is close to one. *)
Definition late : Env :=
  mkEnv (fun _ => Ok "abc1234") Sample.clockFrom (fun _ => (99 # 100)%Q)
        (fun _ => "deadbeef").

(** RETRY_ATTEMPTS set to a number that is not positive. *)
Definition noRetries : Config.t :=
  Config.mk "origin" "main" 1 5 false 1 8 false (-1) 1000.

(** BACKFILL_ENABLED set and no dates given. *)
Definition backfillWithoutDates : Settings.t :=
  Settings.mk Config.defaults "me@example.org" "" false "0 9 * * *" "UTC"
              true "" "" "development" false 3000.

(** SCHEDULE_ENABLED and HEALTH_ENABLED set, in production. *)
Definition scheduled : Settings.t :=
  Settings.mk Config.defaults "me@example.org" "https://example.org/me/repo.git"
              true "0 9 * * *" "UTC" false "" "" "production" true 3000.

(** A cron.validate that accepts the default expression only. *)
Definition validate (expression : string) : bool :=
  String.eqb expression "0 9 * * *".

(** A moment(string) for the witnesses: every string is the 8th of
    January 2024. *)
Definition parse (s : string) : Moment.t := Sample.midnight 2024 1 8.

(** A grid whose second row is longer than its first. *)
Definition ragged : Pattern.Grid := [ [1]; [1; 1] ].

Definition getTrigger : Health.Request := Health.mkRequest "GET" "/trigger".
Definition postTrigger : Health.Request := Health.mkRequest "POST" "/trigger".

End Cases.
(* ===================================================================== *)
(** * Facts *)
(* ===================================================================== *)

(** ** The calendar model on known dates *)

Example moment_epoch : Moment.civil_from_days 0 = (1970, 1, 1).
Proof. reflexivity. Qed.

Example moment_leap_day : Moment.civil_from_days (Moment.days_from_civil 2024 2 29) = (2024, 2, 29).
Proof. reflexivity. Qed.

Example moment_format :
  Moment.format (Moment.mk (Moment.days_from_civil 2024 3 10) 36000000)
  = "2024-03-10T10:00:00+00:00".
Proof. reflexivity. Qed.

Example moment_subtract_leap :
  Moment.format (Moment.subtract_y 1 (Moment.mk (Moment.days_from_civil 2024 2 29) 0))
  = "2023-02-28T00:00:00+00:00".
Proof. reflexivity. Qed.

Example moment_sunday : Moment.day (Moment.mk (Moment.days_from_civil 2024 3 10) 0) = 0.
Proof. reflexivity. Qed.

(** ** The effect monad *)

Lemma extend_extend (w : Js.State) (a b : list Js.Event) :
  Js.extend (Js.extend w a) b = Js.extend w (a ++ b).
Proof. unfold Js.extend; simpl. now rewrite <- app_assoc. Qed.

Lemma since_extend (w : Js.State) (es : list Js.Event) :
  Obs.since w (Js.extend w es) = es.
Proof.
  unfold Obs.since, Js.extend; simpl.
  rewrite skipn_app, skipn_all, Nat.sub_diag. reflexivity.
Qed.

Ltac unfold_js :=
  unfold Js.bind, Js.ret, Js.throw, Js.try_catch, Js.log, Js.console_log,
    Js.console_error, Js.sleep, Js.emit, Js.now, Js.mathRandom, Js.randomHex,
    Js.getInitialized, Js.setInitialized in *.

(** ** scheduler.js *)

Section SchedulerFacts.
Variable CONFIG : Config.t.
Variable env : Js.Env.

Lemma enter_running (this : Sched.Scheduler) (w : Js.State) :
  Sched.isRunning this = true ->
  Sched.enter this env w = (Js.Returned (this, None), Js.extend w [Sched.skipNotice]).
Proof. intros H. unfold Sched.enter. rewrite H. reflexivity. Qed.

Lemma enter_idle (this : Sched.Scheduler) (w : Js.State) :
  Sched.isRunning this = false ->
  Sched.enter this env w =
    (Js.Returned
       (Sched.countRun
          (Sched.setLastRun (Js.clock env (Js.clockReads w)) (Sched.setRunning true this)),
        Some Sched.AwaitPull),
     Js.extend (Js.mkState (Js.trace w) (Js.calls w) (S (Js.clockReads w))
                           (Js.draws w) (Js.initialized w))
               [Js.ELog Js.Info "Starting scheduled contribution task"]).
Proof. intros H. unfold Sched.enter. rewrite H. reflexivity. Qed.

(** A suspended call either moves to its next await and leaves the
    scheduler alone, or ends: with a failure or with a success counted and
    the flag cleared. *)
Lemma resume_cases (a : Sched.Await) (this this' : Sched.Scheduler)
      (a' : option Sched.Await) (w w' : Js.State) :
  Sched.resume CONFIG a this env w = (Js.Returned (this', a'), w') ->
  (this' = this /\ exists b, a' = Some b)
  \/ (this' = Sched.setRunning false (Sched.countFailure this) /\ a' = None)
  \/ (this' = Sched.setRunning false (Sched.countSuccess this) /\ a' = None).
Proof.
  destruct a as [| | results]; unfold Sched.resume, Sched.caught; unfold_js.
  - destruct (Git.pull CONFIG Git.noOptions env w) as [[v|e] w1]; intros H;
      inversion H; subst; eauto.
  - destruct (Commit.createTodayContributions CONFIG env w) as [[v|e] w1]; intros H;
      inversion H; subst; eauto.
  - destruct (Git.push CONFIG Git.noOptions env w) as [[v|e] w1]; intros H;
      inversion H; subst; eauto.
Qed.

(** A suspended call never throws into the event loop. *)
Lemma resume_returns (a : Sched.Await) (this : Sched.Scheduler) (w : Js.State) :
  exists this' a' w', Sched.resume CONFIG a this env w = (Js.Returned (this', a'), w').
Proof.
  destruct a as [| | results]; unfold Sched.resume, Sched.caught; unfold_js.
  - destruct (Git.pull CONFIG Git.noOptions env w) as [[v|e] w1]; eauto.
  - destruct (Commit.createTodayContributions CONFIG env w) as [[v|e] w1]; eauto.
  - destruct (Git.push CONFIG Git.noOptions env w) as [[v|e] w1]; eauto.
Qed.

(** executeTask is its entry followed by its three awaits. *)
Lemma executeTask_drive (this : Sched.Scheduler) (w : Js.State) :
  Sched.executeTask CONFIG this env w =
  Js.bind (Sched.enter this)
          (fun r => Sched.drive CONFIG 3 (snd r) (fst r)) env w.
Proof.
  unfold Sched.executeTask, Sched.enter.
  destruct (Sched.isRunning this); [reflexivity|].
  unfold_js. cbn [fst snd Sched.drive Sched.resume]. unfold Sched.caught. unfold_js.
  destruct (Git.pull CONFIG Git.noOptions env _) as [[v|e] w1];
    cbn [fst snd Sched.drive Sched.resume]; [|reflexivity].
  unfold_js.
  destruct (Commit.createTodayContributions CONFIG env w1) as [[v2|e2] w2];
    cbn [fst snd Sched.drive Sched.resume]; [|reflexivity].
  unfold_js.
  destruct (Git.push CONFIG Git.noOptions env w2) as [[v3|e3] w3]; reflexivity.
Qed.

(** C1. While [isRunning] is true, a further trigger of executeTask, from
    the cron tick or from runNow, returns at once: the scheduler object is
    the one it was (totalRuns, lastRun and the counters included), the
    world gets the skip notice of the logger and nothing else (no pull, no
    commit, no push, no reading of the clock), and no call is left
    suspended: the trigger is neither queued nor merged into the run under
    way. *)
Theorem C1_trigger_while_running_is_dropped
      (this : Sched.Scheduler) (w : Js.State) :
  Sched.isRunning this = true ->
  Sched.executeTask CONFIG this env w
    = (Js.Returned this, Js.extend w [Sched.skipNotice])
  /\ Sched.cronTick CONFIG this env w
    = (Js.Returned this, Js.extend w [Sched.skipNotice])
  /\ Sched.runNow CONFIG this env w
    = (Js.Returned this, Js.extend w [Sched.manualNotice; Sched.skipNotice])
  /\ (forall sys sys',
        Sched.scheduler sys = this ->
        Sched.trigger env sys sys' ->
        Sched.scheduler sys' = this
        /\ Sched.suspended sys' = Sched.suspended sys
        /\ exists notices,
             Sched.world sys' = Js.extend (Sched.world sys) notices
             /\ forallb Obs.isLog notices = true).
Proof.
  intros Hrun. split; [|split; [|split]].
  - unfold Sched.executeTask. rewrite Hrun. reflexivity.
  - unfold Sched.cronTick, Sched.executeTask. rewrite Hrun. reflexivity.
  - unfold Sched.runNow, Sched.executeTask. rewrite Hrun. unfold_js.
    now rewrite extend_extend.
  - intros sys sys' Hsys Htrigger.
    destruct Htrigger as [sys this' a w' He | sys this' a w' He];
      [ rewrite enter_running in He by congruence
      | unfold Js.bind at 1 in He; simpl in He;
        rewrite enter_running in He by congruence ];
      inversion He; subst;
      cbn [Sched.scheduler Sched.suspended Sched.world Sched.park];
      (split; [reflexivity|]); (split; [reflexivity|]).
    + exists [Sched.skipNotice]. split; reflexivity.
    + exists [Sched.manualNotice; Sched.skipNotice]. rewrite extend_extend.
      split; reflexivity.
Qed.

End SchedulerFacts.

(** ** Rules for the judgement on runs *)

Section Rules.
Import Hoare.
Variable env : Js.Env.
Variable I : Js.State -> Prop.
Variable Q : Js.Event -> Prop.

Lemma triple_ret {A} (a : A) (R : Js.Completion A -> Prop) :
  R (Js.Returned a) -> triple env I Q (Js.ret a) R.
Proof.
  intros HR w Hw; simpl. repeat split; auto.
  exists []. now rewrite app_nil_r.
Qed.

Lemma triple_throw {A} (e : string) (R : Js.Completion A -> Prop) :
  R (Js.Thrown e) -> triple env I Q (Js.throw e) R.
Proof.
  intros HR w Hw; simpl. repeat split; auto.
  exists []. now rewrite app_nil_r.
Qed.

Lemma triple_weaken {A} (c : Js.M A) (R R' : Js.Completion A -> Prop) :
  triple env I Q c R -> (forall r, R r -> R' r) -> triple env I Q c R'.
Proof.
  intros Hc HR w Hw. destruct (Hc w Hw) as (Hi & Hr & Hes). auto.
Qed.

Lemma triple_bind {A B} (c : Js.M A) (k : A -> Js.M B)
      (R1 : Js.Completion A -> Prop) (R2 : Js.Completion B -> Prop) :
  triple env I Q c R1 ->
  (forall a, R1 (Js.Returned a) -> triple env I Q (k a) R2) ->
  (forall e, R1 (Js.Thrown e) -> R2 (Js.Thrown e)) ->
  triple env I Q (Js.bind c k) R2.
Proof.
  intros Hc Hk Hthrow w Hw. unfold Js.bind.
  destruct (Hc w Hw) as (Hi & Hr & es & Hes & HQ).
  destruct (c env w) as [[a|e] w1]; simpl in *.
  - destruct (Hk a Hr w1 Hi) as (Hi2 & Hr2 & es2 & Hes2 & HQ2).
    repeat split; auto. exists (es ++ es2)%list. split.
    + now rewrite Hes2, Hes, app_assoc.
    + now apply Forall_app.
  - repeat split; auto. now exists es.
Qed.

Lemma triple_try_catch {A} (c : Js.M A) (h : string -> Js.M A)
      (R1 R2 : Js.Completion A -> Prop) :
  triple env I Q c R1 ->
  (forall a, R1 (Js.Returned a) -> R2 (Js.Returned a)) ->
  (forall e, R1 (Js.Thrown e) -> triple env I Q (h e) R2) ->
  triple env I Q (Js.try_catch c h) R2.
Proof.
  intros Hc Hret Hh w Hw. unfold Js.try_catch.
  destruct (Hc w Hw) as (Hi & Hr & es & Hes & HQ).
  destruct (c env w) as [[a|e] w1]; simpl in *.
  - repeat split; auto. now exists es.
  - destruct (Hh e Hr w1 Hi) as (Hi2 & Hr2 & es2 & Hes2 & HQ2).
    repeat split; auto. exists (es ++ es2)%list. split.
    + now rewrite Hes2, Hes, app_assoc.
    + now apply Forall_app.
Qed.

(** A loop keeps what its body keeps: [J rest acc] holds of the elements
    still to come and the variables of the loop. *)
Lemma triple_forEach {A S} (body : A -> S -> Js.M S) (J : list A -> S -> Prop)
      (T : string -> Prop) :
  (forall x rest acc, J (x :: rest) acc ->
     triple env I Q (body x acc)
            (fun r => match r with
                      | Js.Returned acc' => J rest acc'
                      | Js.Thrown e => T e
                      end)) ->
  forall xs acc, J xs acc ->
    triple env I Q (Js.forEach xs body acc)
           (fun r => match r with
                     | Js.Returned acc' => J [] acc'
                     | Js.Thrown e => T e
                     end).
Proof.
  intros Hbody xs. induction xs as [|x rest IH]; intros acc HJ; cbn [Js.forEach].
  - now apply triple_ret.
  - eapply triple_bind.
    + apply (Hbody x rest acc HJ).
    + intros acc' HJ'. apply IH, HJ'.
    + intros e He. exact He.
Qed.

Hypothesis I_flagOnly : flagOnly I.

Lemma triple_emit (e : Js.Event) (R : Js.Completion unit -> Prop) :
  Q e -> R (Js.Returned tt) -> triple env I Q (Js.emit e) R.
Proof.
  intros HQ HR w Hw; simpl.
  split; [eapply I_flagOnly; [|eassumption]; reflexivity|].
  split; [assumption|].
  exists [e]. split; auto.
Qed.

Lemma triple_call (c : Js.Call) (R : Js.Completion string -> Prop) :
  (forall a, Q (Js.ECall c a)) ->
  (forall p, R (Js.Returned p)) ->
  (Obs.allOk env \/ forall e, R (Js.Thrown e)) ->
  triple env I Q (Js.call c) R.
Proof.
  intros HQ HR Hfail w Hw. unfold Js.call, Js.answered.
  pose proof (HQ (Js.answer env (Js.calls w))) as HQa.
  destruct (Js.answer env (Js.calls w)) as [p|e] eqn:Ha; cbn [fst snd Js.trace].
  - split; [eapply I_flagOnly; [|eassumption]; reflexivity|].
    split; [apply HR|].
    eexists; split; [reflexivity|]. constructor; auto.
  - split; [eapply I_flagOnly; [|eassumption]; reflexivity|].
    split.
    + destruct Hfail as [Hok|Hany]; auto.
      destruct (Hok (Js.calls w)) as [p Hp]; congruence.
    + eexists; split; [reflexivity|]. constructor; auto.
Qed.

Lemma triple_now (R : Js.Completion Moment.t -> Prop) :
  (forall t, R (Js.Returned t)) -> triple env I Q Js.now R.
Proof.
  intros HR w Hw; simpl.
  split; [eapply I_flagOnly; [|eassumption]; reflexivity|].
  split; [apply HR|].
  exists []. now rewrite app_nil_r.
Qed.

Lemma triple_mathRandom (R : Js.Completion QArith_base.Q -> Prop) :
  (forall i, R (Js.Returned (Js.random env i))) -> triple env I Q Js.mathRandom R.
Proof.
  intros HR w Hw; simpl.
  split; [eapply I_flagOnly; [|eassumption]; reflexivity|].
  split; [apply HR|].
  exists []. now rewrite app_nil_r.
Qed.

Lemma triple_randomHex (R : Js.Completion string -> Prop) :
  (forall s, R (Js.Returned s)) -> triple env I Q Js.randomHex R.
Proof.
  intros HR w Hw; simpl.
  split; [eapply I_flagOnly; [|eassumption]; reflexivity|].
  split; [apply HR|].
  exists []. now rewrite app_nil_r.
Qed.

(** Steps that cannot throw. *)
Lemma triple_after_emit {B} (e : Js.Event) (k : unit -> Js.M B)
      (R : Js.Completion B -> Prop) :
  Q e -> triple env I Q (k tt) R -> triple env I Q (Js.bind (Js.emit e) k) R.
Proof.
  intros HQ Hk.
  apply (triple_bind (Js.emit e) k (fun r => r = Js.Returned tt) R).
  - now apply triple_emit.
  - intros [] _. exact Hk.
  - intros e' He. discriminate.
Qed.

Lemma triple_after_mathRandom {B} (k : QArith_base.Q -> Js.M B)
      (R : Js.Completion B -> Prop) :
  (forall i, triple env I Q (k (Js.random env i)) R) ->
  triple env I Q (Js.bind Js.mathRandom k) R.
Proof.
  intros Hk.
  apply (triple_bind Js.mathRandom k
           (fun r => exists i, r = Js.Returned (Js.random env i)) R).
  - apply triple_mathRandom. eauto.
  - intros q [i Hi]. inversion Hi; subst. apply Hk.
  - intros e' [i He]. discriminate.
Qed.

(** A computation that returns, followed by another. *)
Lemma triple_then {A B} (c : Js.M A) (k : A -> Js.M B)
      (R : Js.Completion B -> Prop) :
  triple env I Q c Hoare.returns -> (forall a, triple env I Q (k a) R) ->
  triple env I Q (Js.bind c k) R.
Proof.
  intros Hc Hk. apply (triple_bind c k Hoare.returns R); auto.
  intros e He. destruct He.
Qed.

Lemma triple_try_returns {A} (c : Js.M A) (h : string -> Js.M A) :
  triple env I Q c Hoare.returns -> triple env I Q (Js.try_catch c h) Hoare.returns.
Proof.
  intros Hc. apply (triple_try_catch c h Hoare.returns Hoare.returns); auto.
  intros e He. destruct He.
Qed.

End Rules.

Section Footprints.
Import Hoare.
Variable env : Js.Env.
Variable I : Js.State -> Prop.
Variable Ev : Js.Event -> Prop.
Hypothesis I_flagOnly : flagOnly I.

Lemma footprint_ret {A} (a : A) : footprint env I Ev (Js.ret a).
Proof. now apply triple_ret. Qed.

Lemma footprint_throw {A} (e : string) : footprint env I Ev (@Js.throw A e).
Proof. now apply triple_throw. Qed.

Lemma footprint_bind {A B} (c : Js.M A) (k : A -> Js.M B) :
  footprint env I Ev c -> (forall a, footprint env I Ev (k a)) ->
  footprint env I Ev (Js.bind c k).
Proof.
  intros Hc Hk.
  apply (triple_bind env I Ev c k (fun _ => True) (fun _ => True)); auto.
  intros a _. apply Hk.
Qed.

Lemma footprint_try_catch {A} (c : Js.M A) (h : string -> Js.M A) :
  footprint env I Ev c -> (forall e, footprint env I Ev (h e)) ->
  footprint env I Ev (Js.try_catch c h).
Proof.
  intros Hc Hh.
  apply (triple_try_catch env I Ev c h (fun _ => True) (fun _ => True)); auto.
  intros e _. apply Hh.
Qed.

Lemma footprint_forEach {A S} (body : A -> S -> Js.M S) (xs : list A) (acc : S) :
  (forall x acc', footprint env I Ev (body x acc')) ->
  footprint env I Ev (Js.forEach xs body acc).
Proof.
  intros Hbody. unfold footprint.
  eapply triple_weaken.
  - apply (triple_forEach env I Ev body (fun _ _ => True) (fun _ => True)); auto.
    intros x rest acc' _. eapply triple_weaken; [apply Hbody|].
    now intros [?|?].
  - auto.
Qed.

Lemma footprint_emit (e : Js.Event) : Ev e -> footprint env I Ev (Js.emit e).
Proof. intros. now apply triple_emit. Qed.

Lemma footprint_log (l : Js.Level) (m : string) :
  Ev (Js.ELog l m) -> footprint env I Ev (Js.log l m).
Proof. apply footprint_emit. Qed.

Lemma footprint_sleep (ms : Z) : Ev (Js.ESleep ms) -> footprint env I Ev (Js.sleep ms).
Proof. apply footprint_emit. Qed.

Lemma footprint_call (c : Js.Call) :
  (forall a, Ev (Js.ECall c a)) -> footprint env I Ev (Js.call c).
Proof. intros. apply triple_call; auto. Qed.

Lemma footprint_now : footprint env I Ev Js.now.
Proof. now apply triple_now. Qed.

Lemma footprint_mathRandom : footprint env I Ev Js.mathRandom.
Proof. now apply triple_mathRandom. Qed.

Lemma footprint_randomHex : footprint env I Ev Js.randomHex.
Proof. now apply triple_randomHex. Qed.

Lemma footprint_if {A} (b : bool) (c1 c2 : Js.M A) :
  footprint env I Ev c1 -> footprint env I Ev c2 ->
  footprint env I Ev (if b then c1 else c2).
Proof. now destruct b. Qed.

End Footprints.

(** Goes through a straight-line body rule by rule. *)
Ltac footprint_step :=
  first
    [ apply footprint_ret
    | apply footprint_throw
    | apply footprint_bind; [|intros ?]
    | apply footprint_try_catch; [|intros ?]
    | apply footprint_forEach; intros ? ?
    | apply footprint_if
    | apply footprint_log; [assumption|exact Logic.I]
    | apply footprint_sleep; [assumption|exact Logic.I]
    | apply footprint_call; [assumption|intros ?; repeat split; reflexivity]
    | apply footprint_now; assumption
    | apply footprint_mathRandom; assumption
    | apply footprint_randomHex; assumption ].

(** ** git-service.js *)

Section GitFacts.
Import Hoare.
Variable CONFIG : Config.t.
Variable env : Js.Env.

Lemma ready_flagOnly : flagOnly ready.
Proof. unfold flagOnly, ready. congruence. Qed.

(** Once the service is initialised, ensureInitialized does nothing. *)
Lemma ensureInitialized_ready (w : Js.State) :
  Js.initialized w = true -> Git.ensureInitialized env w = (Js.Returned tt, w).
Proof.
  intros H. unfold Git.ensureInitialized. unfold_js. now rewrite H.
Qed.

(** When ensureInitialized returns, the service is initialised, and the
    one call it may have made is the initialisation. *)
Lemma ensureInitialized_returned (w w0 : Js.State) :
  Git.ensureInitialized env w = (Js.Returned tt, w0) ->
  Js.initialized w0 = true
  /\ Js.clockReads w0 = Js.clockReads w
  /\ Js.draws w0 = Js.draws w
  /\ exists es, Js.trace w0 = (Js.trace w ++ es)%list
                /\ (Obs.callsOf es = [] \/ Obs.callsOf es = [Js.GitInitialize]).
Proof.
  unfold Git.ensureInitialized, Git.initialize, Js.call, Js.answered. unfold_js.
  destruct (Js.initialized w) eqn:Hi.
  - intros H; inversion H; subst. repeat split; auto.
    exists []. rewrite app_nil_r. auto.
  - unfold Js.extend; cbn.
    destruct (Js.answer env (Js.calls w)); cbn; intros H; inversion H; subst; cbn.
    repeat split; auto.
    eexists. rewrite <- !app_assoc. split; [reflexivity|]. cbn. auto.
Qed.

Lemma footprint_ensureInitialized (Ev : Js.Event -> Prop) :
  footprint env ready Ev Git.ensureInitialized.
Proof.
  intros w Hw. rewrite (ensureInitialized_ready w Hw). cbn.
  repeat split; auto. exists []. now rewrite app_nil_r.
Qed.

Lemma footprint_add : footprint env ready (inPhase 2) Git.add.
Proof.
  pose proof ready_flagOnly.
  unfold Git.add. apply footprint_bind; [apply footprint_ensureInitialized|intros _].
  repeat footprint_step.
Qed.

Lemma footprint_commit (message date : string) :
  footprint env ready (inPhase 2) (Git.commit CONFIG message date).
Proof.
  pose proof ready_flagOnly.
  unfold Git.commit. apply footprint_bind; [apply footprint_ensureInitialized|intros _].
  repeat footprint_step.
Qed.

Lemma footprint_pushLoop (options : Git.Options) (rounds : nat) (attempt : Z) :
  footprint env ready (inPhase 3) (Git.pushLoop CONFIG options rounds attempt).
Proof.
  pose proof ready_flagOnly.
  revert attempt. induction rounds as [|rounds IH]; intros attempt; cbn [Git.pushLoop].
  - footprint_step.
  - apply footprint_bind.
    + unfold Git.pushAttempt. repeat footprint_step.
    + intros [r|]; [footprint_step|apply IH].
Qed.

Lemma footprint_push (options : Git.Options) :
  footprint env ready (inPhase 3) (Git.push CONFIG options).
Proof.
  unfold Git.push. apply footprint_bind; [apply footprint_ensureInitialized|intros _].
  apply footprint_pushLoop.
Qed.

End GitFacts.

(** ** Searching a message for a phrase *)

Section TextFacts.

Lemma prefix_iff (p s : string) :
  String.prefix p s = true <-> exists rest, s = p ++ rest.
Proof.
  revert s. induction p as [|a p IH]; intros s; destruct s as [|b s]; cbn.
  - split; [intros _; now exists ""|reflexivity].
  - split; [intros _; now exists (String b s)|reflexivity].
  - split; [discriminate|]. intros [rest H]; discriminate.
  - destruct (ascii_dec a b) as [->|Hne].
    + rewrite IH. split; intros [rest H]; exists rest; cbn in *; congruence.
    + split; [discriminate|]. intros [rest H]; cbn in H. congruence.
Qed.

Lemma append_assoc (a b c : string) : (a ++ b) ++ c = a ++ b ++ c.
Proof. induction a as [|x a IH]; cbn; congruence. Qed.

(** [includes] finds the phrase exactly when the phrase occurs. *)
Lemma includes_iff (hay needle : string) :
  Text.includes hay needle = true <-> Obs.occursIn needle hay.
Proof.
  unfold Obs.occursIn. induction hay as [|c hay IH]; cbn [Text.includes].
  - destruct (String.prefix needle "") eqn:Hp.
    + split; auto. intros _. apply prefix_iff in Hp. destruct Hp as [rest H].
      now exists "", rest.
    + split; [discriminate|]. intros (before & after & H).
      destruct before; cbn in H; [|discriminate].
      assert (String.prefix needle "" = true) by (apply prefix_iff; eauto).
      congruence.
  - destruct (String.prefix needle (String c hay)) eqn:Hp.
    + split; auto. intros _. apply prefix_iff in Hp. destruct Hp as [rest H].
      now exists "", rest.
    + rewrite IH. split.
      * intros (before & after & H). exists (String c before), after. cbn. congruence.
      * intros (before & after & H). destruct before as [|b before]; cbn in H.
        -- assert (String.prefix needle (String c hay) = true)
             by (apply prefix_iff; eauto).
           congruence.
        -- exists before, after. congruence.
Qed.

Lemma occursIn_widen (inner before after hay : string) :
  Obs.occursIn (before ++ inner ++ after) hay -> Obs.occursIn inner hay.
Proof.
  intros (b & a & H). exists (b ++ before), (after ++ a).
  rewrite H, !append_assoc. reflexivity.
Qed.

(** The test of the catch block of pull is the list of recoverable
    conditions: its sixth phrase is covered by its fifth. *)
Lemma pullIgnored_iff (message : string) :
  Git.pullIgnored message = true <-> Git.recoverable message.
Proof.
  unfold Git.pullIgnored, Git.recoverable, Git.recoverableClasses.
  rewrite !orb_true_iff, !includes_iff. split.
  - intros [[[[[H|H]|H]|H]|H]|H];
      try (eexists; split; [|exact H]; cbn; tauto).
    exists "unstaged changes". split; [cbn; tauto|].
    apply (occursIn_widen _ "You have " ""). exact H.
  - intros (phrase & Hin & H). cbn in Hin.
    repeat (destruct Hin as [<-|Hin]; [tauto|]). contradiction.
Qed.

Lemma remoteAbsent_iff (message : string) :
  Git.remoteAbsent message = true <-> Git.remoteMissing message.
Proof.
  unfold Git.remoteAbsent, Git.remoteMissing, Git.remoteAbsentClasses.
  rewrite !orb_true_iff, !includes_iff. split.
  - intros [[H|H]|H]; eexists; (split; [|exact H]); cbn; tauto.
  - intros (phrase & Hin & H). cbn in Hin.
    repeat (destruct Hin as [<-|Hin]; [tauto|]). contradiction.
Qed.

End TextFacts.

Section PushPull.
Variable CONFIG : Config.t.
Variable env : Js.Env.

Lemma flat_map_seq_shift {A} (f : nat -> list A) (s k : nat) :
  flat_map f (seq (S s) k) = flat_map (fun i => f (S i)) (seq s k).
Proof.
  revert s. induction k as [|k IH]; intros s; cbn; [reflexivity|].
  now rewrite IH.
Qed.

Lemma pushAttempt_retry (options : Git.Options) (attempt : Z) (message : string)
      (w : Js.State) :
  Config.app_dryRun CONFIG = false ->
  Js.answer env (Js.calls w) = Js.Fail message ->
  Git.remoteAbsent message = false ->
  attempt <> Config.app_retryAttempts CONFIG ->
  Git.pushAttempt CONFIG options attempt env w
  = (Js.Returned None,
     Js.mkState (Js.trace w ++ Git.failedRound CONFIG options attempt message)%list
                (S (Js.calls w)) (Js.clockReads w) (Js.draws w) (Js.initialized w)).
Proof.
  intros Hdry Ha Habs Hne. unfold Git.pushAttempt, Js.call. unfold_js.
  rewrite Hdry. cbn. rewrite Ha, Habs.
  apply Z.eqb_neq in Hne. rewrite Hne.
  unfold Js.extend, Js.answered, Git.failedRound, Git.pushing, Git.pushCall; cbn.
  rewrite Ha, <- !app_assoc. reflexivity.
Qed.

Lemma pushLoop_rounds (options : Git.Options) (k : nat) :
  Config.app_dryRun CONFIG = false ->
  forall (rounds : nat) (attempt : Z) (msg : nat -> string) (w : Js.State),
    (forall i, (i < k)%nat ->
       Js.answer env (Js.calls w + i) = Js.Fail (msg i)
       /\ Git.remoteAbsent (msg i) = false) ->
    attempt + Z.of_nat k <= Config.app_retryAttempts CONFIG ->
    Git.pushLoop CONFIG options (k + rounds) attempt env w
    = Git.pushLoop CONFIG options rounds (attempt + Z.of_nat k) env
                   (Git.afterRounds CONFIG options attempt msg k w).
Proof.
  intros Hdry. induction k as [|k IH]; intros rounds attempt msg w Hfail Hle.
  - unfold Git.afterRounds. cbn. rewrite Z.add_0_r, Nat.add_0_r, app_nil_r.
    now destruct w.
  - destruct (Hfail 0%nat ltac:(lia)) as [Ha Habs]. rewrite Nat.add_0_r in Ha.
    cbn [Nat.add Git.pushLoop]. unfold Js.bind at 1.
    rewrite (pushAttempt_retry options attempt (msg 0%nat) w Hdry Ha Habs) by lia.
    rewrite (IH rounds (attempt + 1) (fun i => msg (S i))).
    + f_equal; [lia|]. unfold Git.afterRounds; cbn [Js.trace Js.calls Js.clockReads
                                                 Js.draws Js.initialized].
      f_equal; [|lia].
      rewrite <- app_assoc. f_equal.
      cbn [seq flat_map]. rewrite Z.add_0_r. f_equal.
      rewrite flat_map_seq_shift. apply flat_map_ext. intros i.
      f_equal. lia.
    + intros i Hi. cbn [Js.calls].
      replace (S (Js.calls w) + i)%nat with (Js.calls w + S i)%nat by lia.
      apply Hfail. lia.
    + lia.
Qed.

Lemma callsOf_logs (es : list Js.Event) :
  forallb Obs.isLog es = true -> Obs.callsOf es = [].
Proof.
  induction es as [|e es IH]; cbn; [reflexivity|].
  destruct e; cbn; try discriminate. exact IH.
Qed.

Lemma sleepsOf_app (a b : list Js.Event) :
  Obs.sleepsOf (a ++ b) = (Obs.sleepsOf a ++ Obs.sleepsOf b)%list.
Proof. apply flat_map_app. Qed.

Lemma callsOf_app (a b : list Js.Event) :
  Obs.callsOf (a ++ b) = (Obs.callsOf a ++ Obs.callsOf b)%list.
Proof. apply flat_map_app. Qed.

Lemma sleepsOf_rounds (options : Git.Options) (attempt : Z) (msg : nat -> string)
      (s k : nat) :
  Obs.sleepsOf
    (flat_map (fun i => Git.failedRound CONFIG options (attempt + Z.of_nat i) (msg i))
              (seq s k))
  = map (fun i => Config.app_retryDelay CONFIG * (attempt + Z.of_nat i)) (seq s k).
Proof.
  revert s. induction k as [|k IH]; intros s; cbn [seq flat_map map]; [reflexivity|].
  rewrite sleepsOf_app, IH. reflexivity.
Qed.

Lemma callsOf_rounds_length (options : Git.Options) (attempt : Z) (msg : nat -> string)
      (s k : nat) :
  List.length
    (Obs.callsOf
       (flat_map (fun i => Git.failedRound CONFIG options (attempt + Z.of_nat i) (msg i))
                 (seq s k)))
  = k.
Proof.
  revert s. induction k as [|k IH]; intros s; cbn [seq flat_map]; [reflexivity|].
  rewrite callsOf_app, length_app, IH. reflexivity.
Qed.

Lemma since_trace (w w' : Js.State) (es : list Js.Event) :
  Js.trace w' = (Js.trace w ++ es)%list -> Obs.since w w' = es.
Proof.
  intros H. unfold Obs.since. rewrite H, skipn_app, skipn_all, Nat.sub_diag.
  reflexivity.
Qed.

Lemma pushAttempt_absent (options : Git.Options) (attempt : Z) (message : string)
      (w : Js.State) :
  Config.app_dryRun CONFIG = false ->
  Js.answer env (Js.calls w) = Js.Fail message ->
  Git.remoteAbsent message = true ->
  Git.pushAttempt CONFIG options attempt env w
  = (Js.Returned (Some (Git.PushFlags false (Some true))),
     Git.lastRound CONFIG options attempt message
       [Js.ELog Js.Warn "Remote repository not available. Commits saved locally."] w).
Proof.
  intros Hdry Ha Habs. unfold Git.pushAttempt, Js.call. unfold_js.
  rewrite Hdry. cbn. rewrite Ha, Habs.
  unfold Js.extend, Js.answered, Git.lastRound, Git.pushing, Git.pushCall; cbn.
  rewrite Ha, <- !app_assoc. reflexivity.
Qed.

Lemma pushAttempt_last (options : Git.Options) (attempt : Z) (message : string)
      (w : Js.State) :
  Config.app_dryRun CONFIG = false ->
  Js.answer env (Js.calls w) = Js.Fail message ->
  Git.remoteAbsent message = false ->
  attempt = Config.app_retryAttempts CONFIG ->
  Git.pushAttempt CONFIG options attempt env w
  = (Js.Thrown message,
     Git.lastRound CONFIG options attempt message
       [Js.ELog Js.Warn ("Push attempt " ++ Text.of_Z attempt ++ " failed");
        Js.ELog Js.Error "All push attempts failed"] w).
Proof.
  intros Hdry Ha Habs Hlast. unfold Git.pushAttempt, Js.call. unfold_js.
  rewrite Hdry. cbn. rewrite Ha, Habs.
  apply Z.eqb_eq in Hlast. rewrite Hlast.
  unfold Js.extend, Js.answered, Git.lastRound, Git.pushing, Git.pushCall; cbn.
  rewrite Ha, <- !app_assoc. reflexivity.
Qed.

Lemma lastRound_since (options : Git.Options) (attempt : Z) (msg : nat -> string)
      (message : string) (closing : list Js.Event) (k : nat) (w0 : Js.State) :
  Obs.since w0
    (Git.lastRound CONFIG options attempt message closing
       (Git.afterRounds CONFIG options 1 msg k w0))
  = (flat_map (fun i => Git.failedRound CONFIG options (1 + Z.of_nat i) (msg i)) (seq 0 k)
     ++ [Git.pushing CONFIG options attempt; Git.pushCall CONFIG options (Js.Fail message)]
     ++ closing)%list.
Proof.
  apply since_trace. unfold Git.lastRound, Git.afterRounds; cbn [Js.trace].
  now rewrite <- !app_assoc.
Qed.

Lemma lastRound_sleeps (options : Git.Options) (attempt : Z) (msg : nat -> string)
      (message : string) (closing : list Js.Event) (k : nat) (w0 : Js.State) :
  forallb Obs.isLog closing = true ->
  Obs.sleepsOf
    (Obs.since w0
       (Git.lastRound CONFIG options attempt message closing
          (Git.afterRounds CONFIG options 1 msg k w0)))
  = map (fun i => Config.app_retryDelay CONFIG * Z.of_nat i) (seq 1 k).
Proof.
  intros Hlogs. rewrite lastRound_since, !sleepsOf_app, sleepsOf_rounds.
  assert (Hclosing : Obs.sleepsOf closing = []).
  { induction closing as [|e closing IH]; [reflexivity|].
    cbn in Hlogs. destruct e; try discriminate. cbn. now apply IH. }
  rewrite Hclosing. unfold Git.pushing, Git.pushCall. cbn [Obs.sleepsOf flat_map app].
  rewrite app_nil_r, <- seq_shift, map_map.
  apply map_ext. intros i. f_equal. lia.
Qed.

Lemma lastRound_calls (options : Git.Options) (attempt : Z) (msg : nat -> string)
      (message : string) (closing : list Js.Event) (k : nat) (w0 : Js.State) :
  forallb Obs.isLog closing = true ->
  List.length
    (Obs.callsOf
       (Obs.since w0
          (Git.lastRound CONFIG options attempt message closing
             (Git.afterRounds CONFIG options 1 msg k w0))))
  = S k.
Proof.
  intros Hlogs. rewrite lastRound_since, !callsOf_app, !length_app,
    callsOf_rounds_length, (callsOf_logs closing Hlogs).
  unfold Git.pushing, Git.pushCall. cbn [Obs.callsOf flat_map app List.length]. lia.
Qed.

(** C2. A call of push whose initialisation is done makes its attempts in
    turn.  After [k] attempts that failed for a reason outside the
    remote-absent class, attempt [k+1] decides: a failure of the
    remote-absent class makes push return [{pushed: false, local: true}]
    without an error and without a further attempt; any other failure of
    the last attempt, number maxRetries, surfaces that error to the
    caller.  Either way push has then called git.push exactly [k+1] times
    and has waited retryDelay times the number of the attempt behind
    each of the first [k] attempts, and not behind the last. *)
Theorem C2_push_retry_policy
      (options : Git.Options) (w w0 : Js.State) (msg : nat -> string) (k : nat) :
  Config.app_dryRun CONFIG = false ->
  Git.ensureInitialized env w = (Js.Returned tt, w0) ->
  (k < Z.to_nat (Config.app_retryAttempts CONFIG))%nat ->
  (forall i, (i < k)%nat ->
     Js.answer env (Js.calls w0 + i) = Js.Fail (msg i)
     /\ ~ Git.remoteMissing (msg i)) ->
  Js.answer env (Js.calls w0 + k) = Js.Fail (msg k) ->
  let attempt := 1 + Z.of_nat k in
  let wk := Git.afterRounds CONFIG options 1 msg k w0 in
  let ended := Git.lastRound CONFIG options attempt (msg k) in
  let run := Git.push CONFIG options env w in
  (Git.remoteMissing (msg k) ->
   run = (Js.Returned (Git.PushFlags false (Some true)),
          ended [Js.ELog Js.Warn
                   "Remote repository not available. Commits saved locally."] wk))
  /\ (~ Git.remoteMissing (msg k) ->
      S k = Z.to_nat (Config.app_retryAttempts CONFIG) ->
      run = (Js.Thrown (msg k),
             ended [Js.ELog Js.Warn ("Push attempt " ++ Text.of_Z attempt ++ " failed");
                    Js.ELog Js.Error "All push attempts failed"] wk))
  /\ (Git.remoteMissing (msg k) \/ S k = Z.to_nat (Config.app_retryAttempts CONFIG) ->
      Obs.sleepsOf (Obs.since w0 (snd run))
      = map (fun i => Config.app_retryDelay CONFIG * Z.of_nat i) (seq 1 k)
      /\ List.length (Obs.callsOf (Obs.since w0 (snd run))) = S k
      /\ Js.calls (snd run) = (Js.calls w0 + S k)%nat).
Proof.
  intros Hdry Hinit Hk Hfail Hlast attempt wk ended run.
  assert (Hpush : run = Git.pushLoop CONFIG options
                          (Z.to_nat (Config.app_retryAttempts CONFIG) - k) attempt env wk).
  { unfold run, Git.push. unfold Js.bind at 1. rewrite Hinit.
    replace (Z.to_nat (Config.app_retryAttempts CONFIG))
      with (k + (Z.to_nat (Config.app_retryAttempts CONFIG) - k))%nat at 1 by lia.
    apply pushLoop_rounds; auto; [|lia].
    intros i Hi. destruct (Hfail i Hi) as [Ha Hn]. split; auto.
    destruct (Git.remoteAbsent (msg i)) eqn:E; auto.
    apply remoteAbsent_iff in E. contradiction. }
  assert (Hans : Js.answer env (Js.calls wk) = Js.Fail (msg k)) by exact Hlast.
  assert (Habsent : Git.remoteMissing (msg k) ->
            run = (Js.Returned (Git.PushFlags false (Some true)),
                   ended [Js.ELog Js.Warn
                            "Remote repository not available. Commits saved locally."]
                         wk)).
  { intros Habs. apply remoteAbsent_iff in Habs. rewrite Hpush.
    destruct (Z.to_nat (Config.app_retryAttempts CONFIG) - k)%nat as [|rounds] eqn:E;
      [lia|].
    cbn [Git.pushLoop]. unfold Js.bind at 1.
    rewrite (pushAttempt_absent options attempt (msg k) wk Hdry Hans Habs).
    reflexivity. }
  assert (Hexhausted : ~ Git.remoteMissing (msg k) ->
            S k = Z.to_nat (Config.app_retryAttempts CONFIG) ->
            run = (Js.Thrown (msg k),
                   ended [Js.ELog Js.Warn
                            ("Push attempt " ++ Text.of_Z attempt ++ " failed");
                          Js.ELog Js.Error "All push attempts failed"] wk)).
  { intros Habs Hexact. rewrite Hpush.
    replace (Z.to_nat (Config.app_retryAttempts CONFIG) - k)%nat with 1%nat by lia.
    cbn [Git.pushLoop]. unfold Js.bind at 1.
    rewrite (pushAttempt_last options attempt (msg k) wk Hdry Hans); [reflexivity| |].
    + destruct (Git.remoteAbsent (msg k)) eqn:E; auto.
      apply remoteAbsent_iff in E. contradiction.
    + unfold attempt. lia. }
  split; [exact Habsent|]. split; [exact Hexhausted|].
  intros Hends.
  destruct (Git.remoteAbsent (msg k)) eqn:E.
  - apply remoteAbsent_iff in E. rewrite (Habsent E). cbn [snd]. unfold ended, wk.
    rewrite lastRound_sleeps, lastRound_calls by reflexivity.
    repeat split. cbn [Git.lastRound Git.afterRounds Js.calls]. lia.
  - assert (Hnot : ~ Git.remoteMissing (msg k)).
    { intros H. apply remoteAbsent_iff in H. congruence. }
    destruct Hends as [H|Hexact]; [contradiction|].
    rewrite (Hexhausted Hnot Hexact). cbn [snd]. unfold ended, wk.
    rewrite lastRound_sleeps, lastRound_calls by reflexivity.
    repeat split. cbn [Git.lastRound Git.afterRounds Js.calls]. lia.
Qed.

End PushPull.

Section PullFacts.
Variable CONFIG : Config.t.
Variable env : Js.Env.

(** The state pull leaves when git.pull has been called and [closing] has
    been logged behind the call. *)
Lemma pull_called (options : Git.Options) (w w0 : Js.State) :
  Config.app_dryRun CONFIG = false ->
  Git.ensureInitialized env w = (Js.Returned tt, w0) ->
  let called :=
    Js.answered env w0
      (Js.GitPull (Git.orElse (Git.remote options) (Config.git_remoteName CONFIG))
                  (Git.orElse (Git.branch options) (Config.git_branch CONFIG))) in
  Git.pull CONFIG options env w =
  match Js.answer env (Js.calls w0) with
  | Js.Ok payload =>
      (Js.Returned (Git.PullOutput payload),
       Js.extend called [Js.ELog Js.Info "Pull successful"])
  | Js.Fail message =>
      if Git.pullIgnored message then
        (Js.Returned Git.PullEmpty,
         Js.extend called
           [Js.ELog Js.Debug "Remote not available or local changes, skipping pull"])
      else
        (Js.Thrown message, Js.extend called [Js.ELog Js.Error "Failed to pull"])
  end.
Proof.
  intros Hdry Hinit called. unfold Git.pull. unfold Js.bind at 1. rewrite Hinit.
  unfold Js.call. unfold_js. rewrite Hdry.
  destruct (Js.answer env (Js.calls w0)) as [payload|message]; [reflexivity|].
  destruct (Git.pullIgnored message); reflexivity.
Qed.

(** C9. A call of pull whose initialisation is done and whose git.pull
    fails with [message]: when the message names one of the recoverable
    conditions (no tracking information, remote ref not found, not a git
    repository, repository not found, unstaged changes) pull returns the
    empty result and no error; for every other message the error is
    surfaced to the caller. *)
Theorem C9_pull_failure_classes
      (options : Git.Options) (w w0 : Js.State) (message : string) :
  Config.app_dryRun CONFIG = false ->
  Git.ensureInitialized env w = (Js.Returned tt, w0) ->
  Js.answer env (Js.calls w0) = Js.Fail message ->
  let called :=
    Js.answered env w0
      (Js.GitPull (Git.orElse (Git.remote options) (Config.git_remoteName CONFIG))
                  (Git.orElse (Git.branch options) (Config.git_branch CONFIG))) in
  (Git.recoverable message ->
   Git.pull CONFIG options env w
   = (Js.Returned Git.PullEmpty,
      Js.extend called
        [Js.ELog Js.Debug "Remote not available or local changes, skipping pull"]))
  /\ (~ Git.recoverable message ->
      Git.pull CONFIG options env w
      = (Js.Thrown message, Js.extend called [Js.ELog Js.Error "Failed to pull"])).
Proof.
  intros Hdry Hinit Ha called.
  pose proof (pull_called options w w0 Hdry Hinit) as Hpull. cbn zeta in Hpull.
  rewrite Ha in Hpull. split; intros Hclass; rewrite Hpull.
  - apply pullIgnored_iff in Hclass. now rewrite Hclass.
  - destruct (Git.pullIgnored message) eqn:E; [|reflexivity].
    apply pullIgnored_iff in E. contradiction.
Qed.

(** The calls of pull are the initialisation, if it is still to be done,
    and then git.pull at most; when pull returns, the service is
    initialised. *)
Lemma pull_footprint (options : Git.Options) (w : Js.State) :
  exists es,
    Js.trace (snd (Git.pull CONFIG options env w)) = (Js.trace w ++ es)%list
    /\ Sorted le (map Obs.phase (Obs.callsOf es))
    /\ Forall (fun c => Obs.phase c <= 1)%nat (Obs.callsOf es)
    /\ (Hoare.returns (fst (Git.pull CONFIG options env w)) ->
        Js.initialized (snd (Git.pull CONFIG options env w)) = true).
Proof.
  unfold Git.pull, Git.ensureInitialized, Git.initialize, Js.call, Js.answered.
  unfold_js. unfold Js.extend. cbn.
  destruct (Js.initialized w) eqn:Hi; cbn.
  - destruct (Config.app_dryRun CONFIG); cbn.
    + eexists; split; [reflexivity|]. cbn. rewrite Hi. repeat constructor.
    + destruct (Js.answer env (Js.calls w)) as [p|m]; cbn;
        [|destruct (Git.pullIgnored m); cbn];
        rewrite <- ?app_assoc; (eexists; split; [reflexivity|]); cbn; rewrite ?Hi;
        repeat constructor; tauto.
  - destruct (Js.answer env (Js.calls w)) as [p|m]; cbn.
    + destruct (Config.app_dryRun CONFIG); cbn.
      * rewrite <- ?app_assoc. eexists; split; [reflexivity|]. cbn.
        repeat constructor.
      * destruct (Js.answer env (S (Js.calls w))) as [p'|m']; cbn;
          [|destruct (Git.pullIgnored m'); cbn];
          rewrite <- ?app_assoc; (eexists; split; [reflexivity|]); cbn;
          repeat constructor; tauto.
    + rewrite <- ?app_assoc. eexists; split; [reflexivity|]. cbn.
      repeat constructor. tauto.
Qed.

End PullFacts.

(** ** commit-service.js: what a batch of today's commits touches *)

Section CommitFootprints.
Import Hoare.
Variable CONFIG : Config.t.
Variable env : Js.Env.

Lemma footprint_createCommit (date : Moment.t) (message : option string) :
  footprint env ready (inPhase 2) (Commit.createCommit CONFIG date message).
Proof.
  pose proof ready_flagOnly.
  unfold Commit.createCommit, Commit.generateCommitMessage, Commit.writeDataFile.
  apply footprint_bind.
  - destruct message as [m|]; [destruct (String.eqb m "")|]; repeat footprint_step.
  - intros commitMessage. apply footprint_try_catch; [|intros e; repeat footprint_step].
    apply footprint_bind; [repeat footprint_step|intros _].
    apply footprint_bind; [apply footprint_add|intros _].
    apply footprint_bind; [apply footprint_commit|intros result].
    repeat footprint_step.
Qed.

Lemma footprint_createTodayContributions :
  footprint env ready (inPhase 2) (Commit.createTodayContributions CONFIG).
Proof.
  pose proof ready_flagOnly.
  unfold Commit.createTodayContributions, Commit.getRandomCommitCount.
  apply footprint_bind; [repeat footprint_step|intros today].
  apply footprint_bind; [repeat footprint_step|intros commitCount].
  apply footprint_bind; [repeat footprint_step|intros _].
  apply footprint_forEach. intros i results.
  apply footprint_bind; [repeat footprint_step|intros r].
  apply footprint_try_catch; [|intros e; repeat footprint_step].
  apply footprint_bind; [apply footprint_createCommit|intros result].
  repeat footprint_step.
Qed.

End CommitFootprints.

(** ** scheduler.js: a run of executeTask *)

Section Phases.

Lemma sorted_app (a b : list nat) :
  Sorted le a -> Sorted le b ->
  (forall x y, In x a -> In y b -> (x <= y)%nat) ->
  Sorted le (a ++ b).
Proof.
  induction a as [|x a IH]; intros Ha Hb Hab; cbn; [assumption|].
  inversion Ha as [|? ? Hs Hh]; subst. constructor.
  - apply IH; auto. intros; apply Hab; cbn; auto.
  - destruct a as [|x' a']; cbn.
    + destruct b as [|y b']; constructor. apply Hab; cbn; auto.
    + inversion Hh; subst. now constructor.
Qed.

Lemma sorted_constant (p : nat) (l : list nat) :
  Forall (fun x => x = p) l -> Sorted le l.
Proof.
  induction 1 as [|x l Hx Hl IH]; constructor; auto.
  destruct Hl; constructor. lia.
Qed.

Lemma inPhase_calls (p : nat) (es : list Js.Event) :
  Forall (Hoare.inPhase p) es ->
  Forall (fun x => x = p) (map Obs.phase (Obs.callsOf es)).
Proof.
  induction 1 as [|e es He Hes IH]; cbn; [constructor|].
  destruct e; cbn; auto.
Qed.

End Phases.

Section SchedulerRuns.
Variable CONFIG : Config.t.
Variable env : Js.Env.

(** C3. When executeTask runs (the flag was false) it calls pull, then
    createTodayContributions, then push, each on the world the one before
    left, and stops at the first of them that throws.  The call itself
    always returns: the error is not passed on.  The flag is false again
    when it returns, the job stays registered, totalRuns has grown by one;
    failedRuns grows by one exactly when one of the three threw and
    successfulRuns by one when none did.  In the trace the initialisation
    comes first, then the pull, then the commits, then the pushes. *)
Theorem C3_executeTask_sequence (this : Sched.Scheduler) (w : Js.State) :
  Sched.isRunning this = false ->
  let pulled := Git.pull CONFIG Git.noOptions env (Sched.started w) in
  let created := Commit.createTodayContributions CONFIG env (snd pulled) in
  let pushed := Git.push CONFIG Git.noOptions env (snd created) in
  let succeeded this' :=
    Sched.successfulRuns (Sched.stats this') = Sched.successfulRuns (Sched.stats this) + 1
    /\ Sched.failedRuns (Sched.stats this') = Sched.failedRuns (Sched.stats this) in
  let failed this' :=
    Sched.successfulRuns (Sched.stats this') = Sched.successfulRuns (Sched.stats this)
    /\ Sched.failedRuns (Sched.stats this') = Sched.failedRuns (Sched.stats this) + 1 in
  exists this' w',
    Sched.executeTask CONFIG this env w = (Js.Returned this', w')
    /\ Sched.isRunning this' = false
    /\ Sched.job this' = Sched.job this
    /\ Sched.lastRun this' = Some (Js.clock env (Js.clockReads w))
    /\ Sched.totalRuns (Sched.stats this') = Sched.totalRuns (Sched.stats this) + 1
    /\ match fst pulled, fst created, fst pushed with
       | Js.Thrown _, _, _ =>
           failed this' /\ w' = Js.extend (snd pulled) [Sched.failedNotice]
       | Js.Returned _, Js.Thrown _, _ =>
           failed this' /\ w' = Js.extend (snd created) [Sched.failedNotice]
       | Js.Returned _, Js.Returned _, Js.Thrown _ =>
           failed this' /\ w' = Js.extend (snd pushed) [Sched.failedNotice]
       | Js.Returned _, Js.Returned _, Js.Returned _ =>
           succeeded this' /\ w' = Js.extend (snd pushed) [Sched.completedNotice]
       end
    /\ Sorted le (map Obs.phase (Obs.callsOf (Obs.since w w'))).
Proof.
  intros Hidle pulled created pushed succeeded failed.
  assert (Hstart : Js.trace (Sched.started w) = (Js.trace w ++ [Sched.startedNotice])%list)
    by reflexivity.
  destruct (pull_footprint CONFIG env Git.noOptions (Sched.started w))
    as (es1 & Ht1 & Hs1 & Hp1 & Hready).
  fold pulled in Ht1, Hready.
  unfold Sched.executeTask. rewrite Hidle. unfold_js.
  change (Js.extend _ [Js.ELog Js.Info "Starting scheduled contribution task"])
    with (Sched.started w).
  fold pulled. destruct pulled as [[v1|e1] w1] eqn:Epull; cbn [fst snd] in *.
  - pose proof (footprint_createTodayContributions CONFIG env w1 (Hready Logic.I))
      as (Hready2 & _ & es2 & Ht2 & Hq2).
    fold created in Hready2, Ht2.
    fold created. destruct created as [[v2|e2] w2] eqn:Ecreate; cbn [fst snd] in *.
    + pose proof (footprint_push CONFIG env Git.noOptions w2 Hready2)
        as (_ & _ & es3 & Ht3 & Hq3).
      fold pushed in Ht3.
      assert (Hsorted : forall notice,
                 Obs.isLog notice = true ->
                 Sorted le (map Obs.phase
                   (Obs.callsOf (Obs.since w (Js.extend (snd pushed) [notice]))))).
      { intros notice Hn.
        erewrite since_trace
          with (es := ([Sched.startedNotice] ++ es1 ++ es2 ++ es3 ++ [notice])%list).
        2:{ cbn [Js.extend Js.trace]. rewrite Ht3, Ht2, Ht1, Hstart.
            now rewrite <- !app_assoc. }
        rewrite !callsOf_app, !map_app.
        rewrite (callsOf_logs [notice]) by (cbn; now rewrite Hn).
        cbn [Obs.callsOf flat_map Sched.startedNotice map app]. rewrite app_nil_r.
        pose proof (inPhase_calls 2 es2 Hq2) as H2.
        pose proof (inPhase_calls 3 es3 Hq3) as H3.
        apply sorted_app; [assumption| |].
        - apply sorted_app; try (eapply sorted_constant; eassumption).
          intros x y Hx Hy. rewrite Forall_forall in H2, H3.
          rewrite (H2 x Hx), (H3 y Hy). lia.
        - intros x y Hx Hy. apply in_map_iff in Hx. destruct Hx as (c & <- & Hc).
          rewrite Forall_forall in Hp1, H2, H3. specialize (Hp1 c Hc).
          apply in_app_or in Hy. destruct Hy as [Hy|Hy];
            [rewrite (H2 y Hy)|rewrite (H3 y Hy)]; lia. }
      fold pushed. destruct pushed as [[v3|e3] w3] eqn:Epush; cbn [fst snd] in *.
      * eexists _, _. split; [reflexivity|]. cbn.
        repeat split; auto.
      * eexists _, _. split; [reflexivity|]. cbn.
        repeat split; auto.
    + eexists _, _. split; [reflexivity|]. cbn. repeat split; auto.
      erewrite since_trace
        with (es := ([Sched.startedNotice] ++ es1 ++ es2 ++ [Sched.failedNotice])%list).
      2:{ cbn [Js.extend Js.trace]. rewrite Ht2, Ht1, Hstart.
          now rewrite <- !app_assoc. }
      rewrite !callsOf_app, !map_app. cbn [Obs.callsOf flat_map Sched.startedNotice
        Sched.failedNotice map app]. rewrite app_nil_r.
      pose proof (inPhase_calls 2 es2 Hq2) as H2.
      apply sorted_app; [assumption|eapply sorted_constant; eassumption|].
      intros x y Hx Hy. apply in_map_iff in Hx. destruct Hx as (c & <- & Hc).
      rewrite Forall_forall in Hp1, H2. specialize (Hp1 c Hc).
      rewrite (H2 y Hy). lia.
  - eexists _, _. split; [reflexivity|]. cbn. repeat split; auto.
    erewrite since_trace
      with (es := ([Sched.startedNotice] ++ es1 ++ [Sched.failedNotice])%list).
    2:{ cbn [Js.extend Js.trace]. rewrite Ht1, Hstart. now rewrite <- !app_assoc. }
    rewrite !callsOf_app, !map_app. cbn [Obs.callsOf flat_map Sched.startedNotice
      Sched.failedNotice map app]. now rewrite app_nil_r.
Qed.

End SchedulerRuns.

(** ** scheduler.js: the runs of the event loop *)

Section SchedulerInvariant.
Variable CONFIG : Config.t.
Variable env : Js.Env.

Lemma boot_consistent (w0 : Js.State) : Sched.consistent (Sched.boot w0).
Proof. unfold Sched.consistent; cbn. repeat split; lia. Qed.

Lemma enter_change (sys : Sched.System) (this : Sched.Scheduler)
      (a : option Sched.Await) (w1 w : Js.State) :
  Sched.consistent sys ->
  Sched.enter (Sched.scheduler sys) env w1 = (Js.Returned (this, a), w) ->
  Sched.consistent (Sched.mkSystem this (Sched.park a (Sched.suspended sys)) w)
  /\ (Sched.unchanged (Sched.scheduler sys) this
      \/ Sched.begins (Sched.scheduler sys) this).
Proof.
  unfold Sched.consistent. intros (Hs & Hf & Hinv) He.
  destruct (Sched.isRunning (Sched.scheduler sys)) eqn:Hrun.
  - rewrite enter_running in He by assumption. inversion He; subst; cbn.
    rewrite Hrun. split; [auto|]. left. split; auto.
  - rewrite enter_idle in He by assumption. inversion He; subst; cbn.
    destruct Hinv as [Hnil Htot]. rewrite Hnil. cbn. split.
    + repeat split; try lia. eauto.
    + right. unfold Sched.begins; cbn. auto.
Qed.

Lemma step_change (sys sys' : Sched.System) :
  Sched.consistent sys ->
  Sched.step CONFIG env sys sys' ->
  Sched.consistent sys'
  /\ (Sched.unchanged (Sched.scheduler sys) (Sched.scheduler sys')
      \/ Sched.begins (Sched.scheduler sys) (Sched.scheduler sys')
      \/ Sched.ends (Sched.scheduler sys) (Sched.scheduler sys')).
Proof.
  intros Hc Hstep. destruct Hstep as [sys sys' Htrig | sys before a after this a' w Hsus Hres].
  - destruct Htrig as [sys this a w He | sys this a w He].
    + destruct (enter_change sys this a _ w Hc He) as [H1 H2]. split; [exact H1|tauto].
    + unfold Js.bind at 1 in He. cbn in He.
      destruct (enter_change sys this a _ w Hc He) as [H1 H2]. split; [exact H1|tauto].
  - unfold Sched.consistent in Hc. destruct Hc as (Hs & Hf & Hinv).
    destruct (Sched.isRunning (Sched.scheduler sys)) eqn:Hrun.
    2:{ destruct Hinv as [Hnil _]. rewrite Hnil in Hsus.
        destruct before; discriminate. }
    destruct Hinv as [[a0 Hone] Htot]. rewrite Hone in Hsus.
    assert (before = [] /\ after = []) as [-> ->].
    { destruct before as [|b before]; cbn in Hsus.
      - inversion Hsus; auto.
      - inversion Hsus as [[Hb Hrest]]. destruct before; discriminate. }
    apply resume_cases in Hres.
    unfold Sched.consistent; cbn [Sched.scheduler Sched.suspended app].
    destruct Hres as [[-> [b ->]] | [[-> ->] | [-> ->]]]; cbn.
    + rewrite Hrun. split; [eauto 6|]. left. split; auto.
    + split; [repeat split; lia|]. right; right. unfold Sched.ends; cbn.
      repeat split; auto.
    + split; [repeat split; lia|]. right; right. unfold Sched.ends; cbn.
      repeat split; auto.
Qed.

Lemma reachable_consistent (w0 : Js.State) (sys : Sched.System) :
  Sched.reachable CONFIG env w0 sys -> Sched.consistent sys.
Proof.
  induction 1 as [|sys sys' _ IH Hstep]; [apply boot_consistent|].
  now apply (step_change sys sys').
Qed.

(** C10. The counters start at zero.  In every state the event loop can
    reach, totalRuns is the sum of successfulRuns and failedRuns when no
    run is under way (and one more while a run is under way).  A task of
    the event loop leaves the counters alone, or begins a run and adds one
    to totalRuns, or ends a run and adds one to exactly one of
    successfulRuns and failedRuns; so no counter ever decreases.  A run of
    executeTask taken as a whole adds one to totalRuns and one to exactly
    one of the other two. *)
Theorem C10_run_statistics (w0 : Js.State) (sys : Sched.System) :
  Sched.reachable CONFIG env w0 sys ->
  let st := Sched.stats (Sched.scheduler sys) in
  Sched.stats Sched.constructor = Sched.mkStats 0 0 0
  /\ Sched.isRunning Sched.constructor = false
  /\ (Sched.isRunning (Sched.scheduler sys) = false ->
      Sched.totalRuns st = Sched.successfulRuns st + Sched.failedRuns st)
  /\ (Sched.isRunning (Sched.scheduler sys) = true ->
      Sched.totalRuns st = Sched.successfulRuns st + Sched.failedRuns st + 1)
  /\ (forall sys',
        Sched.step CONFIG env sys sys' ->
        let st' := Sched.stats (Sched.scheduler sys') in
        (Sched.unchanged (Sched.scheduler sys) (Sched.scheduler sys')
         \/ Sched.begins (Sched.scheduler sys) (Sched.scheduler sys')
         \/ Sched.ends (Sched.scheduler sys) (Sched.scheduler sys'))
        /\ Sched.totalRuns st <= Sched.totalRuns st'
        /\ Sched.successfulRuns st <= Sched.successfulRuns st'
        /\ Sched.failedRuns st <= Sched.failedRuns st')
  /\ (forall w,
        Sched.isRunning (Sched.scheduler sys) = false ->
        exists this' w',
          Sched.executeTask CONFIG (Sched.scheduler sys) env w = (Js.Returned this', w')
          /\ Sched.isRunning this' = false
          /\ Sched.totalRuns (Sched.stats this') = Sched.totalRuns st + 1
          /\ ((Sched.successfulRuns (Sched.stats this') = Sched.successfulRuns st + 1
               /\ Sched.failedRuns (Sched.stats this') = Sched.failedRuns st)
              \/ (Sched.successfulRuns (Sched.stats this') = Sched.successfulRuns st
                  /\ Sched.failedRuns (Sched.stats this') = Sched.failedRuns st + 1))
          /\ Sched.totalRuns (Sched.stats this')
             = Sched.successfulRuns (Sched.stats this') + Sched.failedRuns (Sched.stats this')).
Proof.
  intros Hreach st. pose proof (reachable_consistent w0 sys Hreach) as Hc.
  split; [reflexivity|]. split; [reflexivity|].
  assert (Hc' := Hc). unfold Sched.consistent in Hc'. fold st in Hc'.
  destruct Hc' as (Hs & Hf & Hinv).
  split; [|split; [|split]].
  - intros Hrun. rewrite Hrun in Hinv. tauto.
  - intros Hrun. rewrite Hrun in Hinv. tauto.
  - intros sys' Hstep st'. destruct (step_change sys sys' Hc Hstep) as [_ Hchange].
    split; [exact Hchange|]. subst st st'.
    destruct Hchange as [[Heq _] | [Hb | He]].
    + rewrite Heq. lia.
    + unfold Sched.begins in Hb. lia.
    + unfold Sched.ends in He. lia.
  - intros w Hrun. rewrite Hrun in Hinv. destruct Hinv as [_ Htot].
    unfold Sched.executeTask. rewrite Hrun. unfold_js.
    destruct (Git.pull CONFIG Git.noOptions env _) as [[v1|e1] w1].
    + destruct (Commit.createTodayContributions CONFIG env w1) as [[v2|e2] w2].
      * destruct (Git.push CONFIG Git.noOptions env w2) as [[v3|e3] w3];
          eexists _, _; (split; [reflexivity|]); cbn; fold st;
          repeat split; auto; lia.
      * eexists _, _; (split; [reflexivity|]); cbn; fold st;
          repeat split; auto; lia.
    + eexists _, _; (split; [reflexivity|]); cbn; fold st;
        repeat split; auto; lia.
Qed.

End SchedulerInvariant.

(** ** The pattern script: an unknown pattern name *)

Section UnknownPattern.
Variable config : Pattern.Config.
Variable table : list (string * Pattern.Grid).

Lemma append_empty (s : string) : s ++ "" = s.
Proof. induction s as [|c s IH]; cbn; congruence. Qed.

Lemma occursIn_append_l (s a b : string) :
  Obs.occursIn s b -> Obs.occursIn s (a ++ b).
Proof.
  intros (x & y & ->). exists (a ++ x), y. now rewrite append_assoc.
Qed.

Lemma occursIn_join (sep key : string) (parts : list string) :
  In key parts -> Obs.occursIn key (Text.join sep parts).
Proof.
  induction parts as [|p rest IH]; [contradiction|].
  intros [->|Hin].
  - destruct rest as [|q rest]; cbn [Text.join].
    + exists "", "". cbn. now rewrite append_empty.
    + now exists "", (sep ++ Text.join sep (q :: rest)).
  - destruct rest as [|q rest]; [contradiction|]. cbn [Text.join].
    apply occursIn_append_l, occursIn_append_l, IH, Hin.
Qed.

(** C8, as the script has it.  For a requested name that is no key of the
    pattern table (and is not one of the names every object inherits),
    drawPattern writes to the console an error that quotes the requested
    name and a line that lists every key of the table, makes no call at
    all (no file is written, no commit is created), draws no other
    pattern in place of the requested one, and returns without raising an
    error. *)
Theorem C8_unknown_pattern_is_reported
      (patternName : string) (startWeek : Z) (env : Js.Env) (w : Js.State) :
  Pattern.own table patternName = None ->
  Pattern.isInherited patternName = false ->
  Pattern.drawPattern config table patternName startWeek env w
  = (Js.Returned tt,
     Js.extend w [Js.EConsole Js.Stderr (Pattern.notFound patternName);
                  Js.EConsole Js.Stdout (Pattern.available table)])
  /\ Obs.occursIn (Text.dquote ++ patternName ++ Text.dquote)
                  (Pattern.notFound patternName)
  /\ (forall key, In key (Pattern.keys table) ->
                  Obs.occursIn key (Pattern.available table))
  /\ Obs.callsOf
       (Obs.since w (snd (Pattern.drawPattern config table patternName startWeek env w)))
     = [].
Proof.
  intros Hown Hinh.
  assert (Hrun : Pattern.drawPattern config table patternName startWeek env w
                 = (Js.Returned tt,
                    Js.extend w [Js.EConsole Js.Stderr (Pattern.notFound patternName);
                                 Js.EConsole Js.Stdout (Pattern.available table)])).
  { unfold Pattern.drawPattern, Pattern.get. rewrite Hown, Hinh. unfold_js.
    now rewrite extend_extend. }
  split; [exact Hrun|]. split; [|split].
  - unfold Pattern.notFound.
    apply (occursIn_append_l _ "❌ Pattern ").
    exists "", " not found!". rewrite !append_assoc. reflexivity.
  - intros key Hin. unfold Pattern.available.
    apply occursIn_append_l, occursIn_join, Hin.
  - rewrite Hrun. cbn [snd]. now rewrite since_extend.
Qed.

End UnknownPattern.

(** C8, as the specification has it, fails: for the unknown name [nope] the
    pattern run raises no error. *)
Lemma C8_unknown_pattern_raises_nothing :
  Pattern.own Pattern.PATTERNS "nope" = None
  /\ ~ (exists message,
          fst (Pattern.drawPattern Pattern.CONFIG Pattern.PATTERNS "nope" 10
                 Sample.calm Js.initial)
          = Js.Thrown message).
Proof.
  split; [reflexivity|]. intros [message H]. vm_compute in H. discriminate.
Qed.

(** After an unknown name, main goes on to push and reports success. *)
Example main_unknown_pattern_pushes :
  let run := Pattern.main Pattern.CONFIG Pattern.PATTERNS (Some "nope") None
               Sample.calm Js.initial in
  fst run = Js.Returned tt
  /\ Obs.callsOf (Js.trace (snd run)) = [Js.GitPush "" ""].
Proof. vm_compute. split; reflexivity. Qed.

(** A name inherited from Object.prototype is not reported as unknown: the
    script stops with a type error. *)
Example drawPattern_inherited_name :
  fst (Pattern.drawPattern Pattern.CONFIG Pattern.PATTERNS "constructor" 10
         Sample.calm Js.initial)
  = Js.Thrown "pattern.flat is not a function".
Proof. reflexivity. Qed.

(** ** generateDate *)

Section GenerateDate.
Variable config : Pattern.Config.

Lemma formatTime_seconds (ms ms' : Z) :
  ms / 1000 = ms' / 1000 -> Moment.formatTime ms = Moment.formatTime ms'.
Proof.
  intros H. unfold Moment.formatTime.
  replace (ms / 3600000) with (ms / 1000 / 3600)
    by (rewrite Z.div_div by lia; reflexivity).
  replace (ms' / 3600000) with (ms' / 1000 / 3600)
    by (rewrite Z.div_div by lia; reflexivity).
  replace (ms / 60000) with (ms / 1000 / 60)
    by (rewrite Z.div_div by lia; reflexivity).
  replace (ms' / 60000) with (ms' / 1000 / 60)
    by (rewrite Z.div_div by lia; reflexivity).
  now rewrite H.
Qed.

(** C5, as the script has it.  generateDate reads the clock once and does
    nothing else; its value is the formatted moment "now minus yearsBack
    years, plus one day, plus weeksBack weeks, plus dayOfWeek days".  The
    calendar part of that value is fixed by the inputs, yearsBack and the
    calendar day of the reading; its clock part is the time of day of the
    reading.  Two readings on the same calendar day give the same value
    when they also fall into the same second. *)
Theorem C5_generateDate_follows_the_clock
      (t t' : Moment.t) (weeksBack dayOfWeek : Z) (env : Js.Env) (w : Js.State) :
  Moment.days t' = Moment.days t ->
  let anchor :=
    Moment.days (Moment.subtract_y (Pattern.yearsBack config)
                                   (Moment.mk (Moment.days t) 0)) in
  Pattern.generateDate config weeksBack dayOfWeek env w
  = (Js.Returned
       (Pattern.generateDateAt config (Js.clock env (Js.clockReads w))
                               weeksBack dayOfWeek),
     Js.mkState (Js.trace w) (Js.calls w) (S (Js.clockReads w)) (Js.draws w)
                (Js.initialized w))
  /\ Pattern.generateDateAt config t weeksBack dayOfWeek
     = Moment.format
         (Moment.add_d dayOfWeek
            (Moment.add_w weeksBack
               (Moment.add_d 1 (Moment.subtract_y (Pattern.yearsBack config) t))))
  /\ Pattern.generateDateAt config t weeksBack dayOfWeek
     = Moment.formatDate (anchor + 1 + 7 * weeksBack + dayOfWeek)
       ++ "T" ++ Moment.formatTime (Moment.ms t) ++ "+00:00"
  /\ Pattern.generateDateAt config t' weeksBack dayOfWeek
     = Moment.formatDate (anchor + 1 + 7 * weeksBack + dayOfWeek)
       ++ "T" ++ Moment.formatTime (Moment.ms t') ++ "+00:00"
  /\ (Moment.ms t' / 1000 = Moment.ms t / 1000 ->
      Pattern.generateDateAt config t' weeksBack dayOfWeek
      = Pattern.generateDateAt config t weeksBack dayOfWeek).
Proof.
  intros Hday anchor.
  assert (Hshape : forall x, Moment.days x = Moment.days t ->
            Pattern.generateDateAt config x weeksBack dayOfWeek
            = Moment.formatDate (anchor + 1 + 7 * weeksBack + dayOfWeek)
              ++ "T" ++ Moment.formatTime (Moment.ms x) ++ "+00:00").
  { intros x Hx. unfold Pattern.generateDateAt, Moment.format, anchor.
    unfold Moment.add_d, Moment.add_w, Moment.add_d, Moment.subtract_y.
    cbn [Moment.days Moment.ms]. rewrite Hx.
    destruct (Moment.civil_from_days (Moment.days t)) as [[y m] d].
    cbn [Moment.days Moment.ms]. reflexivity. }
  split; [reflexivity|]. split; [reflexivity|].
  split; [now apply Hshape|]. split; [now apply Hshape|].
  intros Hsec. rewrite (Hshape t eq_refl), (Hshape t' Hday).
  now rewrite (formatTime_seconds _ _ Hsec).
Qed.

End GenerateDate.

(** C5, as the specification has it, fails: two calls with the same inputs,
    one after the other on the same calendar day, a second apart, return
    different values. *)
Lemma C5_same_day_different_values :
  let first := Pattern.generateDate Pattern.CONFIG 0 0 Sample.calm Js.initial in
  let second := Pattern.generateDate Pattern.CONFIG 0 0 Sample.calm (snd first) in
  Moment.days (Js.clock Sample.calm 0) = Moment.days (Js.clock Sample.calm 1)
  /\ fst first = Js.Returned "2023-03-11T10:00:00+00:00"
  /\ fst second = Js.Returned "2023-03-11T10:00:01+00:00"
  /\ fst first <> fst second.
Proof.
  cbv zeta. split; [reflexivity|]. split; [reflexivity|]. split; [reflexivity|].
  vm_compute. discriminate.
Qed.

(** ** Rehearsal mode *)

Section DryRun.
Import Hoare.
Variable CONFIG : Config.t.
Variable env : Js.Env.

Lemma anything_flagOnly : flagOnly (fun _ => True).
Proof. now intros ? ? ? ?. Qed.







Lemma footprint_since {A} (I : Js.State -> Prop) (Ev : Js.Event -> Prop)
      (c : Js.M A) (w : Js.State) :
  footprint env I Ev c -> I w -> Forall Ev (Obs.since w (snd (c env w))).
Proof.
  intros Hc Hw. destruct (Hc w Hw) as (_ & _ & es & Hes & HQ).
  now rewrite (since_trace _ _ _ Hes).
Qed.












End DryRun.


(** ** The pattern script: drawing a pattern *)

Section Adds.

Lemma commitDates_app (a b : list Js.Event) :
  Obs.commitDates (a ++ b) = (Obs.commitDates a ++ Obs.commitDates b)%list.
Proof. apply flat_map_app. Qed.

Lemma adds_refl (w : Js.State) : Obs.adds w w [].
Proof. exists []. now rewrite app_nil_r. Qed.

Lemma adds_trans (w w1 w2 : Js.State) (a b : list string) :
  Obs.adds w w1 a -> Obs.adds w1 w2 b -> Obs.adds w w2 (a ++ b).
Proof.
  intros (ea & Ha & Hda) (eb & Hb & Hdb). exists (ea ++ eb)%list. split.
  - now rewrite Hb, Ha, app_assoc.
  - now rewrite commitDates_app, Hda, Hdb.
Qed.

Lemma adds_silent (w : Js.State) (es : list Js.Event) :
  Obs.commitDates es = [] -> Obs.adds w (Js.extend w es) [].
Proof. intros H. now exists es. Qed.

Lemma adds_since (w w' : Js.State) (dates : list string) :
  Obs.adds w w' dates -> Obs.commitDates (Obs.since w w') = dates.
Proof. intros (es & Ht & Hd). now rewrite (since_trace _ _ _ Ht). Qed.

End Adds.

Section DrawPattern.
Variable config : Pattern.Config.
Variable env : Js.Env.
Hypothesis env_ok : Obs.allOk env.

Lemma call_ok (c : Js.Call) (w : Js.State) :
  exists payload,
    Js.call c env w = (Js.Returned payload, Js.answered env w c)
    /\ Js.answer env (Js.calls w) = Js.Ok payload.
Proof.
  destruct (env_ok (Js.calls w)) as [payload Hp]. exists payload.
  unfold Js.call. now rewrite Hp.
Qed.

(** With every call succeeding, createCommit creates one commit bearing
    the date it is given. *)
Lemma pattern_createCommit_ok (date : string) (w : Js.State) :
  exists w',
    Pattern.createCommit date env w = (Js.Returned tt, w')
    /\ Js.clockReads w' = Js.clockReads w
    /\ Obs.adds w w' [date].
Proof.
  unfold Pattern.createCommit, Pattern.writeData, Js.bind.
  destruct (call_ok (Js.WriteFile date "") w) as (p1 & -> & H1).
  cbv beta iota delta [Js.ret].
  set (w1 := Js.answered env w (Js.WriteFile date "")).
  destruct (call_ok Js.GitAdd w1) as (p2 & -> & H2).
  cbv beta iota delta [Js.ret].
  set (w2 := Js.answered env w1 Js.GitAdd).
  destruct (call_ok (Js.GitCommit date date) w2) as (p3 & -> & H3).
  cbv beta iota delta [Js.ret].
  eexists. split; [reflexivity|]. split; [reflexivity|].
  eexists. split.
  - cbn [Js.trace Js.answered w2 w1]. rewrite <- !app_assoc. reflexivity.
  - cbn [app]. rewrite H1. fold w1. rewrite H2. fold w2. rewrite H3. reflexivity.
Qed.

(** The loop over [i]: one commit for each round. *)
Lemma commit_rounds (date : string) (rounds : list Z) :
  forall (currentCommit : Z) (w : Js.State),
  exists w',
    Js.forEach rounds
      (fun _ n => Js.bind (Pattern.createCommit date) (fun _ => Js.ret (n + 1)))
      currentCommit env w
    = (Js.Returned (currentCommit + Z.of_nat (List.length rounds)), w')
    /\ Js.clockReads w' = Js.clockReads w
    /\ Obs.adds w w' (List.repeat date (List.length rounds)).
Proof.
  induction rounds as [|i rounds IH]; intros currentCommit w; cbn [Js.forEach].
  - exists w. rewrite Z.add_0_r. repeat split. apply adds_refl.
  - destruct (pattern_createCommit_ok date w) as (w1 & Hrun & Hclock & Hadds).
    destruct (IH (currentCommit + 1) w1) as (w' & Hrest & Hclock' & Hadds').
    exists w'. unfold Js.bind at 1. unfold Js.bind at 1. rewrite Hrun.
    cbn [Js.ret]. rewrite Hrest. split; [|split].
    + f_equal. f_equal. cbn [List.length]. lia.
    + congruence.
    + apply (adds_trans w w1 w' [date]); assumption.
Qed.

Lemma upto_length (n : Z) : List.length (Js.upto n) = Z.to_nat n.
Proof. unfold Js.upto. now rewrite length_map, length_seq. Qed.

(** The body of the loops: a cell that is set reads the clock once and
    creates commitsPerCell commits bearing the date of the cell; a cell
    that is not set does nothing. *)
Lemma drawCell_ok (pattern : Pattern.Grid) (startWeek : Z) (week day : nat)
      (currentCommit : Z) (w : Js.State) :
  exists currentCommit' w',
    Pattern.drawCell config pattern startWeek week day currentCommit env w
    = (Js.Returned currentCommit', w')
    /\ Js.clockReads w'
       = (Js.clockReads w + if Pattern.cell pattern day week then 1 else 0)%nat
    /\ Obs.adds w w'
         (Pattern.expand config (Js.clock env) startWeek
            (Z.to_nat (Pattern.commitsPerCell config)) (Js.clockReads w)
            (if Pattern.cell pattern day week then [(week, day)] else [])).
Proof.
  unfold Pattern.drawCell. destruct (Pattern.cell pattern day week).
  - unfold Pattern.generateDate. unfold Js.bind at 1. unfold Js.bind at 1.
    cbn [Js.now Js.ret].
    set (date := Pattern.generateDateAt config (Js.clock env (Js.clockReads w))
                   (startWeek + Z.of_nat week) (Z.of_nat day)).
    set (w0 := Js.mkState (Js.trace w) (Js.calls w) (S (Js.clockReads w))
                          (Js.draws w) (Js.initialized w)).
    destruct (commit_rounds date (Js.upto (Pattern.commitsPerCell config))
                currentCommit w0) as (w1 & Hrun & Hclock & Hadds).
    unfold Js.bind at 1. rewrite Hrun.
    eexists _, _. split; [reflexivity|]. split.
    + cbn [Js.clockReads Js.console_log Js.emit Js.extend Js.bind Js.ret snd].
      rewrite Hclock. cbn [w0 Js.clockReads]. lia.
    + cbn [Pattern.expand]. rewrite app_nil_r. fold date.
      rewrite upto_length in Hadds.
      replace (List.repeat date (Z.to_nat (Pattern.commitsPerCell config)))
        with (List.repeat date (Z.to_nat (Pattern.commitsPerCell config)) ++ [])%list
        by apply app_nil_r.
      apply (adds_trans w w1).
      * destruct Hadds as (es & Ht & Hd). exists es. split; [exact Ht|exact Hd].
      * cbn [Js.console_log Js.emit Js.bind Js.ret snd]. now apply adds_silent.
  - exists currentCommit, w. split; [reflexivity|]. split; [lia|apply adds_refl].
Qed.

Lemma expand_app (startWeek : Z) (n reading : nat) (a b : list (nat * nat)) :
  Pattern.expand config (Js.clock env) startWeek n reading (a ++ b)
  = (Pattern.expand config (Js.clock env) startWeek n reading a
     ++ Pattern.expand config (Js.clock env) startWeek n
          (reading + List.length a) b)%list.
Proof.
  revert reading. induction a as [|[week day] a IH]; intros reading; cbn [Pattern.expand app].
  - now rewrite Nat.add_0_r.
  - rewrite IH, <- app_assoc. cbn [List.length].
    now replace (S reading + List.length a)%nat with (reading + S (List.length a))%nat by lia.
Qed.

Lemma day_loop (pattern : Pattern.Grid) (startWeek : Z) (week : nat) (days : list nat) :
  forall (currentCommit : Z) (w : Js.State),
  exists currentCommit' w',
    Js.forEach days (Pattern.drawCell config pattern startWeek week) currentCommit env w
    = (Js.Returned currentCommit', w')
    /\ Js.clockReads w'
       = (Js.clockReads w + List.length (Pattern.column pattern week days))%nat
    /\ Obs.adds w w'
         (Pattern.expand config (Js.clock env) startWeek
            (Z.to_nat (Pattern.commitsPerCell config)) (Js.clockReads w)
            (Pattern.column pattern week days)).
Proof.
  induction days as [|day days IH]; intros currentCommit w; cbn [Js.forEach].
  - exists currentCommit, w. split; [reflexivity|]. cbn. split; [lia|apply adds_refl].
  - destruct (drawCell_ok pattern startWeek week day currentCommit w)
      as (c1 & w1 & Hrun & Hclock & Hadds).
    destruct (IH c1 w1) as (c2 & w2 & Hrest & Hclock' & Hadds').
    exists c2, w2. unfold Js.bind at 1. rewrite Hrun, Hrest.
    split; [reflexivity|].
    unfold Pattern.column in *. cbn [filter].
    destruct (Pattern.cell pattern day week); cbn [map List.length app] in *.
    + split; [lia|].
      change ((week, day) :: map (pair week)
                (filter (fun day0 => Pattern.cell pattern day0 week) days))
        with ([(week, day)] ++ map (pair week)
                (filter (fun day0 => Pattern.cell pattern day0 week) days))%list.
      rewrite expand_app. apply (adds_trans w w1 w2); [exact Hadds|].
      cbn [List.length]. now rewrite Hclock in Hadds'.
    + split; [lia|].
      rewrite Nat.add_0_r in Hclock. rewrite Hclock in Hadds'.
      change (Pattern.expand config (Js.clock env) startWeek
                (Z.to_nat (Pattern.commitsPerCell config)) (Js.clockReads w) [])
        with (@nil string) in Hadds.
      apply (adds_trans w w1 w2 [] _ Hadds Hadds').
Qed.

Lemma week_loop (pattern : Pattern.Grid) (startWeek : Z) (weeks : list nat) :
  forall (currentCommit : Z) (w : Js.State),
  exists currentCommit' w',
    Js.forEach weeks
      (fun week => Js.forEach (seq 0 7) (Pattern.drawCell config pattern startWeek week))
      currentCommit env w
    = (Js.Returned currentCommit', w')
    /\ Js.clockReads w'
       = (Js.clockReads w
          + List.length (flat_map (fun week => Pattern.column pattern week (seq 0 7)) weeks))%nat
    /\ Obs.adds w w'
         (Pattern.expand config (Js.clock env) startWeek
            (Z.to_nat (Pattern.commitsPerCell config)) (Js.clockReads w)
            (flat_map (fun week => Pattern.column pattern week (seq 0 7)) weeks)).
Proof.
  induction weeks as [|week weeks IH]; intros currentCommit w; cbn [Js.forEach flat_map].
  - exists currentCommit, w. split; [reflexivity|]. cbn. split; [lia|apply adds_refl].
  - destruct (day_loop pattern startWeek week (seq 0 7) currentCommit w)
      as (c1 & w1 & Hrun & Hclock & Hadds).
    destruct (IH c1 w1) as (c2 & w2 & Hrest & Hclock' & Hadds').
    exists c2, w2. unfold Js.bind at 1. rewrite Hrun, Hrest.
    split; [reflexivity|]. rewrite length_app. split; [lia|].
    rewrite expand_app. apply (adds_trans w w1 w2); [exact Hadds|].
    now rewrite Hclock in Hadds'.
Qed.

(** drawPattern on a pattern of the table: it returns, and the commits it
    creates bear the dates of the expansion. *)
Lemma drawPattern_expands (table : list (string * Pattern.Grid))
      (patternName : string) (grid : Pattern.Grid) (startWeek : Z) (w : Js.State) :
  Pattern.own table patternName = Some grid ->
  grid <> [] ->
  exists w',
    Pattern.drawPattern config table patternName startWeek env w = (Js.Returned tt, w')
    /\ Obs.adds w w'
         (Pattern.expandPattern config (Js.clock env) grid startWeek
            (Z.to_nat (Pattern.commitsPerCell config)) (Js.clockReads w)).
Proof.
  intros Hown Hne. unfold Pattern.drawPattern, Pattern.get. rewrite Hown.
  destruct grid as [|row0 rows]; [contradiction|].
  cbn [Js.console_log Js.emit Js.bind].
  set (w0 := Js.extend (Js.extend w _) _).
  destruct (week_loop (row0 :: rows) startWeek (seq 0 (List.length row0)) 0 w0)
    as (c & w1 & Hrun & Hclock & Hadds).
  unfold Js.bind at 1. rewrite Hrun. cbn [Js.emit].
  eexists. split; [reflexivity|].
  unfold Pattern.expandPattern, Pattern.onCells, Pattern.width. cbn [hd].
  replace (Pattern.expand config (Js.clock env) startWeek
             (Z.to_nat (Pattern.commitsPerCell config)) (Js.clockReads w) _)
    with ([] ++ Pattern.expand config (Js.clock env) startWeek
             (Z.to_nat (Pattern.commitsPerCell config)) (Js.clockReads w0)
             (flat_map (fun week => Pattern.column (row0 :: rows) week (seq 0 7))
                       (seq 0 (List.length row0))) ++ [])%list
    by (rewrite app_nil_r; reflexivity).
  apply (adds_trans w w0).
  - unfold w0. rewrite extend_extend. now apply adds_silent.
  - apply (adds_trans w0 w1); [exact Hadds|]. now apply adds_silent.
Qed.

End DrawPattern.

(** ** The cells of a grid *)

Section GridFacts.

Lemma strongly_sorted_app {A} (R : A -> A -> Prop) (l1 l2 : list A) :
  StronglySorted R l1 -> StronglySorted R l2 ->
  (forall x y, In x l1 -> In y l2 -> R x y) ->
  StronglySorted R (l1 ++ l2).
Proof.
  induction l1 as [|a l1 IH]; intros H1 H2 H12; cbn; [assumption|].
  inversion H1 as [|? ? Hs Hall]; subst. constructor.
  - apply IH; auto. intros; apply H12; cbn; auto.
  - apply Forall_app. split; [assumption|].
    apply Forall_forall. intros y Hy. apply H12; cbn; auto.
Qed.

Lemma strongly_sorted_seq (a n : nat) : StronglySorted lt (seq a n).
Proof.
  revert a. induction n as [|n IH]; intros a; cbn; constructor; [apply IH|].
  apply Forall_forall. intros y Hy. apply in_seq in Hy. lia.
Qed.

Lemma strongly_sorted_filter {A} (R : A -> A -> Prop) (p : A -> bool) (l : list A) :
  StronglySorted R l -> StronglySorted R (filter p l).
Proof.
  induction 1 as [|a l Hs IH Hall]; cbn; [constructor|].
  destruct (p a); [|assumption]. constructor; [assumption|].
  apply Forall_forall. intros y Hy. apply filter_In in Hy.
  rewrite Forall_forall in Hall. now apply Hall.
Qed.

Lemma strongly_sorted_column (week : nat) (days : list nat) :
  StronglySorted lt days -> StronglySorted Pattern.colMajor (map (pair week) days).
Proof.
  induction 1 as [|d days Hs IH Hall]; cbn; constructor; [assumption|].
  apply Forall_forall. intros [w' d'] Hin. apply in_map_iff in Hin.
  destruct Hin as (x & Heq & Hx). inversion Heq; subst.
  rewrite Forall_forall in Hall. right. cbn. split; [reflexivity|now apply Hall].
Qed.

Lemma onCells_sorted_from (pattern : Pattern.Grid) (len s : nat) :
  StronglySorted Pattern.colMajor
    (flat_map (fun week =>
                 map (pair week)
                     (filter (fun day => Pattern.cell pattern day week) (seq 0 7)))
              (seq s len)).
Proof.
  revert s. induction len as [|len IH]; intros s; [constructor|].
  change (seq s (S len)) with (s :: seq (S s) len). cbn [flat_map].
  apply strongly_sorted_app.
  - apply strongly_sorted_column, strongly_sorted_filter, strongly_sorted_seq.
  - apply IH.
  - intros [w1 d1] [w2 d2] H1 H2.
    apply in_map_iff in H1. destruct H1 as (x & Heq & _). inversion Heq; subst.
    apply in_flat_map in H2. destruct H2 as (week & Hweek & Hin).
    apply in_map_iff in Hin. destruct Hin as (y & Heq' & _). inversion Heq'; subst.
    apply in_seq in Hweek. left. cbn. lia.
Qed.

(** The cells that are set are listed in column-major order, each once. *)
Lemma onCells_sorted (pattern : Pattern.Grid) :
  StronglySorted Pattern.colMajor (Pattern.onCells pattern).
Proof. apply onCells_sorted_from. Qed.

Lemma cell_inside (pattern : Pattern.Grid) (day week : nat) :
  Pattern.wellFormed pattern ->
  Pattern.cell pattern day week = true ->
  (day < 7)%nat /\ (week < Pattern.width pattern)%nat.
Proof.
  intros [Hrows Hwidth] Hcell. unfold Pattern.cell in Hcell.
  destruct (nth_error pattern day) as [row|] eqn:Hrow; [|discriminate].
  destruct (nth_error row week) as [v|] eqn:Hv; [|discriminate].
  split.
  - rewrite <- Hrows. apply nth_error_Some. congruence.
  - rewrite Forall_forall in Hwidth.
    rewrite <- (Hwidth row (nth_error_In _ _ Hrow)).
    apply nth_error_Some. congruence.
Qed.

(** A cell is listed exactly when it is set. *)
Lemma onCells_In (pattern : Pattern.Grid) (week day : nat) :
  Pattern.wellFormed pattern ->
  (In (week, day) (Pattern.onCells pattern) <-> Pattern.cell pattern day week = true).
Proof.
  intros Hwf. unfold Pattern.onCells. rewrite in_flat_map. split.
  - intros (week' & _ & Hin). apply in_map_iff in Hin.
    destruct Hin as (d & Heq & Hd). inversion Heq; subst.
    now apply filter_In in Hd.
  - intros Hcell. destruct (cell_inside pattern day week Hwf Hcell) as [Hd Hw].
    exists week. split; [apply in_seq; lia|].
    apply in_map, filter_In. split; [apply in_seq; lia|assumption].
Qed.

Lemma length_filter_sum {A} (p : A -> bool) (l : list A) :
  List.length (filter p l) = list_sum (map (fun x => Nat.b2n (p x)) l).
Proof.
  induction l as [|a l IH]; cbn; [reflexivity|].
  destruct (p a); cbn; now rewrite IH.
Qed.

Lemma length_flat_map_sum {A B} (f : A -> list B) (l : list A) :
  List.length (flat_map f l) = list_sum (map (fun x => List.length (f x)) l).
Proof.
  induction l as [|a l IH]; cbn; [reflexivity|]. now rewrite length_app, IH.
Qed.

Lemma list_sum_zero {A} (l : list A) : list_sum (map (fun _ => 0%nat) l) = 0%nat.
Proof. induction l; cbn; auto. Qed.

Lemma list_sum_add {A} (g h : A -> nat) (l : list A) :
  list_sum (map (fun x => (g x + h x)%nat) l)
  = (list_sum (map g l) + list_sum (map h l))%nat.
Proof.
  unfold list_sum. induction l as [|a l IH]; cbn; [reflexivity|]. rewrite IH. lia.
Qed.

Lemma list_sum_swap {A B} (f : A -> B -> nat) (l1 : list A) (l2 : list B) :
  list_sum (map (fun a => list_sum (map (f a) l2)) l1)
  = list_sum (map (fun b => list_sum (map (fun a => f a b) l1)) l2).
Proof.
  induction l1 as [|a l1 IH].
  - cbn. now rewrite list_sum_zero.
  - change (list_sum (map (fun a0 => list_sum (map (f a0) l2)) (a :: l1)))
      with (list_sum (map (f a) l2)
            + list_sum (map (fun a0 => list_sum (map (f a0) l2)) l1))%nat.
    rewrite IH, <- list_sum_add. reflexivity.
Qed.

Lemma map_seq_shift {A} (f : nat -> A) (s n : nat) :
  map f (seq (S s) n) = map (fun i => f (S i)) (seq s n).
Proof. now rewrite <- seq_shift, map_map. Qed.

Lemma row_count (row : list Z) :
  List.length (filter (fun c => c =? 1) row)
  = list_sum (map (fun week =>
                     Nat.b2n match nth_error row week with
                         | Some v => v =? 1
                         | None => false
                         end)
                  (seq 0 (List.length row))).
Proof.
  induction row as [|v row IH]; [reflexivity|].
  cbn [List.length seq map list_sum fold_right filter nth_error].
  rewrite map_seq_shift. cbn [nth_error].
  destruct (v =? 1); cbn [List.length Nat.b2n]; rewrite IH; reflexivity.
Qed.

Lemma totalCells_rows (pattern : Pattern.Grid) :
  Pattern.totalCells pattern
  = list_sum (map (fun row => List.length (filter (fun c => c =? 1) row)) pattern).
Proof.
  unfold Pattern.totalCells. induction pattern as [|row pattern IH]; [reflexivity|].
  cbn [List.concat map list_sum fold_right]. rewrite filter_app, length_app.
  now rewrite IH.
Qed.

Lemma rows_count (W : nat) (pattern : Pattern.Grid) :
  Forall (fun row => List.length row = W) pattern ->
  list_sum (map (fun row => List.length (filter (fun c => c =? 1) row)) pattern)
  = list_sum (map (fun day =>
                     list_sum (map (fun week => Nat.b2n (Pattern.cell pattern day week))
                                   (seq 0 W)))
                  (seq 0 (List.length pattern))).
Proof.
  induction 1 as [|row pattern Hrow Hrest IH]; [reflexivity|].
  cbn [List.length seq map list_sum fold_right].
  rewrite map_seq_shift. f_equal.
  - rewrite row_count, Hrow. reflexivity.
  - exact IH.
Qed.

(** The cells listed are as many as the cells the script counts. *)
Lemma onCells_length (pattern : Pattern.Grid) :
  Pattern.wellFormed pattern ->
  List.length (Pattern.onCells pattern) = Pattern.totalCells pattern.
Proof.
  intros [Hrows Hwidth]. unfold Pattern.onCells.
  rewrite length_flat_map_sum, totalCells_rows, (rows_count _ _ Hwidth), Hrows.
  rewrite <- list_sum_swap. f_equal. apply map_ext. intros week.
  unfold Pattern.column. now rewrite length_map, length_filter_sum.
Qed.

End GridFacts.

Section Expansion.
Variable config : Pattern.Config.

Lemma expand_length (clock : nat -> Moment.t) (startWeek : Z) (n : nat)
      (cells : list (nat * nat)) :
  forall reading,
    List.length (Pattern.expand config clock startWeek n reading cells)
    = (List.length cells * n)%nat.
Proof.
  induction cells as [|[week day] cells IH]; intros reading; cbn [Pattern.expand];
    [reflexivity|].
  rewrite length_app, repeat_length, IH. cbn [List.length]. lia.
Qed.

(** Run number [i] of the expansion, of size [n], is the date of cell
    number [i], taken at reading number [i], [n] times over. *)
Lemma expand_run (clock : nat -> Moment.t) (startWeek : Z) (n : nat)
      (cells : list (nat * nat)) :
  forall reading i week day,
    nth_error cells i = Some (week, day) ->
    firstn n (skipn (i * n) (Pattern.expand config clock startWeek n reading cells))
    = List.repeat
        (Pattern.generateDateAt config (clock (reading + i)%nat)
                                (startWeek + Z.of_nat week) (Z.of_nat day))
        n.
Proof.
  induction cells as [|[week0 day0] cells IH]; intros reading i week day Hnth.
  - destruct i; discriminate.
  - cbn [Pattern.expand]. destruct i as [|i]; cbn [nth_error] in Hnth.
    + inversion Hnth; subst. cbn [Nat.mul skipn]. rewrite Nat.add_0_r.
      rewrite firstn_app, repeat_length, Nat.sub_diag, firstn_O, app_nil_r.
      apply firstn_all2. rewrite repeat_length. lia.
    + replace (S i * n)%nat with (n + i * n)%nat by lia.
      rewrite skipn_app, repeat_length.
      rewrite skipn_all2 by (rewrite repeat_length; lia).
      replace (n + i * n - n)%nat with (i * n)%nat by lia. cbn [app].
      rewrite (IH (S reading) i week day Hnth).
      now replace (S reading + i)%nat with (reading + S i)%nat by lia.
Qed.

(** C4. For a grid of the pattern table with seven rows of one width, an
    intensity commitsPerCell of at least one and calls that all succeed,
    drawPattern returns and creates exactly k times n commits, k being
    the number of cells of the grid that are set (the number the script
    computes as totalCells) and n the intensity.  The dates of the
    commits are the expansion of the grid: cut into runs of size n, run
    number i is n copies of the date generateDate gives for cell number i
    in column-major order (weeks ascending, days ascending within a week),
    at the week offset startWeek + week and the day of the cell, read off
    the clock when the cell is reached. *)
Theorem C4_drawPattern_expansion
      (table : list (string * Pattern.Grid)) (patternName : string)
      (grid : Pattern.Grid) (startWeek : Z) (env : Js.Env) (w : Js.State) :
  Pattern.own table patternName = Some grid ->
  Pattern.wellFormed grid ->
  1 <= Pattern.commitsPerCell config ->
  Obs.allOk env ->
  let n := Z.to_nat (Pattern.commitsPerCell config) in
  let k := Pattern.totalCells grid in
  let cells := Pattern.onCells grid in
  let run := Pattern.drawPattern config table patternName startWeek env w in
  let out := Obs.commitDates (Obs.since w (snd run)) in
  fst run = Js.Returned tt
  /\ out = Pattern.expandPattern config (Js.clock env) grid startWeek n (Js.clockReads w)
  /\ List.length cells = k
  /\ List.length out = (k * n)%nat
  /\ StronglySorted Pattern.colMajor cells
  /\ (forall week day, In (week, day) cells <-> Pattern.cell grid day week = true)
  /\ (forall i week day,
        nth_error cells i = Some (week, day) ->
        firstn n (skipn (i * n) out)
        = List.repeat
            (Pattern.generateDateAt config (Js.clock env (Js.clockReads w + i)%nat)
                                    (startWeek + Z.of_nat week) (Z.of_nat day))
            n).
Proof.
  intros Hown Hwf Hn Hok n k cells run out.
  assert (Hne : grid <> []).
  { destruct Hwf as [Hrows _]. intros ->. discriminate. }
  destruct (drawPattern_expands config env Hok table patternName grid startWeek w
              Hown Hne) as (w' & Hrun & Hadds).
  assert (Hout : out = Pattern.expandPattern config (Js.clock env) grid startWeek n
                         (Js.clockReads w)).
  { unfold out, run. rewrite Hrun. cbn [snd]. now apply adds_since. }
  split; [unfold run; now rewrite Hrun|].
  split; [exact Hout|].
  split; [now apply onCells_length|].
  split.
  { rewrite Hout. unfold Pattern.expandPattern. rewrite expand_length.
    fold cells. unfold k. now rewrite <- (onCells_length grid Hwf). }
  split; [apply onCells_sorted|].
  split; [intros week day; now apply onCells_In|].
  intros i week day Hnth. rewrite Hout. unfold Pattern.expandPattern.
  now apply expand_run.
Qed.

End Expansion.

(** The example of the specification: one column, only the first cell set,
    intensity 3, start week 5. *)
Example expandPattern_single_cell :
  Pattern.expandPattern (Pattern.mkConfig "./data.json" 1 3) Sample.clockFrom
    [[1]; [0]; [0]; [0]; [0]; [0]; [0]] 5 3 0
  = List.repeat
      (Pattern.generateDateAt (Pattern.mkConfig "./data.json" 1 3) (Sample.clockFrom 0) 5 0)
      3.
Proof. reflexivity. Qed.

(** The grids of the pattern table are well formed. *)
Example patterns_wellFormed :
  Forall (fun entry => Pattern.wellFormed (snd entry)) Pattern.PATTERNS.
Proof. repeat constructor. Qed.

(** ** commit-service.js: backfillContributions *)

Section BackfillDays.
Import Hoare.
Variable CONFIG : Config.t.
Variable env : Js.Env.
Variable skip : bool.
Variables minCommits maxCommits : Z.
Variable end_ : Moment.t.

Lemma dated_ensureInitialized :
  footprint env (fun _ => True) (Commit.dated skip) Git.ensureInitialized.
Proof.
  intros w _. unfold Git.ensureInitialized, Git.initialize, Js.call, Js.answered.
  unfold_js. unfold Js.extend.
  destruct (Js.initialized w); cbn.
  - repeat split; auto. exists []. now rewrite app_nil_r.
  - destruct (Js.answer env (Js.calls w)); cbn; repeat split; auto;
      rewrite <- ?app_assoc; (eexists; split; [reflexivity|]);
      repeat constructor.
Qed.

(** createCommit marks its file and its commit with the date it is given. *)
Lemma dated_createCommit (date : Moment.t) (message : option string) :
  (skip = true -> Moment.day date <> 0 /\ Moment.day date <> 6) ->
  footprint env (fun _ => True) (Commit.dated skip) (Commit.createCommit CONFIG date message).
Proof.
  intros Hday. pose proof anything_flagOnly as Hflag.
  unfold Commit.createCommit, Commit.generateCommitMessage, Commit.writeDataFile.
  apply footprint_bind.
  { destruct message as [m|]; [destruct (String.eqb m "")|]; repeat footprint_step. }
  intros commitMessage.
  apply footprint_try_catch; [|intros e; repeat footprint_step].
  apply footprint_bind.
  { apply footprint_bind; [|intros ?; footprint_step].
    apply footprint_call; [assumption|]. intros a. cbn. exists date. auto. }
  intros _. apply footprint_bind.
  { unfold Git.add.
    apply footprint_bind; [apply dated_ensureInitialized|intros _].
    repeat footprint_step. }
  intros _. apply footprint_bind; [|intros result; repeat footprint_step].
  unfold Git.commit.
  apply footprint_bind; [apply dated_ensureInitialized|intros _].
  apply footprint_try_catch; [|intros e; repeat footprint_step].
  apply footprint_if; [repeat footprint_step|].
  apply footprint_bind; [|intros ?; repeat footprint_step].
  apply footprint_call; [assumption|]. intros a. cbn. exists date. auto.
Qed.

Lemma day_hour_minute (h m : Z) (x : Moment.t) :
  Moment.day (Moment.minute m (Moment.hour h x)) = Moment.day x.
Proof. reflexivity. Qed.

(** One round of the loop over [i]: it returns, and it leaves the two day
    counters alone. *)
Lemma backfillCommit_days (current : Moment.t) (stats : Commit.Stats) :
  (skip = true -> Moment.day current <> 0 /\ Moment.day current <> 6) ->
  triple env (fun _ => True) (Commit.dated skip) (Commit.backfillCommit CONFIG current stats)
         (fun r => match r with
                   | Js.Returned stats' =>
                       Commit.totalDays stats' = Commit.totalDays stats
                       /\ Commit.skippedDays stats' = Commit.skippedDays stats
                   | Js.Thrown _ => False
                   end).
Proof.
  intros Hday. pose proof anything_flagOnly as Hflag. unfold Commit.backfillCommit.
  eapply triple_try_catch
    with (R1 := fun r => match r with
                         | Js.Returned stats' =>
                             Commit.totalDays stats' = Commit.totalDays stats
                             /\ Commit.skippedDays stats' = Commit.skippedDays stats
                         | Js.Thrown _ => True
                         end); [|intros ? Hsame; exact Hsame|].
  - apply triple_after_mathRandom; [assumption|intros r1].
    apply triple_after_mathRandom; [assumption|intros r2].
    eapply triple_bind with (R1 := fun _ => True);
      [apply dated_createCommit; now rewrite day_hour_minute| |auto].
    intros _ _.
    apply triple_after_emit; [assumption|exact Logic.I|].
    apply triple_ret. cbn. auto.
  - intros e _.
    apply triple_after_emit; [assumption|exact Logic.I|].
    apply triple_ret. cbn. auto.
Qed.

(** The loop over [i] as a whole. *)
Lemma backfillCommits_days (current : Moment.t) (rounds : list Z) (stats : Commit.Stats) :
  (skip = true -> Moment.day current <> 0 /\ Moment.day current <> 6) ->
  triple env (fun _ => True) (Commit.dated skip)
         (Js.forEach rounds (fun _ => Commit.backfillCommit CONFIG current) stats)
         (fun r => match r with
                   | Js.Returned stats' =>
                       Commit.totalDays stats' = Commit.totalDays stats
                       /\ Commit.skippedDays stats' = Commit.skippedDays stats
                   | Js.Thrown _ => False
                   end).
Proof.
  intros Hday.
  apply (triple_forEach env (fun _ => True) (Commit.dated skip)
           (fun _ => Commit.backfillCommit CONFIG current)
           (fun _ acc => Commit.totalDays acc = Commit.totalDays stats
                         /\ Commit.skippedDays acc = Commit.skippedDays stats)
           (fun _ => False)); [|auto].
  intros i rest acc [Hd Hs].
  eapply triple_weaken; [apply (backfillCommit_days current acc Hday)|].
  intros [stats'|e]; [|auto]. intros [Hd' Hs']. split; congruence.
Qed.

Lemma isSameOrBefore_days (current : Moment.t) :
  Moment.ms current <= Moment.ms end_ ->
  Moment.isSameOrBefore current end_ = (Moment.days current <=? Moment.days end_).
Proof.
  intros Hms. unfold Moment.isSameOrBefore.
  destruct (Z.ltb_spec (Moment.days current) (Moment.days end_));
    destruct (Z.eqb_spec (Moment.days current) (Moment.days end_));
    destruct (Z.leb_spec (Moment.ms current) (Moment.ms end_));
    destruct (Z.leb_spec (Moment.days current) (Moment.days end_));
    cbn; try reflexivity; lia.
Qed.

Lemma daysFrom_succ (first : Z) (count : nat) :
  Commit.daysFrom first (S count) = first :: Commit.daysFrom (first + 1) count.
Proof.
  unfold Commit.daysFrom. cbn [seq map]. rewrite Z.add_0_r. f_equal.
  rewrite <- seq_shift, map_map. apply map_ext. intros i. lia.
Qed.

Lemma ahead_done (current : Moment.t) :
  Moment.days end_ < Moment.days current -> Commit.range current end_ = [].
Proof.
  intros H. unfold Commit.range.
  now replace (Z.to_nat (Moment.days end_ - Moment.days current + 1)) with 0%nat by lia.
Qed.

Lemma ahead_next (current : Moment.t) :
  Moment.days current <= Moment.days end_ ->
  Commit.range current end_
  = Moment.days current :: Commit.range (Moment.add_d 1 current) end_.
Proof.
  intros H. unfold Commit.range. cbn [Moment.add_d Moment.days].
  replace (Z.to_nat (Moment.days end_ - Moment.days current + 1))
    with (S (Z.to_nat (Moment.days end_ - (Moment.days current + 1) + 1))) by lia.
  apply daysFrom_succ.
Qed.

(** The loop over the days: it returns, it skips the weekend days that are
    to be skipped and processes the others, and every file it writes and
    every commit it creates bears the date of a day it processes. *)
Lemma backfillLoop_days (fuel : nat) :
  forall (current : Moment.t) (stats : Commit.Stats),
    Moment.ms current <= Moment.ms end_ ->
    (List.length (Commit.range current end_) <= fuel)%nat ->
    triple env (fun _ => True) (Commit.dated skip)
           (Commit.backfillLoop CONFIG fuel skip minCommits maxCommits end_ current stats)
           (fun r => match r with
                     | Js.Returned stats' =>
                         Commit.skippedDays stats'
                         = Commit.skippedDays stats
                           + Commit.skippedIn skip (Commit.range current end_)
                         /\ Commit.totalDays stats'
                            = Commit.totalDays stats
                              + Commit.processedIn skip (Commit.range current end_)
                     | Js.Thrown _ => False
                     end).
Proof.
  pose proof anything_flagOnly as Hflag.
  induction fuel as [|fuel IH]; intros current stats Hms Hfuel; cbn [Commit.backfillLoop].
  - apply triple_ret. destruct (Commit.range current end_); [|cbn in Hfuel; lia].
    unfold Commit.processedIn, Commit.skippedIn. destruct skip; cbn; lia.
  - rewrite (isSameOrBefore_days current Hms).
    destruct (Z.leb_spec (Moment.days current) (Moment.days end_)) as [Hle|Hgt].
    2:{ apply triple_ret. rewrite (ahead_done current Hgt).
        unfold Commit.processedIn, Commit.skippedIn. destruct skip; cbn; lia. }
    rewrite (ahead_next current Hle) in *. cbn [List.length] in Hfuel.
    assert (Hms' : Moment.ms (Moment.add_d 1 current) <= Moment.ms end_) by exact Hms.
    assert (Hfuel' : (List.length (Commit.range (Moment.add_d 1 current) end_)
                      <= fuel)%nat) by lia.
    cbv zeta.
    change ((Moment.day current =? 0) || (Moment.day current =? 6))
      with (Commit.isWeekend (Moment.days current)).
    destruct (skip && Commit.isWeekend (Moment.days current)) eqn:Hskip.
    + apply andb_true_iff in Hskip. destruct Hskip as [-> Hweekend].
      apply triple_after_emit; [assumption|exact Logic.I|].
      eapply triple_weaken; [apply (IH _ _ Hms' Hfuel')|].
      intros [stats'|e]; [|auto]. cbn [Commit.skippedDays Commit.totalDays].
      unfold Commit.processedIn, Commit.skippedIn. cbn [filter List.length].
      rewrite Hweekend. cbn [List.length]. lia.
    + assert (Hday : skip = true ->
                       Moment.day current <> 0 /\ Moment.day current <> 6).
      { intros ->. cbn in Hskip. unfold Commit.isWeekend in Hskip.
        apply orb_false_iff in Hskip. destruct Hskip as [H0 H6].
        apply Z.eqb_neq in H0, H6. unfold Moment.day. auto. }
      apply triple_after_mathRandom; [assumption|intros r].
      apply triple_after_emit; [assumption|exact Logic.I|].
      eapply triple_bind; [apply (backfillCommits_days current _ stats Hday)| |auto].
      intros stats1 [Hd1 Hs1].
      assert (Hcount : Commit.skippedIn skip
                         (Moment.days current :: Commit.range (Moment.add_d 1 current) end_)
                       = Commit.skippedIn skip (Commit.range (Moment.add_d 1 current) end_)).
      { unfold Commit.skippedIn. destruct skip; [|reflexivity].
        cbn [filter]. cbn in Hskip. now rewrite Hskip. }
      eapply triple_bind with (R1 := fun r => r = Js.Returned tt).
      * destruct (_ =? 0); [apply triple_emit; auto; exact Logic.I|now apply triple_ret].
      * intros [] _.
        eapply triple_weaken; [apply (IH _ _ Hms' Hfuel')|].
        intros [stats'|e]; [|auto]. cbn [Commit.skippedDays Commit.totalDays].
        unfold Commit.processedIn. rewrite Hcount. cbn [List.length]. lia.
      * intros e He. discriminate.
Qed.

End BackfillDays.

Section BackfillCommits.
Import Hoare.
Variable CONFIG : Config.t.
Variable env : Js.Env.
Hypothesis env_ok : Obs.allOk env.
Hypothesis env_unit : Obs.unitRandom env.
Variable skip : bool.
Variable m : Z.
Hypothesis m_nonneg : 0 <= m.
Variable end_ : Moment.t.

(** With the random number in the unit interval, a count drawn between
    [m] and [m] is [m]. *)
Lemma floorMul_unit (r : Q) :
  (0 <= r)%Q -> (r < 1)%Q -> Js.floorMul r 1 = 0.
Proof.
  intros H0 H1. unfold Js.floorMul.
  assert (Heq : (r * inject_Z 1 == r)%Q) by (unfold inject_Z; ring).
  assert (Hlo : 0 <= Qfloor (r * inject_Z 1)).
  { change 0 with (Qfloor 0). apply Qfloor_resp_le. now rewrite Heq. }
  assert (Hhi : Qfloor (r * inject_Z 1) < 1).
  { rewrite Zlt_Qlt. eapply Qle_lt_trans; [apply Qfloor_le|]. now rewrite Heq. }
  lia.
Qed.

Lemma returns_call (c : Js.Call) : triple env (fun _ => True) (fun _ => True) (Js.call c) returns.
Proof.
  apply triple_call;
    [exact anything_flagOnly|intros a; exact Logic.I|intros p; exact Logic.I
    |left; exact env_ok].
Qed.

Lemma returns_emit (e : Js.Event) :
  triple env (fun _ => True) (fun _ => True) (Js.emit e) returns.
Proof.
  apply triple_emit; [exact anything_flagOnly|exact Logic.I|exact Logic.I].
Qed.

Lemma returns_ensureInitialized :
  triple env (fun _ => True) (fun _ => True) Git.ensureInitialized returns.
Proof.
  intros w _. unfold Git.ensureInitialized, Git.initialize, Js.call, Js.answered.
  unfold_js. unfold Js.extend.
  destruct (Js.initialized w); cbn.
  - repeat split; auto. exists []. now rewrite app_nil_r.
  - destruct (env_ok (Js.calls w)) as [p Hp]. rewrite Hp. cbn.
    repeat split; auto. rewrite <- ?app_assoc. eexists; split; [reflexivity|].
    repeat constructor.
Qed.

Lemma returns_createCommit (date : Moment.t) (message : option string) :
  triple env (fun _ => True) (fun _ => True) (Commit.createCommit CONFIG date message) returns.
Proof.
  pose proof anything_flagOnly as Hflag.
  unfold Commit.createCommit, Commit.generateCommitMessage, Commit.writeDataFile.
  apply triple_then.
  { destruct message as [msg|]; [destruct (String.eqb msg "")|].
    - apply triple_then; [apply triple_randomHex; cbn; auto|intros h].
      now apply triple_ret.
    - now apply triple_ret.
    - apply triple_then; [apply triple_randomHex; cbn; auto|intros h].
      now apply triple_ret. }
  intros commitMessage. apply triple_try_returns.
  apply triple_then.
  { apply triple_then; [apply returns_call|intros ?]. now apply triple_ret. }
  intros _. apply triple_then.
  { unfold Git.add. apply triple_then; [apply returns_ensureInitialized|intros _].
    apply triple_try_returns.
    apply triple_then; [apply returns_call|intros ?]. apply returns_emit. }
  intros _. apply triple_then.
  { unfold Git.commit. apply triple_then; [apply returns_ensureInitialized|intros _].
    apply triple_try_returns. destruct (Config.app_dryRun CONFIG).
    - apply triple_then; [apply returns_emit|intros ?]. now apply triple_ret.
    - apply triple_then; [apply returns_call|intros ?].
      apply triple_then; [apply returns_emit|intros ?]. now apply triple_ret. }
  intros result. apply triple_then; [apply returns_emit|intros ?]. now apply triple_ret.
Qed.

(** With every call succeeding, a round of the loop over [i] counts one
    commit and no error. *)
Lemma backfillCommit_counts (current : Moment.t) (stats : Commit.Stats) :
  triple env (fun _ => True) (fun _ => True) (Commit.backfillCommit CONFIG current stats)
         (fun r => r = Js.Returned
                       (Commit.mkStats (Commit.totalDays stats)
                                       (Commit.totalCommits stats + 1)
                                       (Commit.skippedDays stats)
                                       (Commit.errors stats))).
Proof.
  pose proof anything_flagOnly as Hflag. unfold Commit.backfillCommit.
  eapply triple_try_catch
    with (R1 := fun r => r = Js.Returned
                               (Commit.mkStats (Commit.totalDays stats)
                                               (Commit.totalCommits stats + 1)
                                               (Commit.skippedDays stats)
                                               (Commit.errors stats)));
    [|auto|intros e He; discriminate].
  apply triple_after_mathRandom; [assumption|intros i1].
  apply triple_after_mathRandom; [assumption|intros i2].
  apply triple_then; [apply returns_createCommit|intros _].
  apply triple_after_emit; [assumption|exact Logic.I|].
  now apply triple_ret.
Qed.

Lemma backfillCommits_counts (current : Moment.t) (rounds : list Z) :
  forall stats,
    triple env (fun _ => True) (fun _ => True)
           (Js.forEach rounds (fun _ => Commit.backfillCommit CONFIG current) stats)
           (fun r => r = Js.Returned
                         (Commit.mkStats (Commit.totalDays stats)
                                         (Commit.totalCommits stats
                                          + Z.of_nat (List.length rounds))
                                         (Commit.skippedDays stats)
                                         (Commit.errors stats))).
Proof.
  induction rounds as [|i rounds IH]; intros stats; cbn [Js.forEach].
  - apply triple_ret. destruct stats; cbn. now rewrite Z.add_0_r.
  - eapply triple_bind; [apply backfillCommit_counts| |intros e He; discriminate].
    intros stats1 Hs1. inversion Hs1; subst.
    eapply triple_weaken; [apply IH|].
    intros r ->. cbn [Commit.totalDays Commit.totalCommits Commit.skippedDays
                        Commit.errors List.length].
    do 2 f_equal. lia.
Qed.

(** With every call succeeding and the counts drawn between [m] and [m],
    the loop over the days counts [m] commits for every day it processes
    and no error. *)
Lemma backfillLoop_counts (fuel : nat) :
  forall (current : Moment.t) (stats : Commit.Stats),
    triple env (fun _ => True) (fun _ => True)
           (Commit.backfillLoop CONFIG fuel skip m m end_ current stats)
           (fun r => match r with
                     | Js.Returned stats' =>
                         Commit.totalCommits stats' - Commit.totalCommits stats
                         = m * (Commit.totalDays stats' - Commit.totalDays stats)
                         /\ Commit.errors stats' = Commit.errors stats
                     | Js.Thrown _ => False
                     end).
Proof.
  pose proof anything_flagOnly as Hflag.
  induction fuel as [|fuel IH]; intros current stats; cbn [Commit.backfillLoop].
  - apply triple_ret. split; [lia|reflexivity].
  - destruct (Moment.isSameOrBefore current end_); [|apply triple_ret; split; [lia|reflexivity]].
    cbv zeta.
    destruct (skip && ((Moment.day current =? 0) || (Moment.day current =? 6))).
    + apply triple_after_emit; [assumption|exact Logic.I|].
      eapply triple_weaken; [apply IH|].
      intros [stats'|e]; [|auto]. cbn [Commit.totalCommits Commit.totalDays Commit.errors].
      auto.
    + apply triple_after_mathRandom; [assumption|intros i].
      replace (m - m + 1) with 1 by lia.
      rewrite (floorMul_unit (Js.random env i)) by apply env_unit.
      apply triple_after_emit; [assumption|exact Logic.I|].
      eapply triple_bind;
        [apply backfillCommits_counts| |intros e He; discriminate].
      intros stats1 Hs1. inversion Hs1; subst. clear Hs1.
      eapply triple_bind with (R1 := fun r => r = Js.Returned tt).
      * destruct (_ =? 0); [apply triple_emit; auto; exact Logic.I|now apply triple_ret].
      * intros [] _. eapply triple_weaken; [apply IH|].
        intros [stats'|e]; [|auto].
        cbn [Commit.totalCommits Commit.totalDays Commit.errors].
        rewrite upto_length. intros [Hc He]. split; [|exact He]. nia.
      * intros e He. discriminate.
Qed.

End BackfillCommits.

Section Fuel.
Variable CONFIG : Config.t.

(** The fuel of the loop of backfillContributions is never what ends it:
    with one round for each calendar day up to the end, the condition of
    the loop is false when the fuel is spent, so that more fuel changes
    nothing. *)
Lemma backfillLoop_fuel (skip : bool) (minCommits maxCommits : Z) (end_ : Moment.t)
      (fuel : nat) :
  forall (current : Moment.t) (stats : Commit.Stats) (env : Js.Env) (w : Js.State),
    (Commit.rounds current end_ <= fuel)%nat ->
    Commit.backfillLoop CONFIG (S fuel) skip minCommits maxCommits end_ current stats env w
    = Commit.backfillLoop CONFIG fuel skip minCommits maxCommits end_ current stats env w.
Proof.
  induction fuel as [|fuel IH]; intros current stats env w Hfuel.
  - cbn [Commit.backfillLoop].
    assert (Hafter : Moment.isSameOrBefore current end_ = false).
    { unfold Commit.rounds in Hfuel. unfold Moment.isSameOrBefore.
      destruct (Z.ltb_spec (Moment.days current) (Moment.days end_)); [lia|].
      destruct (Z.eqb_spec (Moment.days current) (Moment.days end_)); [lia|].
      reflexivity. }
    now rewrite Hafter.
  - remember (S fuel) as fuel1 eqn:Hfuel1.
    cbn [Commit.backfillLoop].
    transitivity
      (Commit.backfillLoop CONFIG (S fuel) skip minCommits maxCommits end_ current stats
         env w); [|now subst fuel1].
    cbn [Commit.backfillLoop].
    destruct (Moment.isSameOrBefore current end_) eqn:Hcond; [|reflexivity].
    assert (Hnext : forall stats' env' w',
              Commit.backfillLoop CONFIG fuel1 skip minCommits maxCommits end_
                (Moment.add_d 1 current) stats' env' w'
              = Commit.backfillLoop CONFIG fuel skip minCommits maxCommits end_
                  (Moment.add_d 1 current) stats' env' w').
    { intros stats' env' w'. subst fuel1. apply IH.
      unfold Commit.rounds in *. cbn [Moment.add_d Moment.days].
      unfold Moment.isSameOrBefore in Hcond.
      destruct (Z.ltb_spec (Moment.days current) (Moment.days end_));
        destruct (Z.eqb_spec (Moment.days current) (Moment.days end_));
        cbn in Hcond; try discriminate; lia. }
    cbv zeta.
    destruct (skip && _).
    + unfold Js.bind. destruct (Js.log _ _ env w) as [[[]|e] w1]; [apply Hnext|reflexivity].
    + unfold Js.bind.
      destruct (Js.mathRandom env w) as [[r|e] w1]; [|reflexivity].
      destruct (Js.log _ _ env w1) as [[[]|e] w2]; [|reflexivity].
      destruct (Js.forEach _ _ _ env w2) as [[stats1|e] w3]; [|reflexivity].
      match goal with
      | |- context [if ?c then _ else _] => destruct c
      end.
      * destruct (Js.log _ _ env w3) as [[[]|e] w4]; [apply Hnext|reflexivity].
      * cbn. apply Hnext.
Qed.
End Fuel.

Section Backfill.
Import Hoare.
Variable CONFIG : Config.t.
Variable env : Js.Env.

Lemma daysFrom_length (first : Z) (count : nat) :
  List.length (Commit.daysFrom first count) = count.
Proof. unfold Commit.daysFrom. now rewrite length_map, length_seq. Qed.

(** C6. For a range of dates (the start not later in the day than the
    end, as with two plain dates), backfillContributions returns its
    counters; the days it processed and the days it skipped are together
    the days of the range, both ends included.  With skipWeekends set,
    the days skipped are exactly the Saturdays and Sundays of the range,
    and every marker file written and every commit created bears the
    date of a day that is neither; without it no day is skipped.  With
    minCommits = maxCommits = m (m not negative), Math.random in the unit
    interval and no failing call, totalCommits is m times totalDays and
    no error is counted. *)
Theorem C6_backfill_counts
      (startDate endDate : Moment.t) (options : Commit.Options) (w : Js.State) :
  Moment.ms startDate <= Moment.ms endDate ->
  let skip := Commit.nullish (Commit.skipWeekends options)
                             (Config.backfill_skipWeekends CONFIG) in
  let minCommits := Commit.nullish (Commit.minCommits options)
                                   (Config.backfill_minCommits CONFIG) in
  let maxCommits := Commit.nullish (Commit.maxCommits options)
                                   (Config.backfill_maxCommits CONFIG) in
  let days := Commit.range startDate endDate in
  let run := Commit.backfillContributions CONFIG startDate endDate options env w in
  exists stats,
    fst run = Js.Returned stats
    /\ Commit.totalDays stats + Commit.skippedDays stats = Z.of_nat (List.length days)
    /\ Z.of_nat (List.length days)
       = Z.max 0 (Moment.days endDate - Moment.days startDate + 1)
    /\ (skip = true ->
        Commit.skippedDays stats
        = Z.of_nat (List.length (filter Commit.isWeekend days)))
    /\ (skip = false ->
        Commit.skippedDays stats = 0
        /\ Commit.totalDays stats = Z.of_nat (List.length days))
    /\ Forall (Commit.dated skip) (Obs.since w (snd run))
    /\ (minCommits = maxCommits -> 0 <= minCommits ->
        Obs.allOk env -> Obs.unitRandom env ->
        Commit.totalCommits stats = minCommits * Commit.totalDays stats
        /\ Commit.errors stats = 0).
Proof.
  intros Hms skip minCommits maxCommits days run.
  pose proof anything_flagOnly as Hflag.
  assert (Hdays : triple env (fun _ => True) (Commit.dated skip)
                    (Commit.backfillContributions CONFIG startDate endDate options)
                    (fun r => match r with
                              | Js.Returned stats =>
                                  Commit.skippedDays stats = Commit.skippedIn skip days
                                  /\ Commit.totalDays stats = Commit.processedIn skip days
                              | Js.Thrown _ => False
                              end)).
  { unfold Commit.backfillContributions. fold skip minCommits maxCommits.
    apply triple_after_emit; [assumption|exact Logic.I|].
    eapply triple_bind;
      [apply (backfillLoop_days CONFIG env skip minCommits maxCommits endDate
                (Commit.rounds startDate endDate) startDate (Commit.mkStats 0 0 0 0) Hms)
      | |auto].
    - unfold Commit.range. rewrite daysFrom_length. unfold Commit.rounds. lia.
    - intros stats [Hs Hd]. cbn [Commit.skippedDays Commit.totalDays] in Hs, Hd.
      apply triple_after_emit; [assumption|exact Logic.I|].
      apply triple_ret. fold days in Hs, Hd. split; lia. }
  destruct (Hdays w Logic.I) as (_ & Hres & es & Htrace & Hdated).
  fold run in Hres, Htrace.
  destruct (fst run) as [stats|e] eqn:Hrun; [|contradiction].
  destruct Hres as [Hskipped Htotal].
  exists stats. split; [reflexivity|].
  split; [unfold Commit.processedIn in Htotal; lia|].
  split; [unfold days, Commit.range; rewrite daysFrom_length; lia|].
  split; [intros Hskip; rewrite Hskipped; unfold Commit.skippedIn; now rewrite Hskip|].
  split.
  { intros Hskip. rewrite Htotal. unfold Commit.processedIn. rewrite Hskipped.
    unfold Commit.skippedIn. rewrite Hskip. split; lia. }
  split; [now rewrite (since_trace _ _ _ Htrace)|].
  intros Heq Hnonneg Hok Hunit.
  assert (Hcounts : triple env (fun _ => True) (fun _ => True)
                      (Commit.backfillContributions CONFIG startDate endDate options)
                      (fun r => match r with
                                | Js.Returned stats' =>
                                    Commit.totalCommits stats'
                                    = minCommits * Commit.totalDays stats'
                                    /\ Commit.errors stats' = 0
                                | Js.Thrown _ => False
                                end)).
  { unfold Commit.backfillContributions. fold skip minCommits maxCommits.
    rewrite <- Heq.
    apply triple_after_emit; [assumption|exact Logic.I|].
    eapply triple_bind;
      [apply (backfillLoop_counts CONFIG env Hok Hunit skip minCommits Hnonneg endDate)
      | |auto].
    intros stats' [Hc He]. cbn [Commit.totalCommits Commit.totalDays Commit.errors] in Hc, He.
    apply triple_after_emit; [assumption|exact Logic.I|].
    apply triple_ret. split; [|exact He].
    rewrite Z.sub_0_r in Hc. rewrite Z.sub_0_r in Hc. exact Hc. }
  destruct (Hcounts w Logic.I) as (_ & Hres' & _).
  fold run in Hres'. rewrite Hrun in Hres'. exact Hres'.
Qed.

End Backfill.

(** The example of the specification: two commits a day over three days,
    weekends not skipped. *)
Example backfill_three_days :
  fst (Commit.backfillContributions Config.defaults
         (Sample.midnight 2024 1 5) (Sample.midnight 2024 1 7)
         (Commit.mkOptions (Some false) (Some 2) (Some 2)) Sample.calm Js.initial)
  = Js.Returned (Commit.mkStats 3 6 0 0).
Proof. vm_compute. reflexivity. Qed.

(** Two weeks from a Monday, weekends skipped: ten days processed, four
    skipped. *)
Example backfill_two_weeks :
  fst (Commit.backfillContributions Config.defaults
         (Sample.midnight 2024 1 1) (Sample.midnight 2024 1 14)
         (Commit.mkOptions (Some true) (Some 2) (Some 2)) Sample.calm Js.initial)
  = Js.Returned (Commit.mkStats 10 20 4 0).
Proof. vm_compute. reflexivity. Qed.
(* ===================================================================== *)
(** * Further facts about the code *)
(* ===================================================================== *)

(** ** git-service.js: push beyond its failures *)

Section PushMore.
Variable CONFIG : Config.t.
Variable env : Js.Env.

(** What a round of push leaves in the trace when its attempt succeeds. *)
Lemma pushAttempt_ok (options : Git.Options) (attempt : Z) (payload : string)
      (w : Js.State) :
  Config.app_dryRun CONFIG = false ->
  Js.answer env (Js.calls w) = Js.Ok payload ->
  Git.pushAttempt CONFIG options attempt env w
  = (Js.Returned (Some (Git.PushOutput payload)),
     Js.mkState
       (Js.trace w ++ [Git.pushing CONFIG options attempt;
                       Git.pushCall CONFIG options (Js.Ok payload);
                       Js.ELog Js.Info "Push successful"])%list
       (S (Js.calls w)) (Js.clockReads w) (Js.draws w) (Js.initialized w)).
Proof.
  intros Hdry Ha. unfold Git.pushAttempt, Js.call. unfold_js.
  rewrite Hdry. cbn. rewrite Ha.
  unfold Js.extend, Js.answered, Git.pushing, Git.pushCall; cbn.
  rewrite Ha, <- !app_assoc. reflexivity.
Qed.

(** X1. A push whose initialisation is done and whose first [k] attempts
    fail for a reason outside the remote-absent class, [k] being less than
    maxRetries, succeeds when attempt [k+1] does: it returns what git.push
    resolved with, has called git.push [k+1] times and has waited
    retryDelay times the number of the attempt behind each failed attempt
    and not behind the one that succeeded. *)
Theorem push_succeeds_after_retries
      (options : Git.Options) (w w0 : Js.State) (msg : nat -> string) (k : nat)
      (payload : string) :
  Config.app_dryRun CONFIG = false ->
  Git.ensureInitialized env w = (Js.Returned tt, w0) ->
  (k < Z.to_nat (Config.app_retryAttempts CONFIG))%nat ->
  (forall i, (i < k)%nat ->
     Js.answer env (Js.calls w0 + i) = Js.Fail (msg i)
     /\ ~ Git.remoteMissing (msg i)) ->
  Js.answer env (Js.calls w0 + k) = Js.Ok payload ->
  let run := Git.push CONFIG options env w in
  fst run = Js.Returned (Git.PushOutput payload)
  /\ Obs.since w0 (snd run)
     = (flat_map (fun i => Git.failedRound CONFIG options (1 + Z.of_nat i) (msg i))
                 (seq 0 k)
        ++ [Git.pushing CONFIG options (1 + Z.of_nat k);
            Git.pushCall CONFIG options (Js.Ok payload);
            Js.ELog Js.Info "Push successful"])%list
  /\ Obs.sleepsOf (Obs.since w0 (snd run))
     = map (fun i => Config.app_retryDelay CONFIG * Z.of_nat i) (seq 1 k)
  /\ List.length (Obs.callsOf (Obs.since w0 (snd run))) = S k.
Proof.
  intros Hdry Hinit Hk Hfail Hlast run.
  assert (Hrun : run
                 = (Js.Returned (Git.PushOutput payload),
                    Js.mkState
                      (Js.trace (Git.afterRounds CONFIG options 1 msg k w0)
                       ++ [Git.pushing CONFIG options (1 + Z.of_nat k);
                           Git.pushCall CONFIG options (Js.Ok payload);
                           Js.ELog Js.Info "Push successful"])%list
                      (S (Js.calls w0 + k)) (Js.clockReads w0) (Js.draws w0)
                      (Js.initialized w0))).
  { unfold run, Git.push. unfold Js.bind at 1. rewrite Hinit.
    replace (Z.to_nat (Config.app_retryAttempts CONFIG))
      with (k + (Z.to_nat (Config.app_retryAttempts CONFIG) - k))%nat at 1 by lia.
    rewrite (pushLoop_rounds CONFIG env options k Hdry _ 1 msg w0); [| |lia].
    - destruct (Z.to_nat (Config.app_retryAttempts CONFIG) - k)%nat as [|rounds] eqn:E;
        [lia|].
      cbn [Git.pushLoop]. unfold Js.bind at 1.
      rewrite (pushAttempt_ok options (1 + Z.of_nat k) payload
                 (Git.afterRounds CONFIG options 1 msg k w0) Hdry Hlast).
      reflexivity.
    - intros i Hi. destruct (Hfail i Hi) as [Ha Hn]. split; auto.
      destruct (Git.remoteAbsent (msg i)) eqn:E; auto.
      apply remoteAbsent_iff in E. contradiction. }
  assert (Hsince : Obs.since w0 (snd run)
                   = (flat_map (fun i => Git.failedRound CONFIG options
                                           (1 + Z.of_nat i) (msg i)) (seq 0 k)
                      ++ [Git.pushing CONFIG options (1 + Z.of_nat k);
                          Git.pushCall CONFIG options (Js.Ok payload);
                          Js.ELog Js.Info "Push successful"])%list).
  { rewrite Hrun. cbn [snd]. apply since_trace.
    unfold Git.afterRounds; cbn [Js.trace]. now rewrite <- app_assoc. }
  split; [now rewrite Hrun|]. split; [exact Hsince|].
  rewrite Hsince. split.
  - rewrite sleepsOf_app, sleepsOf_rounds.
    unfold Git.pushing, Git.pushCall. cbn [Obs.sleepsOf flat_map app].
    rewrite app_nil_r, <- seq_shift, map_map.
    apply map_ext. intros i. f_equal. lia.
  - rewrite callsOf_app, length_app, callsOf_rounds_length.
    unfold Git.pushing, Git.pushCall. cbn [Obs.callsOf flat_map app List.length]. lia.
Qed.

End PushMore.
Section PushBound.
Variable CONFIG : Config.t.
Variable env : Js.Env.

Lemma callsOf_sleepsOf_logs (es : list Js.Event) :
  forallb Obs.isLog es = true -> Obs.callsOf es = [] /\ Obs.sleepsOf es = [].
Proof.
  induction es as [|e es IH]; cbn; [auto|].
  destruct e; cbn; try discriminate. exact IH.
Qed.

(** A round of push makes at most one call, a call of git.push; it waits
    only when it ends without a result, and then its attempt is not the
    last one. *)
Lemma pushAttempt_shape (options : Git.Options) (attempt : Z) (w : Js.State) :
  exists es,
    Js.trace (snd (Git.pushAttempt CONFIG options attempt env w))
    = (Js.trace w ++ es)%list
    /\ Forall (fun c => Seen.isGitPush c = true) (Obs.callsOf es)
    /\ match fst (Git.pushAttempt CONFIG options attempt env w) with
       | Js.Returned None =>
           attempt <> Config.app_retryAttempts CONFIG
           /\ Obs.sleepsOf es = [Config.app_retryDelay CONFIG * attempt]
           /\ List.length (Obs.callsOf es) = 1%nat
       | _ =>
           Obs.sleepsOf es = [] /\ (List.length (Obs.callsOf es) <= 1)%nat
       end.
Proof.
  unfold Git.pushAttempt, Js.call, Js.answered. unfold_js. unfold Js.extend.
  destruct (Config.app_dryRun CONFIG); cbn.
  - eexists. split; [reflexivity|]. cbn. repeat split; auto.
  - destruct (Js.answer env (Js.calls w)) as [payload|message]; cbn.
    + eexists. rewrite <- !app_assoc. split; [reflexivity|]. cbn.
      repeat split; auto.
    + destruct (Git.remoteAbsent message); cbn.
      * eexists. rewrite <- !app_assoc. split; [reflexivity|]. cbn.
        repeat split; auto.
      * destruct (Z.eqb_spec attempt (Config.app_retryAttempts CONFIG)); cbn.
        -- eexists. rewrite <- !app_assoc. split; [reflexivity|]. cbn.
           repeat split; auto.
        -- eexists. rewrite <- !app_assoc. split; [reflexivity|]. cbn.
           repeat split; auto.
Qed.

Lemma pushLoop_bounded (options : Git.Options) (rounds : nat) :
  forall (attempt : Z) (w : Js.State),
    rounds = 0%nat \/ attempt + Z.of_nat rounds = Config.app_retryAttempts CONFIG + 1 ->
    exists j es,
      Js.trace (snd (Git.pushLoop CONFIG options rounds attempt env w))
      = (Js.trace w ++ es)%list
      /\ (j <= rounds - 1)%nat
      /\ Obs.sleepsOf es
         = map (fun i => Config.app_retryDelay CONFIG * (attempt + Z.of_nat i)) (seq 0 j)
      /\ (j <= List.length (Obs.callsOf es) <= rounds)%nat
      /\ Forall (fun c => Seen.isGitPush c = true) (Obs.callsOf es).
Proof.
  induction rounds as [|rounds IH]; intros attempt w Hlast; cbn [Git.pushLoop].
  - exists 0%nat, []. cbn. rewrite app_nil_r. repeat split; auto.
  - destruct Hlast as [Hnone|Hlast]; [discriminate|].
    destruct (pushAttempt_shape options attempt w) as (es1 & Ht1 & Hp1 & Hshape).
    unfold Js.bind at 1.
    destruct (Git.pushAttempt CONFIG options attempt env w) as [[[result|]|e] w1];
      cbn [fst snd] in *.
    + destruct Hshape as [Hs Hc]. exists 0%nat, es1. cbn [Js.ret snd].
      repeat split; auto; lia.
    + destruct Hshape as (Hne & Hs & Hc).
      destruct (IH (attempt + 1) w1 ltac:(right; lia)) as (j & es2 & Ht2 & Hj & Hs2 & Hc2 & Hp2).
      exists (S j), (es1 ++ es2)%list.
      split; [now rewrite Ht2, Ht1, app_assoc|].
      split; [lia|].
      split.
      { rewrite sleepsOf_app, Hs, Hs2. cbn [seq map app]. rewrite Z.add_0_r. f_equal.
        rewrite <- seq_shift, map_map. apply map_ext. intros i. f_equal. lia. }
      split; [rewrite callsOf_app, length_app; lia|].
      rewrite callsOf_app. apply Forall_app. now split.
    + destruct Hshape as [Hs Hc]. exists 0%nat, es1. repeat split; auto; lia.
Qed.

(** The events of ensureInitialized are those of the initialisation: no
    wait and no call but the one of the initialisation. *)
Lemma ensureInitialized_events (w : Js.State) :
  exists es,
    Js.trace (snd (Git.ensureInitialized env w)) = (Js.trace w ++ es)%list
    /\ Obs.sleepsOf es = []
    /\ filter Seen.isGitPush (Obs.callsOf es) = [].
Proof.
  unfold Git.ensureInitialized, Git.initialize, Js.call, Js.answered. unfold_js.
  unfold Js.extend.
  destruct (Js.initialized w); cbn.
  - exists []. now rewrite app_nil_r.
  - destruct (Js.answer env (Js.calls w)); cbn;
      (eexists; rewrite <- !app_assoc; split; [reflexivity|]; cbn; auto).
Qed.

Lemma filter_all {A} (f : A -> bool) (l : list A) :
  Forall (fun x => f x = true) l -> filter f l = l.
Proof.
  induction 1 as [|x l Hx Hl IH]; cbn; [reflexivity|]. now rewrite Hx, IH.
Qed.

(** X2. Whatever the outside world answers, push calls git.push at most
    maxRetries times, and the waits it makes are retryDelay times 1, 2,
    ..., [j] for some [j] below maxRetries and not above the number of
    calls: there is no wait behind the last possible attempt.  With
    maxRetries not positive, push of an initialised service makes no
    attempt at all and resolves with undefined, in rehearsal mode too. *)
Theorem push_is_bounded (options : Git.Options) (w : Js.State) :
  let run := Git.push CONFIG options env w in
  let pushes := filter Seen.isGitPush (Obs.callsOf (Obs.since w (snd run))) in
  (exists j,
      (j <= Z.to_nat (Config.app_retryAttempts CONFIG) - 1)%nat
      /\ Obs.sleepsOf (Obs.since w (snd run))
         = map (fun i => Config.app_retryDelay CONFIG * Z.of_nat i) (seq 1 j)
      /\ (j <= List.length pushes <= Z.to_nat (Config.app_retryAttempts CONFIG))%nat)
  /\ (Config.app_retryAttempts CONFIG <= 0 ->
      Js.initialized w = true ->
      run = (Js.Returned Git.PushNothing, w)).
Proof.
  intros run pushes. split.
  - assert (Hrun : exists j es,
               Obs.since w (snd run) = es
               /\ (j <= Z.to_nat (Config.app_retryAttempts CONFIG) - 1)%nat
               /\ Obs.sleepsOf es
                  = map (fun i => Config.app_retryDelay CONFIG * Z.of_nat i) (seq 1 j)
               /\ (j <= List.length (filter Seen.isGitPush (Obs.callsOf es))
                    <= Z.to_nat (Config.app_retryAttempts CONFIG))%nat).
    { unfold run, Git.push. unfold Js.bind.
      destruct (ensureInitialized_events w) as (es0 & Ht0 & Hs0 & Hc0).
      destruct (Git.ensureInitialized env w) as [[[]|e] w0]; cbn [fst snd] in *.
      + destruct (pushLoop_bounded options (Z.to_nat (Config.app_retryAttempts CONFIG))
                    1 w0) as (j & es & Ht & Hj & Hs & Hc & Hp).
        { destruct (Z.to_nat (Config.app_retryAttempts CONFIG)) eqn:E;
            [now left|right; lia]. }
        exists j, (es0 ++ es)%list.
        split; [apply since_trace; now rewrite Ht, Ht0, app_assoc|].
        rewrite sleepsOf_app, callsOf_app, filter_app, Hs0, Hc0. cbn [app].
        rewrite (filter_all _ _ Hp).
        split; [exact Hj|]. split; [|exact Hc].
        rewrite Hs, <- seq_shift, map_map. apply map_ext. intros i. f_equal. lia.
      + exists 0%nat, es0. split; [now apply since_trace|].
        rewrite Hs0, Hc0. cbn. repeat split; lia. }
    destruct Hrun as (j & es & Hsince & Hj & Hs & Hc).
    exists j. unfold pushes. rewrite Hsince. auto.
  - intros Hmax Hready. unfold run, Git.push. unfold Js.bind at 1.
    rewrite (ensureInitialized_ready env w Hready).
    now replace (Z.to_nat (Config.app_retryAttempts CONFIG)) with 0%nat by lia.
Qed.

End PushBound.
(** ** git-service.js: the initialisation *)

Section InitOnce.
Import Hoare.
Variable CONFIG : Config.t.
Variable env : Js.Env.

Lemma footprint_pull (options : Git.Options) :
  footprint env ready (inPhase 1) (Git.pull CONFIG options).
Proof.
  pose proof ready_flagOnly.
  unfold Git.pull. apply footprint_bind; [apply footprint_ensureInitialized|intros _].
  repeat footprint_step.
Qed.

Lemma inPhase_no_initialize (p : nat) (es : list Js.Event) :
  p <> 0%nat -> Forall (inPhase p) es ->
  filter Seen.isGitInitialize (Obs.callsOf es) = [].
Proof.
  intros Hp. induction 1 as [|e es He Hes IH]; [reflexivity|].
  destruct e as [c a| | | |]; cbn; try exact IH.
  destruct c; cbn in *; try exact IH. congruence.
Qed.

Lemma ready_run {A} (p : nat) (c : Js.M A) (w : Js.State) :
  p <> 0%nat -> footprint env ready (inPhase p) c -> Js.initialized w = true ->
  filter Seen.isGitInitialize (Obs.callsOf (Obs.since w (snd (c env w)))) = []
  /\ Js.initialized (snd (c env w)) = true.
Proof.
  intros Hp Hc Hw. destruct (Hc w Hw) as (Hready & _ & es & Hes & Hev).
  rewrite (since_trace _ _ _ Hes). split; [|exact Hready].
  now apply (inPhase_no_initialize p).
Qed.

(** X3. ensureInitialized either returns with the service marked as
    initialised, or passes on the error of the initialisation and leaves
    the mark clear, so that the next operation tries again.  Once the
    mark is set, add, commit, push, pull and createCommit never run the
    initialisation again and leave the mark set, whatever the outside
    world answers. *)
Theorem initialisation_is_not_repeated
      (options : Git.Options) (message date : string) (at_ : Moment.t)
      (text : option string) (w : Js.State) :
  match fst (Git.ensureInitialized env w) with
  | Js.Returned _ => Js.initialized (snd (Git.ensureInitialized env w)) = true
  | Js.Thrown e =>
      Js.initialized w = false
      /\ Js.initialized (snd (Git.ensureInitialized env w)) = false
      /\ Js.answer env (Js.calls w) = Js.Fail e
  end
  /\ (Js.initialized w = true ->
      let unrepeated (w' : Js.State) :=
        filter Seen.isGitInitialize (Obs.callsOf (Obs.since w w')) = []
        /\ Js.initialized w' = true in
      unrepeated (snd (Git.ensureInitialized env w))
      /\ unrepeated (snd (Git.add env w))
      /\ unrepeated (snd (Git.commit CONFIG message date env w))
      /\ unrepeated (snd (Git.push CONFIG options env w))
      /\ unrepeated (snd (Git.pull CONFIG options env w))
      /\ unrepeated (snd (Commit.createCommit CONFIG at_ text env w))).
Proof.
  split.
  - unfold Git.ensureInitialized, Git.initialize, Js.call, Js.answered. unfold_js.
    destruct (Js.initialized w) eqn:Hi; cbn; [exact Hi|].
    destruct (Js.answer env (Js.calls w)); cbn; auto.
  - intros Hw unrepeated. unfold unrepeated.
    split; [apply (ready_run 2); [lia|apply footprint_ensureInitialized|exact Hw]|].
    split; [apply (ready_run 2); [lia|apply footprint_add|exact Hw]|].
    split; [apply (ready_run 2); [lia|apply footprint_commit|exact Hw]|].
    split; [apply (ready_run 3); [lia|apply footprint_push|exact Hw]|].
    split; [apply (ready_run 1); [lia|apply footprint_pull|exact Hw]|].
    apply (ready_run 2); [lia|apply footprint_createCommit|exact Hw].
Qed.

End InitOnce.
(** ** commit-service.js: counts and commit times *)

Section Floor.

(** [Math.floor(r * k)] for [r] in the unit interval and a positive [k]. *)
Lemma floorMul_range (r : Q) (k : Z) :
  (0 <= r)%Q -> (r < 1)%Q -> 0 < k -> 0 <= Js.floorMul r k < k.
Proof.
  intros H0 H1 Hk. unfold Js.floorMul.
  assert (Hpos : (0 < inject_Z k)%Q)
    by (change 0%Q with (inject_Z 0); rewrite <- Zlt_Qlt; exact Hk).
  split.
  - change 0 with (Qfloor 0). apply Qfloor_resp_le.
    apply Qmult_le_0_compat; [exact H0|]. now apply Qlt_le_weak.
  - rewrite Zlt_Qlt. eapply Qle_lt_trans; [apply Qfloor_le|].
    setoid_replace (inject_Z k) with (1 * inject_Z k)%Q at 2 by ring.
    now apply Qmult_lt_compat_r.
Qed.

End Floor.

Section Stamped.
Import Hoare.
Variable CONFIG : Config.t.
Variable env : Js.Env.
Variable P : Moment.t -> Prop.

Lemma stamped_ensureInitialized :
  footprint env (fun _ => True) (Seen.stamped P) Git.ensureInitialized.
Proof.
  intros w _. unfold Git.ensureInitialized, Git.initialize, Js.call, Js.answered.
  unfold_js. unfold Js.extend.
  destruct (Js.initialized w); cbn.
  - repeat split; auto. exists []. now rewrite app_nil_r.
  - destruct (Js.answer env (Js.calls w)); cbn; repeat split; auto;
      rewrite <- ?app_assoc; (eexists; split; [reflexivity|]);
      repeat constructor.
Qed.

(** createCommit marks its file and its commit with the moment it is
    given. *)
Lemma stamped_createCommit (date : Moment.t) (message : option string) :
  P date ->
  footprint env (fun _ => True) (Seen.stamped P)
            (Commit.createCommit CONFIG date message).
Proof.
  intros Hdate. pose proof anything_flagOnly as Hflag.
  unfold Commit.createCommit, Commit.generateCommitMessage, Commit.writeDataFile.
  apply footprint_bind.
  { destruct message as [m|]; [destruct (String.eqb m "")|]; repeat footprint_step. }
  intros commitMessage.
  apply footprint_try_catch; [|intros e; repeat footprint_step].
  apply footprint_bind.
  { apply footprint_bind; [|intros ?; footprint_step].
    apply footprint_call; [assumption|]. intros a. cbn. exists date. auto. }
  intros _. apply footprint_bind.
  { unfold Git.add.
    apply footprint_bind; [apply stamped_ensureInitialized|intros _].
    repeat footprint_step. }
  intros _. apply footprint_bind; [|intros result; repeat footprint_step].
  unfold Git.commit.
  apply footprint_bind; [apply stamped_ensureInitialized|intros _].
  apply footprint_try_catch; [|intros e; repeat footprint_step].
  apply footprint_if; [repeat footprint_step|].
  apply footprint_bind; [|intros ?; repeat footprint_step].
  apply footprint_call; [assumption|]. intros a. cbn. exists date. auto.
Qed.

End Stamped.
Section Today.
Import Hoare.
Variable CONFIG : Config.t.
Variable env : Js.Env.





End Today.
Section BackfillGeneral.
Import Hoare.
Variable CONFIG : Config.t.
Variable env : Js.Env.
Variable P : Moment.t -> Prop.
Variable skip : bool.
Variables minCommits maxCommits : Z.
Variable end_ : Moment.t.
Hypothesis commit_times :
  forall (current : Moment.t) (i1 i2 : nat),
    P (Moment.minute (Js.floorMul (Js.random env i2) 60)
                     (Moment.hour (9 + Js.floorMul (Js.random env i1) 12) current)).

(** createCommit at a moment satisfying [P], with what is known of its
    completion when no call fails. *)
Lemma stamped_createCommit_ok (date : Moment.t) (message : option string) :
  P date ->
  triple env (fun _ => True) (Seen.stamped P)
         (Commit.createCommit CONFIG date message)
         (fun r => Obs.allOk env -> returns r).
Proof.
  intros Hdate w Hw.
  destruct (stamped_createCommit CONFIG env P date message Hdate w Hw)
    as (HI & _ & Hev).
  split; [exact HI|]. split; [|exact Hev].
  intros Hok.
  exact (proj1 (proj2 (returns_createCommit CONFIG env Hok date message w Logic.I))).
Qed.

(** A round of the loop over [i] returns, and counts one commit or, when
    the commit failed, one error. *)
Lemma backfillCommit_general (current : Moment.t) (stats : Commit.Stats) :
  triple env (fun _ => True) (Seen.stamped P)
         (Commit.backfillCommit CONFIG current stats)
         (fun r => match r with
                   | Js.Returned stats' =>
                       Commit.totalDays stats' = Commit.totalDays stats
                       /\ Commit.skippedDays stats' = Commit.skippedDays stats
                       /\ ((Commit.totalCommits stats' = Commit.totalCommits stats + 1
                            /\ Commit.errors stats' = Commit.errors stats)
                           \/ (Commit.totalCommits stats' = Commit.totalCommits stats
                               /\ Commit.errors stats' = Commit.errors stats + 1
                               /\ ~ Obs.allOk env))
                   | Js.Thrown _ => False
                   end).
Proof.
  pose proof anything_flagOnly as Hflag. unfold Commit.backfillCommit.
  eapply triple_try_catch
    with (R1 := fun r => match r with
                         | Js.Returned stats' =>
                             Commit.totalDays stats' = Commit.totalDays stats
                             /\ Commit.skippedDays stats' = Commit.skippedDays stats
                             /\ Commit.totalCommits stats' = Commit.totalCommits stats + 1
                             /\ Commit.errors stats' = Commit.errors stats
                         | Js.Thrown _ => ~ Obs.allOk env
                         end).
  - apply triple_after_mathRandom; [assumption|intros i1].
    apply triple_after_mathRandom; [assumption|intros i2].
    eapply triple_bind;
      [apply stamped_createCommit_ok, commit_times| |intros e He Hok; exact (He Hok)].
    intros _ _.
    apply triple_after_emit; [assumption|exact Logic.I|].
    apply triple_ret. cbn. auto.
  - intros stats' (Hd & Hs & Hc & He). auto.
  - intros e Hnot.
    apply triple_after_emit; [assumption|exact Logic.I|].
    apply triple_ret. cbn. split; [reflexivity|]. split; [reflexivity|].
    right. repeat split; auto.
Qed.

(** The loop over [i] as a whole: every round is counted once. *)
Lemma backfillCommits_general (current : Moment.t) (rounds : list Z)
      (stats : Commit.Stats) :
  triple env (fun _ => True) (Seen.stamped P)
         (Js.forEach rounds (fun _ => Commit.backfillCommit CONFIG current) stats)
         (fun r => match r with
                   | Js.Returned stats' =>
                       Commit.totalDays stats' = Commit.totalDays stats
                       /\ Commit.skippedDays stats' = Commit.skippedDays stats
                       /\ Commit.totalCommits stats <= Commit.totalCommits stats'
                       /\ Commit.errors stats <= Commit.errors stats'
                       /\ Commit.totalCommits stats' + Commit.errors stats'
                          = Commit.totalCommits stats + Commit.errors stats
                            + Z.of_nat (List.length rounds)
                       /\ (Obs.allOk env -> Commit.errors stats' = Commit.errors stats)
                   | Js.Thrown _ => False
                   end).
Proof.
  eapply triple_weaken.
  - apply (triple_forEach env (fun _ => True) (Seen.stamped P)
             (fun _ => Commit.backfillCommit CONFIG current)
             (fun rest acc =>
                Commit.totalDays acc = Commit.totalDays stats
                /\ Commit.skippedDays acc = Commit.skippedDays stats
                /\ Commit.totalCommits stats <= Commit.totalCommits acc
                /\ Commit.errors stats <= Commit.errors acc
                /\ Commit.totalCommits acc + Commit.errors acc
                   + Z.of_nat (List.length rest)
                   = Commit.totalCommits stats + Commit.errors stats
                     + Z.of_nat (List.length rounds)
                /\ (Obs.allOk env -> Commit.errors acc = Commit.errors stats))
             (fun _ => False)).
    + intros i rest acc (Hd & Hs & Hc & He & Hsum & Hok).
      eapply triple_weaken; [apply (backfillCommit_general current acc)|].
      intros [stats'|e]; [|auto]. intros (Hd' & Hs' & Hcase).
      cbn [List.length] in Hsum.
      split; [congruence|]. split; [congruence|].
      destruct Hcase as [[Hc' He']|(Hc' & He' & Hnot)].
      * split; [lia|]. split; [lia|]. split; [lia|].
        intros H. rewrite He'. auto.
      * split; [lia|]. split; [lia|]. split; [lia|].
        intros H. contradiction.
    + repeat split; try lia; auto.
  - intros [stats'|e]; [|auto]. cbn [List.length].
    intros (Hd & Hs & Hc & He & Hsum & Hok). repeat split; auto; lia.
Qed.

(** The loop over the days. *)
Lemma backfillLoop_general (fuel : nat) :
  forall (current : Moment.t) (stats : Commit.Stats),
    triple env (fun _ => True) (Seen.stamped P)
           (Commit.backfillLoop CONFIG fuel skip minCommits maxCommits end_ current stats)
           (fun r => match r with
                     | Js.Returned stats' =>
                         Commit.totalDays stats <= Commit.totalDays stats'
                         /\ Commit.skippedDays stats <= Commit.skippedDays stats'
                         /\ Commit.totalCommits stats <= Commit.totalCommits stats'
                         /\ Commit.errors stats <= Commit.errors stats'
                         /\ (Obs.unitRandom env -> 0 <= minCommits ->
                             minCommits <= maxCommits ->
                             minCommits * (Commit.totalDays stats' - Commit.totalDays stats)
                             <= Commit.totalCommits stats' + Commit.errors stats'
                                - (Commit.totalCommits stats + Commit.errors stats)
                             <= maxCommits
                                * (Commit.totalDays stats' - Commit.totalDays stats))
                         /\ (Obs.allOk env -> Commit.errors stats' = Commit.errors stats)
                     | Js.Thrown _ => False
                     end).
Proof.
  pose proof anything_flagOnly as Hflag.
  induction fuel as [|fuel IH]; intros current stats; cbn [Commit.backfillLoop].
  - apply triple_ret. repeat split; try lia; auto.
  - destruct (Moment.isSameOrBefore current end_);
      [|apply triple_ret; repeat split; try lia; auto].
    cbv zeta.
    destruct (skip && ((Moment.day current =? 0) || (Moment.day current =? 6))).
    + apply triple_after_emit; [assumption|exact Logic.I|].
      eapply triple_weaken; [apply IH|].
      intros [stats'|e]; [|auto].
      cbn [Commit.totalCommits Commit.totalDays Commit.errors Commit.skippedDays].
      intros (Hd & Hs & Hc & He & Hacc & Hok).
      split; [lia|]. split; [lia|]. split; [lia|]. split; [lia|].
      split; [|exact Hok].
      intros Hunit Hmin Hle. specialize (Hacc Hunit Hmin Hle). lia.
    + apply triple_after_mathRandom; [assumption|intros i].
      apply triple_after_emit; [assumption|exact Logic.I|].
      eapply triple_bind; [apply backfillCommits_general| |intros e []].
      intros stats1 (Hd1 & Hs1 & Hc1 & He1 & Hsum1 & Hok1).
      eapply triple_bind with (R1 := fun r => r = Js.Returned tt).
      * destruct (_ =? 0); [apply triple_emit; auto; exact Logic.I|now apply triple_ret].
      * intros [] _. eapply triple_weaken; [apply IH|].
        intros [stats'|e]; [|auto].
        cbn [Commit.totalCommits Commit.totalDays Commit.errors Commit.skippedDays].
        rewrite upto_length in Hsum1.
        intros (Hd & Hs & Hc & He & Hacc & Hok).
        split; [lia|]. split; [lia|]. split; [lia|]. split; [lia|]. split.
        -- intros Hunit Hmin Hle. specialize (Hacc Hunit Hmin Hle).
           pose proof (floorMul_range (Js.random env i) (maxCommits - minCommits + 1)
                         (proj1 (Hunit i)) (proj2 (Hunit i)) ltac:(lia)) as Hrange.
           rewrite Z2Nat.id in Hsum1 by lia. nia.
        -- intros H. rewrite (Hok H). auto.
      * intros e He. discriminate.
Qed.

End BackfillGeneral.
Section BackfillMore.
Import Hoare.
Variable CONFIG : Config.t.
Variable env : Js.Env.

(** The time of day backfillContributions gives a commit: the hour is
    drawn from 9 to 20 and the minute from 0 to 59. *)
Lemma office_hours_time (r1 r2 : Q) (current : Moment.t) :
  (0 <= r1)%Q -> (r1 < 1)%Q -> (0 <= r2)%Q -> (r2 < 1)%Q ->
  Seen.officeHours
    (Moment.minute (Js.floorMul r2 60) (Moment.hour (9 + Js.floorMul r1 12) current)).
Proof.
  intros H1 H1' H2 H2'. unfold Seen.officeHours, Moment.minute, Moment.hour.
  cbn [Moment.ms Moment.days].
  pose proof (floorMul_range r1 12 H1 H1' ltac:(lia)) as Hh.
  pose proof (floorMul_range r2 60 H2 H2' ltac:(lia)) as Hm.
  pose proof (Z.mod_pos_bound (Moment.ms current) 3600000 ltac:(lia)) as Hrem.
  set (h := 9 + Js.floorMul r1 12) in *.
  set (rem := Moment.ms current mod 3600000) in *.
  pose proof (Z.mod_pos_bound (h * 3600000 + rem) 60000 ltac:(lia)) as Hsec.
  assert (Hdiv : (h * 3600000 + rem) / 3600000 = h).
  { rewrite Z.div_add_l by lia. rewrite (Z.div_small rem) by lia. lia. }
  rewrite Hdiv. lia.
Qed.

(** X5. With Math.random in the unit interval and counts drawn between a
    minCommits that is not negative and a maxCommits not below it,
    backfillContributions returns its counters whatever the calls into
    git answer: a commit that fails is counted as an error and the loop
    goes on.  Every commit attempted is counted once, as a commit or as
    an error, so that totalCommits + errors lies between minCommits and
    maxCommits times totalDays; no counter is negative, and no error is
    counted when no call fails. *)
Theorem backfill_accounts_for_every_commit
      (startDate endDate : Moment.t) (options : Commit.Options) (w : Js.State) :
  let minCommits := Commit.nullish (Commit.minCommits options)
                                   (Config.backfill_minCommits CONFIG) in
  let maxCommits := Commit.nullish (Commit.maxCommits options)
                                   (Config.backfill_maxCommits CONFIG) in
  Obs.unitRandom env ->
  0 <= minCommits -> minCommits <= maxCommits ->
  exists stats,
    fst (Commit.backfillContributions CONFIG startDate endDate options env w)
    = Js.Returned stats
    /\ 0 <= Commit.totalDays stats /\ 0 <= Commit.skippedDays stats
    /\ 0 <= Commit.totalCommits stats /\ 0 <= Commit.errors stats
    /\ minCommits * Commit.totalDays stats
       <= Commit.totalCommits stats + Commit.errors stats
       <= maxCommits * Commit.totalDays stats
    /\ (Obs.allOk env -> Commit.errors stats = 0).
Proof.
  intros minCommits maxCommits Hunit Hmin Hle.
  pose proof anything_flagOnly as Hflag.
  assert (Hrun : triple env (fun _ => True) (Seen.stamped (fun _ => True))
                   (Commit.backfillContributions CONFIG startDate endDate options)
                   (fun r => match r with
                             | Js.Returned stats =>
                                 0 <= Commit.totalDays stats
                                 /\ 0 <= Commit.skippedDays stats
                                 /\ 0 <= Commit.totalCommits stats
                                 /\ 0 <= Commit.errors stats
                                 /\ minCommits * Commit.totalDays stats
                                    <= Commit.totalCommits stats + Commit.errors stats
                                    <= maxCommits * Commit.totalDays stats
                                 /\ (Obs.allOk env -> Commit.errors stats = 0)
                             | Js.Thrown _ => False
                             end)).
  { unfold Commit.backfillContributions. fold minCommits maxCommits.
    apply triple_after_emit; [assumption|exact Logic.I|].
    eapply triple_bind;
      [apply (backfillLoop_general CONFIG env (fun _ => True)); intros; exact Logic.I
      | |intros e []].
    intros stats. cbn [Commit.totalCommits Commit.totalDays Commit.errors
                         Commit.skippedDays].
    intros (Hd & Hs & Hc & He & Hacc & Hok).
    apply triple_after_emit; [assumption|exact Logic.I|].
    apply triple_ret. specialize (Hacc Hunit Hmin Hle).
    repeat split; try lia. exact Hok. }
  destruct (Hrun w Logic.I) as (_ & Hres & _).
  destruct (fst (Commit.backfillContributions CONFIG startDate endDate options env w))
    as [stats|e]; [|contradiction].
  exists stats. split; [reflexivity|exact Hres].
Qed.

(** X6. With Math.random in the unit interval, every marker file
    backfillContributions writes and every commit it asks for is timed
    between 09:00:00 and 20:59:59, whatever the time of day of the start
    date. *)
Theorem backfill_commits_in_office_hours
      (startDate endDate : Moment.t) (options : Commit.Options) (w : Js.State) :
  Obs.unitRandom env ->
  Forall (Seen.stamped Seen.officeHours)
         (Obs.since w
            (snd (Commit.backfillContributions CONFIG startDate endDate options env w))).
Proof.
  intros Hunit. pose proof anything_flagOnly as Hflag.
  apply (footprint_since env (fun _ => True)); [|exact Logic.I].
  unfold Commit.backfillContributions.
  apply footprint_bind; [repeat footprint_step|intros _].
  apply footprint_bind; [|intros stats; repeat footprint_step].
  eapply triple_weaken;
    [apply (backfillLoop_general CONFIG env Seen.officeHours)|auto].
  intros current i1 i2. apply office_hours_time; apply Hunit.
Qed.

(** X7. When the start date is behind the end date, be it on the same
    day, backfillContributions does nothing but log its start and its
    end: all four counters are zero, no file is written, no call is made
    and Math.random is not consulted. *)
Theorem backfill_of_an_empty_range
      (startDate endDate : Moment.t) (options : Commit.Options) (w : Js.State) :
  Moment.isSameOrBefore startDate endDate = false ->
  Commit.backfillContributions CONFIG startDate endDate options env w
  = (Js.Returned (Commit.mkStats 0 0 0 0),
     Js.extend w [Js.ELog Js.Info "Starting backfill operation";
                  Js.ELog Js.Info "Backfill completed"]).
Proof.
  intros Hafter. unfold Commit.backfillContributions. unfold_js.
  destruct (Commit.rounds startDate endDate) as [|fuel]; cbn [Commit.backfillLoop].
  - unfold_js. now rewrite extend_extend.
  - rewrite Hafter. unfold_js. now rewrite extend_extend.
Qed.

End BackfillMore.
Section CreateCommitSteps.
Variable CONFIG : Config.t.
Variable env : Js.Env.

Lemma add_cases (w : Js.State) :
  Js.initialized w = true ->
  Git.add env w
  = match Js.answer env (Js.calls w) with
    | Js.Ok _ =>
        (Js.Returned tt,
         Js.extend (Js.answered env w Js.GitAdd) [Js.ELog Js.Debug "Files staged"])
    | Js.Fail e =>
        (Js.Thrown e,
         Js.extend (Js.answered env w Js.GitAdd)
                   [Js.ELog Js.Error "Failed to stage files"])
    end.
Proof.
  intros Hw. unfold Git.add. unfold Js.bind at 1.
  rewrite (ensureInitialized_ready env w Hw).
  unfold Js.call. unfold_js.
  destruct (Js.answer env (Js.calls w)); reflexivity.
Qed.

Lemma commit_cases (message date : string) (w : Js.State) :
  Js.initialized w = true ->
  Config.app_dryRun CONFIG = false ->
  Git.commit CONFIG message date env w
  = match Js.answer env (Js.calls w) with
    | Js.Ok hash =>
        (Js.Returned (Git.CommitOutput hash),
         Js.extend (Js.answered env w (Js.GitCommit message date))
                   [Js.ELog Js.Debug "Commit created"])
    | Js.Fail e =>
        (Js.Thrown e,
         Js.extend (Js.answered env w (Js.GitCommit message date))
                   [Js.ELog Js.Error "Failed to create commit"])
    end.
Proof.
  intros Hw Hdry. unfold Git.commit. unfold Js.bind at 1.
  rewrite (ensureInitialized_ready env w Hw).
  rewrite Hdry. unfold Js.call. unfold_js.
  destruct (Js.answer env (Js.calls w)); reflexivity.
Qed.

(** The message createCommit uses: the one it is given, or the one it
    generates; generating it makes no call. *)
Lemma commit_message (date : Moment.t) (message : option string) (w : Js.State) :
  exists text w1,
    match message with
    | Some m =>
        if String.eqb m "" then Commit.generateCommitMessage date else Js.ret m
    | None => Commit.generateCommitMessage date
    end env w = (Js.Returned text, w1)
    /\ Js.trace w1 = Js.trace w /\ Js.calls w1 = Js.calls w
    /\ Js.initialized w1 = Js.initialized w
    /\ (forall m, message = Some m -> m <> "" -> text = m).
Proof.
  unfold Commit.generateCommitMessage. unfold_js.
  destruct message as [m|]; [destruct (String.eqb_spec m "")|].
  - eexists _, _. split; [reflexivity|]. cbn. repeat split; auto.
    intros m' Hm' Hne. inversion Hm'; subst. contradiction.
  - exists m, w. repeat split; auto. intros m' Hm' _. now inversion Hm'.
  - eexists _, _. split; [reflexivity|]. cbn. repeat split; auto.
    intros m' Hm'. discriminate.
Qed.

(** X8. createCommit of an initialised service, outside rehearsal mode,
    writes the marker file, stages it and commits it, in that order, and
    stops at the first of the three that fails: the error it throws is
    the one of that call, the later calls are not made (no commit without
    the file staged), and when all three succeed it returns what
    git.commit resolved with.  File and commit bear the formatted date,
    and the message it was given if that is not empty. *)
Theorem createCommit_stops_at_the_first_failure
      (date : Moment.t) (message : option string) (w : Js.State) :
  Js.initialized w = true ->
  Config.app_dryRun CONFIG = false ->
  let run := Commit.createCommit CONFIG date message env w in
  let calls := Obs.callsOf (Obs.since w (snd run)) in
  exists text,
    (forall m, message = Some m -> m <> "" -> text = m)
    /\ match Js.answer env (Js.calls w),
             Js.answer env (S (Js.calls w)),
             Js.answer env (S (S (Js.calls w))) with
       | Js.Fail e, _, _ =>
           fst run = Js.Thrown e
           /\ calls = [Js.WriteFile (Moment.format date) text]
       | Js.Ok _, Js.Fail e, _ =>
           fst run = Js.Thrown e
           /\ calls = [Js.WriteFile (Moment.format date) text; Js.GitAdd]
       | Js.Ok _, Js.Ok _, Js.Fail e =>
           fst run = Js.Thrown e
           /\ calls = [Js.WriteFile (Moment.format date) text; Js.GitAdd;
                       Js.GitCommit text (Moment.format date)]
       | Js.Ok _, Js.Ok _, Js.Ok hash =>
           fst run = Js.Returned (Git.CommitOutput hash)
           /\ calls = [Js.WriteFile (Moment.format date) text; Js.GitAdd;
                       Js.GitCommit text (Moment.format date)]
       end.
Proof.
  intros Hw Hdry run calls.
  destruct (commit_message date message w) as (text & w1 & Hmsg & Ht1 & Hc1 & Hi1 & Hgiven).
  exists text. split; [exact Hgiven|].
  assert (Hready1 : Js.initialized w1 = true) by congruence.
  assert (Hrun : exists es,
             Js.trace (snd run) = (Js.trace w ++ es)%list
             /\ match Js.answer env (Js.calls w),
                      Js.answer env (S (Js.calls w)),
                      Js.answer env (S (S (Js.calls w))) with
                | Js.Fail e, _, _ =>
                    fst run = Js.Thrown e
                    /\ Obs.callsOf es = [Js.WriteFile (Moment.format date) text]
                | Js.Ok _, Js.Fail e, _ =>
                    fst run = Js.Thrown e
                    /\ Obs.callsOf es
                       = [Js.WriteFile (Moment.format date) text; Js.GitAdd]
                | Js.Ok _, Js.Ok _, Js.Fail e =>
                    fst run = Js.Thrown e
                    /\ Obs.callsOf es
                       = [Js.WriteFile (Moment.format date) text; Js.GitAdd;
                          Js.GitCommit text (Moment.format date)]
                | Js.Ok _, Js.Ok _, Js.Ok hash =>
                    fst run = Js.Returned (Git.CommitOutput hash)
                    /\ Obs.callsOf es
                       = [Js.WriteFile (Moment.format date) text; Js.GitAdd;
                          Js.GitCommit text (Moment.format date)]
                end).
  { remember run as r eqn:Hr.
    unfold run, Commit.createCommit in Hr. unfold Js.bind at 1 in Hr.
    rewrite Hmsg in Hr.
    unfold Commit.writeDataFile, Js.call, Js.try_catch, Js.bind, Js.ret in Hr.
    rewrite Hc1 in Hr.
    destruct (Js.answer env (Js.calls w)) as [p0|e0]; cbv beta iota in Hr.
    - rewrite (add_cases (Js.answered env w1 (Js.WriteFile (Moment.format date) text)))
        in Hr by exact Hready1.
      cbn [Js.answered Js.calls] in Hr. rewrite Hc1 in Hr.
      destruct (Js.answer env (S (Js.calls w))) as [p1|e1]; cbv beta iota in Hr.
      + rewrite commit_cases in Hr by (cbn; assumption).
        cbn [Js.extend Js.answered Js.calls] in Hr. rewrite Hc1 in Hr.
        destruct (Js.answer env (S (S (Js.calls w)))) as [p2|e2]; cbv beta iota in Hr;
          subst r;
          unfold Js.log, Js.emit, Js.throw, Js.extend, Js.answered;
          cbn [fst snd Js.trace];
          rewrite Ht1, <- !app_assoc;
          (eexists; split; [reflexivity|]); split; reflexivity.
      + subst r. unfold Js.log, Js.emit, Js.throw, Js.extend, Js.answered.
        cbn [fst snd Js.trace]. rewrite Ht1, <- !app_assoc.
        eexists; split; [reflexivity|]. split; reflexivity.
    - subst r. unfold Js.log, Js.emit, Js.throw, Js.extend, Js.answered.
      cbn [fst snd Js.trace]. rewrite Ht1, <- !app_assoc.
      eexists; split; [reflexivity|]. split; reflexivity. }
  destruct Hrun as (es & Hes & Hcases).
  unfold calls. rewrite (since_trace w _ es Hes). exact Hcases.
Qed.

End CreateCommitSteps.
(** ** scheduler.js: starting and stopping *)

Section SchedulerControl.
Variable CONFIG : Settings.t.
Variable validate : string -> bool.
Variable env : Js.Env.

(** X9. start of a scheduler with no job: with a cron expression that
    does not validate it throws, having logged nothing and changed
    nothing; otherwise it registers the job and notes the next run, so
    that getStatus reports the scheduler as running, and leaves the flag
    of the run under way, the last run and the counters alone.  A second
    start changes nothing and logs a warning. *)
Theorem start_registers_the_job_once (this : Sched.Scheduler) (w : Js.State) :
  Sched.job this = None ->
  let cron := Settings.schedule_cron CONFIG in
  (validate cron = false ->
   Control.start CONFIG validate this env w
   = (Js.Thrown ("Invalid cron expression: " ++ cron), w))
  /\ (validate cron = true ->
      exists this',
        Control.start CONFIG validate this env w
        = (Js.Returned this',
           Js.extend w [Js.ELog Js.Info "Starting scheduler";
                        Js.ELog Js.Info "Scheduler started successfully"])
        /\ Sched.job this' = Some cron
        /\ Sched.nextRun this' = Some ("See cron expression: " ++ cron)
        /\ Control.running (Control.getStatus CONFIG this') = true
        /\ Sched.isRunning this' = Sched.isRunning this
        /\ Sched.lastRun this' = Sched.lastRun this
        /\ Sched.stats this' = Sched.stats this
        /\ forall w',
             Control.start CONFIG validate this' env w'
             = (Js.Returned this',
                Js.extend w' [Js.ELog Js.Warn "Scheduler already running"])).
Proof.
  intros Hjob cron. split; intros Hvalid.
  - unfold Control.start. rewrite Hjob. fold cron. now rewrite Hvalid.
  - exists (Control.updateNextRun CONFIG (Control.setJob (Some cron) this)).
    split; [|repeat split].
    unfold Control.start. rewrite Hjob. fold cron. rewrite Hvalid. unfold_js.
    unfold Js.extend. cbn. now rewrite <- app_assoc.
Qed.

(** X10. stop takes the job away and leaves every other field as it was:
    the flag of a run under way stays set, so that stopping the scheduler
    does not end the run, and the note of the next run stays too.  After
    it getStatus reports the scheduler as not running, a second stop does
    nothing at all, and a start registers the job again. *)
Theorem stop_only_clears_the_job (this : Sched.Scheduler) (w : Js.State) :
  exists this' w',
    Control.stop this env w = (Js.Returned this', w')
    /\ (Sched.job this = None -> this' = this /\ w' = w)
    /\ (Sched.job this <> None ->
        w' = Js.extend w [Js.ELog Js.Info "Scheduler stopped"])
    /\ Sched.job this' = None
    /\ Sched.isRunning this' = Sched.isRunning this
    /\ Sched.lastRun this' = Sched.lastRun this
    /\ Sched.nextRun this' = Sched.nextRun this
    /\ Sched.stats this' = Sched.stats this
    /\ Control.running (Control.getStatus CONFIG this') = false
    /\ Control.isExecuting (Control.getStatus CONFIG this') = Sched.isRunning this
    /\ (forall w2, Control.stop this' env w2 = (Js.Returned this', w2))
    /\ (validate (Settings.schedule_cron CONFIG) = true ->
        forall w2,
          Sched.job (match fst (Control.start CONFIG validate this' env w2) with
                     | Js.Returned s => s
                     | Js.Thrown _ => this'
                     end)
          = Some (Settings.schedule_cron CONFIG)).
Proof.
  unfold Control.stop. destruct this as [[j|] running last next st]; cbn.
  - eexists _, _. split; [reflexivity|]. cbn.
    repeat split; try reflexivity; try congruence.
    intros Hvalid w2. unfold Control.start; cbn. now rewrite Hvalid.
  - eexists _, _. split; [reflexivity|]. cbn.
    repeat split; try reflexivity; try congruence.
    intros Hvalid w2. unfold Control.start; cbn. now rewrite Hvalid.
Qed.

End SchedulerControl.
(** ** health-server.js *)

Section HealthServer.
Variable CONFIG : Settings.t.
Variable env : Js.Env.

(** A request that is not a POST of /trigger leaves the scheduler and the
    calls under way alone. *)
Lemma request_without_trigger (req : Health.Request) (sys : Sched.System) :
  ~ (Health.pathname req = "/trigger" /\ Health.method req = "POST") ->
  Sched.scheduler (snd (Health.serve CONFIG req env sys)) = Sched.scheduler sys
  /\ Sched.suspended (snd (Health.serve CONFIG req env sys)) = Sched.suspended sys.
Proof.
  intros Hnot. unfold Health.serve, Health.handleRequest.
  destruct (String.eqb (Health.pathname req) "/health"
            || String.eqb (Health.pathname req) "/"); [split; reflexivity|].
  destruct (String.eqb (Health.pathname req) "/status"); [split; reflexivity|].
  destruct (String.eqb_spec (Health.pathname req) "/trigger") as [Ht|Ht];
    [|split; reflexivity].
  unfold Health.handleTrigger.
  destruct (String.eqb_spec (Health.method req) "POST") as [Hm|Hm];
    [exfalso; apply Hnot; split; assumption|].
  split; reflexivity.
Qed.

(** X11. A request that is not a POST of /trigger changes nothing: the
    scheduler, the calls under way and the trace are as before, and no
    call is made.  /health and / answer 200 to every method, and so does
    /status, with the status of the scheduler; /trigger answers 405 to
    every method but POST and triggers nothing; every other path, a known
    one with a trailing slash too, answers 404.  All responses carry the
    two headers. *)
Theorem only_a_posted_trigger_changes_the_scheduler
      (req : Health.Request) (sys : Sched.System) :
  ~ (Health.pathname req = "/trigger" /\ Health.method req = "POST") ->
  let path := Health.pathname req in
  let stamp := Js.clock env (Js.clockReads (Sched.world sys)) in
  exists response sys',
    Health.serve CONFIG req env sys = (Some response, sys')
    /\ Sched.scheduler sys' = Sched.scheduler sys
    /\ Sched.suspended sys' = Sched.suspended sys
    /\ Js.trace (Sched.world sys') = Js.trace (Sched.world sys)
    /\ Js.calls (Sched.world sys') = Js.calls (Sched.world sys)
    /\ Health.headers response = Health.cors
    /\ (path = "/health" \/ path = "/" ->
        Health.statusCode response = 200
        /\ Health.body response = Health.HealthBody "healthy" stamp)
    /\ (path = "/status" ->
        Health.statusCode response = 200
        /\ Health.body response
           = Health.StatusBody "github-contributions-generator"
               (Settings.app_env CONFIG)
               (Control.getStatus CONFIG (Sched.scheduler sys)) stamp)
    /\ (path = "/trigger" ->
        Health.statusCode response = 405
        /\ Health.body response = Health.ErrorBody "Method not allowed. Use POST."
        /\ sys' = sys)
    /\ (path <> "/health" -> path <> "/" -> path <> "/status" -> path <> "/trigger" ->
        Health.statusCode response = 404
        /\ Health.body response = Health.ErrorBody "Not found"
        /\ sys' = sys).
Proof.
  intros Hnot path stamp. unfold Health.serve, Health.handleRequest. fold path.
  destruct (String.eqb_spec path "/health") as [Hh|Hh];
    [|destruct (String.eqb_spec path "/") as [Hr|Hr]];
    [| |destruct (String.eqb_spec path "/status") as [Hs|Hs]];
    [| | |destruct (String.eqb_spec path "/trigger") as [Ht|Ht]]; cbn [orb].
  - eexists _, _. split; [reflexivity|]. cbn.
    repeat split; try reflexivity; intros; subst; try discriminate; congruence.
  - eexists _, _. split; [reflexivity|]. cbn.
    repeat split; try reflexivity; intros; subst; try discriminate; congruence.
  - eexists _, _. split; [reflexivity|]. cbn.
    repeat split; try reflexivity; intros; subst; try discriminate; try congruence;
      destruct H; congruence.
  - unfold Health.handleTrigger.
    destruct (String.eqb_spec (Health.method req) "POST") as [Hm|Hm];
      [exfalso; apply Hnot; split; assumption|].
    cbn [negb]. eexists _, _. split; [reflexivity|]. cbn.
    repeat split; try reflexivity; intros; subst; try discriminate; try congruence;
      try (destruct H; congruence); now destruct sys.
  - eexists _, _. split; [reflexivity|]. cbn.
    repeat split; try reflexivity; intros; subst; try discriminate; try congruence;
      try (destruct H; congruence); now destruct sys.
Qed.


(** What a POST of /trigger does to the system. *)
Lemma posted_trigger_run (req : Health.Request) (sys : Sched.System) :
  Health.pathname req = "/trigger" -> Health.method req = "POST" ->
  let received :=
    Js.extend (Sched.world sys)
      [Js.ELog Js.Info "Manual trigger received via HTTP"; Sched.manualNotice] in
  exists this a w,
    Sched.enter (Sched.scheduler sys) env received = (Js.Returned (this, a), w)
    /\ Health.serve CONFIG req env sys
       = (Some (Health.mkResponse Health.cors 202
                  (Health.TriggerBody "Task triggered successfully"
                     (Js.clock env (Js.clockReads w)))),
          Sched.mkSystem this (Sched.park a (Sched.suspended sys))
            (Js.mkState (Js.trace w) (Js.calls w) (S (Js.clockReads w)) (Js.draws w)
                        (Js.initialized w))).
Proof.
  intros Hpath Hmethod received.
  assert (Henter : exists this a w,
             Sched.enter (Sched.scheduler sys) env received = (Js.Returned (this, a), w)).
  { destruct (Sched.isRunning (Sched.scheduler sys)) eqn:Hrun.
    - rewrite enter_running by assumption. eauto.
    - rewrite enter_idle by assumption. eauto. }
  destruct Henter as (this & a & w & He). exists this, a, w. split; [exact He|].
  unfold Health.serve, Health.handleRequest, Health.handleTrigger.
  rewrite Hpath, Hmethod. cbn [String.eqb Ascii.eqb Bool.eqb orb negb].
  unfold Health.background, Js.try_catch, Js.bind, Js.log, Js.emit, Js.now, Js.ret.
  rewrite extend_extend. cbn [app].
  unfold received, Sched.manualNotice in He. rewrite He. reflexivity.
Qed.

(** X12. A POST of /trigger is answered 202, task triggered, in every
    state.  While a run is under way it starts nothing: the scheduler and
    the calls under way are as before and the trace gets three notices,
    the last of them the skip notice.  Otherwise it begins a run, which is
    left suspended, its pull not yet returned, while the response goes
    out; with the service initialised the trace has got three notices by
    then, the last of them the start notice.  The callback for a failed
    trigger is not called. *)
Theorem a_posted_trigger_is_always_accepted
      (req : Health.Request) (sys : Sched.System) :
  Health.pathname req = "/trigger" -> Health.method req = "POST" ->
  exists response sys',
    Health.serve CONFIG req env sys = (Some response, sys')
    /\ Health.statusCode response = 202
    /\ (exists stamp,
          Health.body response
          = Health.TriggerBody "Task triggered successfully" stamp)
    /\ (Sched.isRunning (Sched.scheduler sys) = true ->
        Sched.scheduler sys' = Sched.scheduler sys
        /\ Sched.suspended sys' = Sched.suspended sys
        /\ Obs.since (Sched.world sys) (Sched.world sys')
           = [Js.ELog Js.Info "Manual trigger received via HTTP";
              Sched.manualNotice; Sched.skipNotice])
    /\ (Sched.isRunning (Sched.scheduler sys) = false ->
        Sched.begins (Sched.scheduler sys) (Sched.scheduler sys')
        /\ Sched.suspended sys' = (Sched.suspended sys ++ [Sched.AwaitPull])%list
        /\ (Js.initialized (Sched.world sys) = true ->
            Obs.since (Sched.world sys) (Sched.world sys')
            = [Js.ELog Js.Info "Manual trigger received via HTTP";
               Sched.manualNotice; Sched.startedNotice]))
    /\ ~ In Health.triggerFailedNotice
           (Obs.since (Sched.world sys) (Sched.world sys')).
Proof.
  intros Hpath Hmethod.
  destruct (posted_trigger_run req sys Hpath Hmethod) as (this & a & w & He & Hserve).
  eexists _, _. split; [exact Hserve|]. cbn [Health.statusCode Health.body].
  split; [reflexivity|]. split; [eauto|].
  cbn [Sched.scheduler Sched.suspended Sched.world].
  destruct (Sched.isRunning (Sched.scheduler sys)) eqn:Hrun.
  - rewrite enter_running in He by assumption. inversion He; subst. clear He.
    match goal with
    | |- context [Obs.since ?a ?b] =>
        assert (Hsince : Obs.since a b
                         = [Js.ELog Js.Info "Manual trigger received via HTTP";
                            Sched.manualNotice; Sched.skipNotice])
          by (apply since_trace; cbn; now rewrite <- app_assoc)
    end.
    rewrite Hsince. split; [auto|]. split; [discriminate|].
    cbn. intros [H|[H|[H|[]]]]; discriminate.
  - rewrite enter_idle in He by assumption. inversion He; subst. clear He.
    match goal with
    | |- context [Obs.since ?a ?b] =>
        assert (Hsince : Obs.since a b
                         = [Js.ELog Js.Info "Manual trigger received via HTTP";
                            Sched.manualNotice; Sched.startedNotice])
          by (apply since_trace; cbn; now rewrite <- app_assoc)
    end.
    rewrite Hsince. split; [discriminate|]. split.
    + intros _. split; [unfold Sched.begins; cbn; auto|]. split; reflexivity.
    + cbn. intros [H|[H|[H|[]]]]; discriminate.
Qed.

Lemma serve_consistent (req : Health.Request) (sys : Sched.System) :
  Sched.consistent sys -> Sched.consistent (snd (Health.serve CONFIG req env sys)).
Proof.
  intros Hc.
  destruct (String.eqb_spec (Health.pathname req) "/trigger") as [Hp|Hp];
    [destruct (String.eqb_spec (Health.method req) "POST") as [Hm|Hm]|].
  - destruct (posted_trigger_run req sys Hp Hm) as (this & a & w & He & Hserve).
    rewrite Hserve. cbn [snd].
    exact (proj1 (enter_change env sys this a _ w Hc He)).
  - destruct (request_without_trigger req sys) as [Hs Hu]; [tauto|].
    unfold Sched.consistent in *. now rewrite Hs, Hu.
  - destruct (request_without_trigger req sys) as [Hs Hu]; [tauto|].
    unfold Sched.consistent in *. now rewrite Hs, Hu.
Qed.

Lemma reachable_with_requests_consistent (w0 : Js.State) (sys : Sched.System) :
  Health.reachable CONFIG env w0 sys -> Sched.consistent sys.
Proof.
  induction 1 as [|sys sys' _ IH Hstep]; [apply boot_consistent|].
  destruct Hstep as [req sys|sys sys' Htask].
  - now apply serve_consistent.
  - exact (proj1 (step_change (Settings.services CONFIG) env sys sys' IH Htask)).
Qed.

(** X13. In every state the event loop can reach by cron ticks, runNow,
    requests to the health server and resumptions, at most one run of
    executeTask is under way, and one is under way exactly while
    isRunning is set: a run triggered over HTTP is held back by the same
    flag as a scheduled one.  totalRuns counts the finished runs and the
    one under way.  A run that is resumed never rejects. *)
Theorem runs_never_overlap (w0 : Js.State) (sys : Sched.System) :
  Health.reachable CONFIG env w0 sys ->
  let st := Sched.stats (Sched.scheduler sys) in
  (List.length (Sched.suspended sys) <= 1)%nat
  /\ (Sched.isRunning (Sched.scheduler sys) = true
      <-> List.length (Sched.suspended sys) = 1%nat)
  /\ Sched.totalRuns st
     = Sched.successfulRuns st + Sched.failedRuns st
       + Z.of_nat (List.length (Sched.suspended sys))
  /\ forall a, Hoare.returns
                 (fst (Sched.resume (Settings.services CONFIG) a (Sched.scheduler sys)
                         env (Sched.world sys))).
Proof.
  intros Hreach st.
  pose proof (reachable_with_requests_consistent w0 sys Hreach) as (Hs & Hf & Hinv).
  fold st in Hs, Hf, Hinv.
  split; [|split; [|split]].
  - destruct (Sched.isRunning (Sched.scheduler sys)).
    + destruct Hinv as [[a ->] _]. cbn. lia.
    + destruct Hinv as [-> _]. cbn. lia.
  - destruct (Sched.isRunning (Sched.scheduler sys)).
    + destruct Hinv as [[a ->] _]. cbn. tauto.
    + destruct Hinv as [-> _]. cbn. split; discriminate.
  - destruct (Sched.isRunning (Sched.scheduler sys)).
    + destruct Hinv as [[a ->] Htot]. cbn [List.length]. lia.
    + destruct Hinv as [-> Htot]. cbn [List.length]. lia.
  - intros a.
    destruct (resume_returns (Settings.services CONFIG) env a (Sched.scheduler sys)
                (Sched.world sys)) as (this' & a' & w' & Hres).
    now rewrite Hres.
Qed.

End HealthServer.
(** ** What the services do to the outside world *)

Section ServiceEvents.
Import Hoare.
Variable CONFIG : Config.t.
Variable env : Js.Env.

Lemma service_initialize :
  footprint env (fun _ => True) Seen.service Git.initialize.
Proof.
  intros w _. unfold Git.initialize, Js.call, Js.answered. unfold_js. unfold Js.extend.
  cbn. destruct (Js.answer env (Js.calls w)); cbn; repeat split; auto;
    rewrite <- ?app_assoc; (eexists; split; [reflexivity|]);
    repeat constructor.
Qed.

Lemma service_ensureInitialized :
  footprint env (fun _ => True) Seen.service Git.ensureInitialized.
Proof.
  pose proof anything_flagOnly as Hflag. unfold Git.ensureInitialized.
  intros w Hw. unfold Js.bind at 1. unfold Js.getInitialized.
  destruct (Js.initialized w).
  - cbn. repeat split; auto. exists []. now rewrite app_nil_r.
  - assert (Hrest : footprint env (fun _ => True) Seen.service
                      (_ <- Git.initialize ;; Js.ret tt)).
    { apply footprint_bind; [apply service_initialize|intros ?].
      now apply footprint_ret. }
    exact (Hrest w Hw).
Qed.

Lemma service_add : footprint env (fun _ => True) Seen.service Git.add.
Proof.
  pose proof anything_flagOnly. unfold Git.add.
  apply footprint_bind; [apply service_ensureInitialized|intros _].
  repeat footprint_step.
Qed.

Lemma service_commit (message date : string) :
  footprint env (fun _ => True) Seen.service (Git.commit CONFIG message date).
Proof.
  pose proof anything_flagOnly. unfold Git.commit.
  apply footprint_bind; [apply service_ensureInitialized|intros _].
  repeat footprint_step.
Qed.

Lemma service_push (options : Git.Options) :
  footprint env (fun _ => True) Seen.service (Git.push CONFIG options).
Proof.
  pose proof anything_flagOnly. unfold Git.push.
  apply footprint_bind; [apply service_ensureInitialized|intros _].
  generalize 1. induction (Z.to_nat (Config.app_retryAttempts CONFIG)) as [|rounds IH];
    intros attempt; cbn [Git.pushLoop].
  - footprint_step.
  - apply footprint_bind.
    + unfold Git.pushAttempt. repeat footprint_step.
    + intros [r|]; [footprint_step|apply IH].
Qed.

Lemma service_pull (options : Git.Options) :
  footprint env (fun _ => True) Seen.service (Git.pull CONFIG options).
Proof.
  pose proof anything_flagOnly. unfold Git.pull.
  apply footprint_bind; [apply service_ensureInitialized|intros _].
  repeat footprint_step.
Qed.

Lemma service_createCommit (date : Moment.t) (message : option string) :
  footprint env (fun _ => True) Seen.service (Commit.createCommit CONFIG date message).
Proof.
  pose proof anything_flagOnly as Hflag.
  unfold Commit.createCommit, Commit.generateCommitMessage, Commit.writeDataFile.
  apply footprint_bind.
  { destruct message as [m|]; [destruct (String.eqb m "")|]; repeat footprint_step. }
  intros commitMessage.
  apply footprint_try_catch; [|intros e; repeat footprint_step].
  apply footprint_bind; [repeat footprint_step|intros _].
  apply footprint_bind; [apply service_add|intros _].
  apply footprint_bind; [apply service_commit|intros result].
  repeat footprint_step.
Qed.

Lemma service_createTodayContributions :
  footprint env (fun _ => True) Seen.service (Commit.createTodayContributions CONFIG).
Proof.
  pose proof anything_flagOnly as Hflag.
  unfold Commit.createTodayContributions, Commit.getRandomCommitCount.
  apply footprint_bind; [repeat footprint_step|intros today].
  apply footprint_bind; [repeat footprint_step|intros commitCount].
  apply footprint_bind; [repeat footprint_step|intros _].
  apply footprint_forEach. intros i results.
  apply footprint_bind; [repeat footprint_step|intros r]. cbv zeta.
  apply footprint_try_catch; [|intros e; repeat footprint_step].
  apply footprint_bind; [apply service_createCommit|intros result].
  repeat footprint_step.
Qed.

Lemma service_backfillContributions
      (startDate endDate : Moment.t) (options : Commit.Options) :
  footprint env (fun _ => True) Seen.service
            (Commit.backfillContributions CONFIG startDate endDate options).
Proof.
  pose proof anything_flagOnly as Hflag.
  unfold Commit.backfillContributions.
  apply footprint_bind; [repeat footprint_step|intros _].
  apply footprint_bind; [|intros stats; repeat footprint_step].
  generalize (Commit.mkStats 0 0 0 0). generalize startDate at 2.
  induction (Commit.rounds startDate endDate) as [|fuel IH]; intros current stats;
    cbn [Commit.backfillLoop]; [footprint_step|].
  apply footprint_if; [|footprint_step]. cbv zeta.
  apply footprint_if.
  - apply footprint_bind; [repeat footprint_step|intros _]. apply IH.
  - apply footprint_bind; [repeat footprint_step|intros r].
    apply footprint_bind; [repeat footprint_step|intros _].
    apply footprint_bind.
    + apply footprint_forEach. intros i acc.
      unfold Commit.backfillCommit.
      apply footprint_try_catch; [|intros e; repeat footprint_step].
      apply footprint_bind; [repeat footprint_step|intros r1].
      apply footprint_bind; [repeat footprint_step|intros r2].
      apply footprint_bind; [apply service_createCommit|intros _].
      repeat footprint_step.
    + intros stats1. apply footprint_bind; [|intros _; apply IH].
      apply footprint_if; repeat footprint_step.
Qed.

End ServiceEvents.
(** ** index.js of the application *)

Section Application.
Import Hoare.
Variable CONFIG : Settings.t.
Variable validate : string -> bool.
Variable parse : string -> Moment.t.
Variable env : Js.Env.

Lemma exitsOf_app (a b : list Js.Event) :
  Seen.exitsOf (a ++ b) = (Seen.exitsOf a ++ Seen.exitsOf b)%list.
Proof. unfold Seen.exitsOf. apply flat_map_app. Qed.

Lemma exitsOf_service (es : list Js.Event) :
  Forall Seen.service es -> Seen.exitsOf es = [].
Proof.
  induction 1 as [|e es He Hes IH]; [reflexivity|].
  destruct e; cbn in *; try contradiction; exact IH.
Qed.

Lemma service_runOnce :
  footprint env (fun _ => True) Seen.service (App.runOnce CONFIG).
Proof.
  pose proof anything_flagOnly as Hflag. unfold App.runOnce.
  apply footprint_bind; [repeat footprint_step|intros _].
  apply footprint_try_catch; [|intros e; repeat footprint_step].
  apply footprint_bind; [apply service_initialize|intros _].
  apply footprint_bind; [apply service_pull|intros _].
  apply footprint_bind; [apply service_createTodayContributions|intros results].
  apply footprint_bind; [apply service_push|intros _].
  repeat footprint_step.
Qed.

Lemma service_runBackfill :
  footprint env (fun _ => True) Seen.service (App.runBackfill CONFIG parse).
Proof.
  pose proof anything_flagOnly as Hflag. unfold App.runBackfill.
  apply footprint_if; [footprint_step|].
  apply footprint_bind; [repeat footprint_step|intros _].
  apply footprint_try_catch; [|intros e; repeat footprint_step].
  apply footprint_bind; [apply service_initialize|intros _].
  apply footprint_bind; [apply service_backfillContributions|intros stats].
  apply footprint_bind; [apply service_push|intros _].
  repeat footprint_step.
Qed.

Lemma service_runScheduled (o : App.Objects) :
  footprint env (fun _ => True) Seen.service (App.runScheduled CONFIG validate o).
Proof.
  pose proof anything_flagOnly as Hflag. unfold App.runScheduled.
  apply footprint_bind; [repeat footprint_step|intros _].
  apply footprint_try_catch; [|intros e; repeat footprint_step].
  apply footprint_bind; [apply service_initialize|intros _].
  apply footprint_bind.
  { apply footprint_if; [|footprint_step]. unfold Health.start.
    destruct (App.healthServer o); repeat footprint_step. }
  intros server. apply footprint_bind.
  { unfold Control.start. destruct (Sched.job (App.scheduler o)); [repeat footprint_step|].
    cbv zeta. apply footprint_if; repeat footprint_step. }
  intros sched. repeat footprint_step.
Qed.

(** How main ends when it has run a mode it exits behind. *)
Lemma main_exits_behind {A} (mode : Js.M A) (o : App.Objects) (started : Js.State) :
  footprint env (fun _ => True) Seen.service mode ->
  let run :=
    Js.try_catch
      (_ <- mode ;;
       Js.emit (Js.EExit 0) ;;
       Js.ret o)
      (fun error =>
         Js.log Js.Error "Application error" ;;
         Js.emit (Js.EExit 1) ;;
         Js.ret o) env started in
  fst run = Js.Returned o
  /\ (exists es, Js.trace (snd run) = (Js.trace started ++ es)%list)
  /\ Seen.exitsOf (Obs.since started (snd run))
     = match fst (mode env started) with
       | Js.Returned _ => [0]
       | Js.Thrown _ => [1]
       end.
Proof.
  intros Hmode run. destruct (Hmode started Logic.I) as (_ & _ & es & Hes & Hev).
  unfold run, Js.try_catch, Js.bind.
  destruct (mode env started) as [[a|e] w1]; unfold_js; cbn [fst snd] in *.
  - assert (Ht : Js.trace (Js.extend w1 [Js.EExit 0])
                 = (Js.trace started ++ es ++ [Js.EExit 0])%list)
      by (unfold Js.extend; cbn [Js.trace]; now rewrite Hes, <- app_assoc).
    split; [reflexivity|]. split; [eauto|].
    rewrite (since_trace started _ _ Ht).
    rewrite exitsOf_app, (exitsOf_service es Hev). reflexivity.
  - assert (Ht : Js.trace (Js.extend (Js.extend w1 [Js.ELog Js.Error "Application error"])
                                     [Js.EExit 1])
                 = (Js.trace started
                    ++ es ++ [Js.ELog Js.Error "Application error"; Js.EExit 1])%list)
      by (unfold Js.extend; cbn [Js.trace]; now rewrite Hes, <- !app_assoc).
    split; [reflexivity|]. split; [eauto|].
    rewrite (since_trace started _ _ Ht).
    rewrite exitsOf_app, (exitsOf_service es Hev). reflexivity.
Qed.

(** How main ends when it has run the mode it stays in. *)
Lemma main_stays_behind (mode : Js.M App.Objects) (o : App.Objects)
      (started : Js.State) :
  footprint env (fun _ => True) Seen.service mode ->
  let run :=
    Js.try_catch mode
      (fun error =>
         Js.log Js.Error "Application error" ;;
         Js.emit (Js.EExit 1) ;;
         Js.ret o) env started in
  Hoare.returns (fst run)
  /\ (exists es, Js.trace (snd run) = (Js.trace started ++ es)%list)
  /\ Seen.exitsOf (Obs.since started (snd run))
     = match fst (mode env started) with
       | Js.Returned _ => []
       | Js.Thrown _ => [1]
       end.
Proof.
  intros Hmode run. destruct (Hmode started Logic.I) as (_ & _ & es & Hes & Hev).
  unfold run, Js.try_catch, Js.bind.
  destruct (mode env started) as [[a|e] w1]; unfold_js; cbn [fst snd] in *.
  - split; [exact Logic.I|]. split; [eauto|].
    rewrite (since_trace started w1 es Hes). now apply exitsOf_service.
  - assert (Ht : Js.trace (Js.extend (Js.extend w1 [Js.ELog Js.Error "Application error"])
                                     [Js.EExit 1])
                 = (Js.trace started
                    ++ es ++ [Js.ELog Js.Error "Application error"; Js.EExit 1])%list)
      by (unfold Js.extend; cbn [Js.trace]; now rewrite Hes, <- !app_assoc).
    split; [exact Logic.I|]. split; [eauto|].
    rewrite (since_trace started _ _ Ht).
    rewrite exitsOf_app, (exitsOf_service es Hev). reflexivity.
Qed.

Lemma since_through (w w1 w2 : Js.State) (es : list Js.Event) :
  Js.trace w1 = (Js.trace w ++ es)%list ->
  (exists es', Js.trace w2 = (Js.trace w1 ++ es')%list) ->
  Obs.since w w2 = (es ++ Obs.since w1 w2)%list.
Proof.
  intros H1 [es' H2]. rewrite (since_trace w1 w2 es' H2).
  apply since_trace. now rewrite H2, H1, app_assoc.
Qed.

(** X14. main never throws, and it ends the process at most once.  In
    production with a configuration that does not validate it exits with
    1 before any call is made.  Otherwise it runs one mode: backfill if
    that is enabled, else the schedule if that is enabled, else a single
    run; behind the backfill and behind the single run it exits with 0
    when the mode returned and with 1 when it threw; in scheduled mode it
    exits, with 1, only when the start threw, and stays otherwise. *)
Theorem main_exit_code (o : App.Objects) (w : Js.State) :
  let validation := Settings.validateConfig CONFIG in
  let refused :=
    negb (Settings.valid validation)
    && String.eqb (Settings.app_env CONFIG) "production" in
  let started :=
    Js.extend w
      ([Js.EConsole Js.Stdout App.banner]
       ++ (if Settings.valid validation then []
           else [Js.ELog Js.Warn "Configuration warnings"])
       ++ [Js.ELog Js.Info "Starting application"])%list in
  let run := App.main CONFIG validate parse o env w in
  let exits := Seen.exitsOf (Obs.since w (snd run)) in
  Hoare.returns (fst run)
  /\ (refused = true ->
      exits = [1] /\ Obs.callsOf (Obs.since w (snd run)) = [])
  /\ (refused = false ->
      if Settings.backfill_enabled CONFIG then
        exits = match fst (App.runBackfill CONFIG parse env started) with
                | Js.Returned _ => [0]
                | Js.Thrown _ => [1]
                end
      else if Settings.schedule_enabled CONFIG then
        exits = match fst (App.runScheduled CONFIG validate o env started) with
                | Js.Returned _ => []
                | Js.Thrown _ => [1]
                end
      else
        exits = match fst (App.runOnce CONFIG env started) with
                | Js.Returned _ => [0]
                | Js.Thrown _ => [1]
                end).
Proof.
  intros validation refused started run exits.
  destruct refused eqn:Hrefused.
  - assert (Hrun : run = (Js.Returned o,
                          Js.extend w [Js.EConsole Js.Stdout App.banner;
                                       Js.ELog Js.Error "Configuration validation failed";
                                       Js.EExit 1])).
    { unfold run, App.main. fold validation. unfold App.showBanner.
      unfold Js.bind at 1. unfold Js.console_log, Js.emit.
      unfold refused in Hrefused. rewrite Hrefused. unfold_js.
      now rewrite !extend_extend. }
    split; [now rewrite Hrun|]. split; [|discriminate].
    intros _. unfold exits. rewrite Hrun. cbn [snd]. rewrite since_extend.
    split; reflexivity.
  - assert (Hrun : run
                   = Js.try_catch
                       (if Settings.backfill_enabled CONFIG then
                          _ <- App.runBackfill CONFIG parse ;;
                          Js.emit (Js.EExit 0) ;;
                          Js.ret o
                        else if Settings.schedule_enabled CONFIG then
                          App.runScheduled CONFIG validate o
                        else
                          _ <- App.runOnce CONFIG ;;
                          Js.emit (Js.EExit 0) ;;
                          Js.ret o)
                       (fun error =>
                          Js.log Js.Error "Application error" ;;
                          Js.emit (Js.EExit 1) ;;
                          Js.ret o) env started).
    { unfold run, App.main. fold validation. unfold App.showBanner.
      unfold Js.bind at 1. unfold Js.console_log, Js.emit.
      unfold refused in Hrefused. rewrite Hrefused.
      unfold Js.bind at 1. unfold Js.bind at 1. unfold started.
      destruct (Settings.valid validation); cbn [negb app]; unfold Js.log, Js.emit, Js.ret;
        now rewrite !extend_extend. }
    assert (Hstarted : exists es, Js.trace started = (Js.trace w ++ es)%list
                                  /\ Seen.exitsOf es = []).
    { unfold started. eexists. split; [reflexivity|].
      destruct (Settings.valid validation); reflexivity. }
    destruct Hstarted as (es0 & Hes0 & Hex0).
    assert (Hexits : forall w2,
               (exists es', Js.trace w2 = (Js.trace started ++ es')%list) ->
               Seen.exitsOf (Obs.since w w2) = Seen.exitsOf (Obs.since started w2)).
    { intros w2 Hw2. rewrite (since_through w started w2 es0 Hes0 Hw2).
      now rewrite exitsOf_app, Hex0. }
    split; [|split; [discriminate|intros _]].
    + rewrite Hrun.
      destruct (Settings.backfill_enabled CONFIG);
        [|destruct (Settings.schedule_enabled CONFIG)].
      * now rewrite (proj1 (main_exits_behind _ o started service_runBackfill)).
      * exact (proj1 (main_stays_behind _ o started (service_runScheduled o))).
      * now rewrite (proj1 (main_exits_behind _ o started service_runOnce)).
    + unfold exits. rewrite Hrun.
      destruct (Settings.backfill_enabled CONFIG);
        [|destruct (Settings.schedule_enabled CONFIG)].
      * destruct (main_exits_behind _ o started service_runBackfill) as (_ & Ht & Hex).
        now rewrite (Hexits _ Ht).
      * destruct (main_stays_behind _ o started (service_runScheduled o))
          as (_ & Ht & Hex).
        now rewrite (Hexits _ Ht).
      * destruct (main_exits_behind _ o started service_runOnce) as (_ & Ht & Hex).
        now rewrite (Hexits _ Ht).
Qed.

(** X15. With the backfill enabled and one of its two dates missing,
    runBackfill throws before it logs or calls anything, and main exits
    with 1 without a single call, whatever the rest of the
    configuration. *)
Theorem backfill_needs_both_dates (o : App.Objects) (w : Js.State) :
  Settings.backfill_enabled CONFIG = true ->
  Settings.backfill_startDate CONFIG = "" \/ Settings.backfill_endDate CONFIG = "" ->
  App.runBackfill CONFIG parse env w
  = (Js.Thrown "BACKFILL_START_DATE and BACKFILL_END_DATE are required", w)
  /\ fst (App.main CONFIG validate parse o env w) = Js.Returned o
  /\ Obs.callsOf (Obs.since w (snd (App.main CONFIG validate parse o env w))) = []
  /\ Seen.exitsOf (Obs.since w (snd (App.main CONFIG validate parse o env w))) = [1].
Proof.
  intros Hmode Hdates.
  assert (Hblank : Settings.blank (Settings.backfill_startDate CONFIG)
                   || Settings.blank (Settings.backfill_endDate CONFIG) = true).
  { unfold Settings.blank. destruct Hdates as [-> | ->]; cbn; [reflexivity|].
    apply orb_true_r. }
  assert (Hthrows : forall w',
             App.runBackfill CONFIG parse env w'
             = (Js.Thrown "BACKFILL_START_DATE and BACKFILL_END_DATE are required", w')).
  { intros w'. unfold App.runBackfill. now rewrite Hblank. }
  split; [apply Hthrows|].
  unfold App.main, App.showBanner. unfold Js.bind at 1 3 5.
  unfold Js.console_log, Js.emit.
  destruct (negb (Settings.valid (Settings.validateConfig CONFIG))
            && String.eqb (Settings.app_env CONFIG) "production").
  - unfold_js. rewrite !extend_extend. cbn [fst snd]. rewrite since_extend.
    repeat split; reflexivity.
  - rewrite Hmode. unfold Js.try_catch, Js.bind.
    destruct (negb (Settings.valid (Settings.validateConfig CONFIG)));
      unfold Js.log, Js.emit, Js.ret; rewrite Hthrows; cbn [fst snd];
      rewrite !extend_extend, since_extend; repeat split; reflexivity.
Qed.

Lemma footprint_events {A} (I : Js.State -> Prop) (Ev Ev' : Js.Event -> Prop)
      (c : Js.M A) :
  (forall e, Ev e -> Ev' e) -> footprint env I Ev c -> footprint env I Ev' c.
Proof.
  intros Himp Hc w Hw. destruct (Hc w Hw) as (HI & HR & es & Hes & Hev).
  split; [exact HI|]. split; [exact HR|]. exists es. split; [exact Hes|].
  eapply Forall_impl; [exact Himp|exact Hev].
Qed.

Lemma inPhase_initialised (p : nat) (e : Js.Event) :
  p <> 0%nat -> inPhase p e -> Seen.initialised e.
Proof.
  intros Hp. destruct e as [c a| | | |]; cbn; auto.
  destruct c; cbn; auto.
Qed.

Lemma initialised_calls (es : list Js.Event) :
  Forall Seen.initialised es ->
  filter Seen.isGitInitialize (Obs.callsOf es) = [].
Proof.
  induction 1 as [|e es He Hes IH]; [reflexivity|].
  destruct e as [c a| | | |]; cbn; try exact IH.
  destruct c; cbn in *; try exact IH. contradiction.
Qed.

(** X16. runOnce begins with the initialisation, whether or not the
    service has been initialised before, and runs it once.  When the
    initialisation fails, runOnce throws its error and neither pulls nor
    commits nor pushes. *)
Theorem runOnce_initialises_first (w : Js.State) :
  let run := App.runOnce CONFIG env w in
  let calls := Obs.callsOf (Obs.since w (snd run)) in
  match Js.answer env (Js.calls w) with
  | Js.Fail e =>
      fst run = Js.Thrown e /\ calls = [Js.GitInitialize]
  | Js.Ok _ =>
      exists rest,
        calls = Js.GitInitialize :: rest
        /\ filter Seen.isGitInitialize rest = []
  end.
Proof.
  intros run calls. pose proof ready_flagOnly as Hflag.
  pose (rest := (_ <- Git.pull (Settings.services CONFIG) Git.noOptions ;;
                 results <- Commit.createTodayContributions (Settings.services CONFIG) ;;
                 _ <- Git.push (Settings.services CONFIG) Git.noOptions ;;
                 Js.log Js.Info "Single execution completed successfully" ;;
                 Js.ret true)).
  assert (Hrest : footprint env ready Seen.initialised rest).
  { unfold rest. apply footprint_bind;
      [apply (footprint_events ready (inPhase 1));
         [intros e; apply inPhase_initialised; lia|apply footprint_pull]
      |intros _].
    apply footprint_bind;
      [apply (footprint_events ready (inPhase 2));
         [intros e; apply inPhase_initialised; lia
         |apply footprint_createTodayContributions]
      |intros results].
    apply footprint_bind;
      [apply (footprint_events ready (inPhase 3));
         [intros e; apply inPhase_initialised; lia|apply footprint_push]
      |intros _].
    repeat footprint_step. }
  pose (w0 := Js.extend w [Js.ELog Js.Info "Running in single execution mode"]).
  assert (Hrun : run
                 = Js.try_catch (_ <- Git.initialize ;; rest)
                     (fun error =>
                        Js.log Js.Error "Single execution failed" ;;
                        Js.throw error) env w0) by reflexivity.
  clearbody run rest.
  assert (Hinit : Git.initialize env w0
                  = match Js.answer env (Js.calls w) with
                    | Js.Ok _ =>
                        (Js.Returned true,
                         Js.mkState
                           (Js.trace w
                            ++ [Js.ELog Js.Info "Running in single execution mode";
                                Js.ELog Js.Info "Initializing Git service...";
                                Js.ECall Js.GitInitialize (Js.answer env (Js.calls w));
                                Js.ELog Js.Info "Git service initialized successfully"])%list
                           (S (Js.calls w)) (Js.clockReads w) (Js.draws w) true)
                    | Js.Fail e =>
                        (Js.Thrown e,
                         Js.mkState
                           (Js.trace w
                            ++ [Js.ELog Js.Info "Running in single execution mode";
                                Js.ELog Js.Info "Initializing Git service...";
                                Js.ECall Js.GitInitialize (Js.answer env (Js.calls w));
                                Js.ELog Js.Error "Failed to initialize Git service"])%list
                           (S (Js.calls w)) (Js.clockReads w) (Js.draws w)
                           (Js.initialized w))
                    end).
  { unfold Git.initialize, Js.call, Js.answered, Js.try_catch, Js.bind, Js.log,
      Js.emit, Js.setInitialized, Js.ret, Js.throw, w0, Js.extend. cbn.
    destruct (Js.answer env (Js.calls w)); cbn; now rewrite <- !app_assoc. }
  unfold Js.try_catch in Hrun. unfold Js.bind at 1 in Hrun. rewrite Hinit in Hrun.
  clear Hinit. unfold calls.
  destruct (Js.answer env (Js.calls w)) as [p|e].
  - match type of Hrun with
    | context [rest env ?w1] =>
        destruct (Hrest w1 eq_refl) as (_ & _ & es & Hes & Hev);
        destruct (rest env w1) as [[v|e] w2]
    end; cbn [fst snd Js.trace] in *; subst run.
    + exists (Obs.callsOf es). split; [|now apply initialised_calls].
      erewrite since_trace by (cbn [snd]; rewrite Hes, <- app_assoc; reflexivity).
      rewrite callsOf_app. reflexivity.
    + exists (Obs.callsOf es). split; [|now apply initialised_calls].
      unfold Js.log, Js.emit, Js.throw, Js.bind.
      erewrite since_trace
        by (unfold Js.extend; cbn [snd Js.trace]; rewrite Hes, <- !app_assoc; reflexivity).
      rewrite !callsOf_app. cbn. now rewrite app_nil_r.
  - subst run. unfold Js.log, Js.emit, Js.throw, Js.bind. cbn [fst snd].
    split; [reflexivity|].
    erewrite since_trace
      by (unfold Js.extend; cbn [Js.trace]; rewrite <- !app_assoc; reflexivity).
    reflexivity.
Qed.

(** X17. The handler of SIGTERM and SIGINT takes the job of the scheduler
    and the health server away and exits with 0, at once: it makes no
    call, and it does not wait for a run under way, whose flag and
    counters it leaves as they are. *)
Theorem shutdown_stops_at_once (signal : string) (o : App.Objects) (w : Js.State) :
  exists o' w',
    App.shutdown signal o env w = (Js.Returned o', w')
    /\ Sched.job (App.scheduler o') = None
    /\ App.healthServer o' = None
    /\ Sched.isRunning (App.scheduler o') = Sched.isRunning (App.scheduler o)
    /\ Sched.stats (App.scheduler o') = Sched.stats (App.scheduler o)
    /\ Obs.callsOf (Obs.since w w') = []
    /\ Obs.sleepsOf (Obs.since w w') = []
    /\ Seen.exitsOf (Obs.since w w') = [0]
    /\ last (Obs.since w w') (Js.EExit 1) = Js.EExit 0.
Proof.
  unfold App.shutdown, Control.stop, Health.stop.
  destruct o as [[[j|] running lastRun nextRun st] [port|]]; unfold_js;
    cbn [App.scheduler App.healthServer Sched.job fst snd];
    rewrite ?extend_extend;
    (eexists _, _; split; [reflexivity|]);
    rewrite since_extend; repeat split; reflexivity.
Qed.

End Application.
(** ** config.js: validateConfig *)

Section Validation.

(** X18. validateConfig finds a configuration valid exactly when it has
    no error to report, and that is when the e-mail address is set and
    is not the placeholder and, in production, the repository URL is
    set.  Each of the two errors is reported exactly for its condition,
    the e-mail first.  The configuration without any environment variable
    is not valid: its e-mail address is the placeholder. *)
Theorem validateConfig_verdict (CONFIG : Settings.t) :
  let validation := Settings.validateConfig CONFIG in
  let noEmail :=
    Settings.git_userEmail CONFIG = ""
    \/ Settings.git_userEmail CONFIG = "contributor@example.com" in
  let noUrl :=
    Settings.git_repoUrl CONFIG = "" /\ Settings.app_env CONFIG = "production" in
  (Settings.valid validation = true <-> Settings.errors validation = [])
  /\ (Settings.valid validation = true <-> ~ noEmail /\ ~ noUrl)
  /\ (In "GIT_USER_EMAIL is required" (Settings.errors validation) <-> noEmail)
  /\ (In "GIT_REPO_URL is required in production" (Settings.errors validation)
      <-> noUrl)
  /\ (noEmail -> noUrl ->
      Settings.errors validation
      = ["GIT_USER_EMAIL is required"; "GIT_REPO_URL is required in production"])
  /\ Settings.valid (Settings.validateConfig Settings.defaults) = false.
Proof.
  intros validation noEmail noUrl.
  unfold validation, noEmail, noUrl, Settings.validateConfig, Settings.blank.
  destruct (String.eqb_spec (Settings.git_userEmail CONFIG) "") as [He|He];
    destruct (String.eqb_spec (Settings.git_userEmail CONFIG)
                              "contributor@example.com") as [Hp|Hp];
    destruct (String.eqb_spec (Settings.git_repoUrl CONFIG) "") as [Hu|Hu];
    destruct (String.eqb_spec (Settings.app_env CONFIG) "production") as [Hv|Hv];
    cbn;
    repeat split; try reflexivity; try discriminate; try tauto; try congruence;
    intros; try tauto; try congruence;
    repeat match goal with
           | H : _ \/ _ |- _ => destruct H
           | H : _ /\ _ |- _ => destruct H
           end; try discriminate; try congruence; try tauto.
Qed.

End Validation.
(** ** The random script *)

Section RandomScript.
Variable config : Random.Config.
Variable env : Js.Env.

Section AllOk.
Hypothesis env_ok : Obs.allOk env.

(** With every call succeeding, createCommit makes its three calls and
    creates one commit bearing the date it is given. *)
Lemma random_createCommit_ok (date : string) (w : Js.State) :
  exists w',
    Random.createCommit date env w = (Js.Returned tt, w')
    /\ Js.clockReads w' = Js.clockReads w
    /\ Js.draws w' = Js.draws w
    /\ Js.calls w' = (Js.calls w + 3)%nat
    /\ Obs.adds w w' [date].
Proof.
  unfold Random.createCommit, Random.writeData, Js.bind.
  destruct (call_ok env env_ok (Js.WriteFile date "") w) as (p1 & -> & H1).
  cbv beta iota delta [Js.ret].
  set (w1 := Js.answered env w (Js.WriteFile date "")).
  destruct (call_ok env env_ok Js.GitAdd w1) as (p2 & -> & H2).
  cbv beta iota delta [Js.ret].
  set (w2 := Js.answered env w1 Js.GitAdd).
  destruct (call_ok env env_ok (Js.GitCommit date date) w2) as (p3 & -> & H3).
  cbv beta iota delta [Js.ret Js.console_log Js.emit].
  eexists. split; [reflexivity|]. split; [reflexivity|]. split; [reflexivity|].
  split; [cbn; lia|].
  eexists. split.
  - unfold Js.extend. cbn [Js.trace Js.answered w2 w1]. rewrite <- !app_assoc.
    reflexivity.
  - cbn [app]. rewrite H1. fold w1. rewrite H2. fold w2. rewrite H3. reflexivity.
Qed.

Lemma randomCommit_ok (count i : Z) (w : Js.State) :
  exists w',
    Random.randomCommit config count i env w = (Js.Returned tt, w')
    /\ Js.clockReads w' = S (Js.clockReads w)
    /\ Js.draws w' = (Js.draws w + 2)%nat
    /\ Js.calls w' = (Js.calls w + 3)%nat
    /\ Obs.adds w w'
         [Random.dateOfCommit config env (Js.clockReads w) (Js.draws w) 0].
Proof.
  unfold Random.randomCommit, Random.randomInt, Random.generateDate,
    Random.dateOfCommit.
  unfold Js.bind, Js.mathRandom, Js.now, Js.ret. cbv beta iota zeta.
  cbn [Js.draws Js.clockReads].
  match goal with
  | |- context [Random.createCommit ?d env ?w1] =>
      destruct (random_createCommit_ok d w1) as (w2 & -> & Hc & Hd & Hn & Hadds)
  end.
  cbv beta iota. cbn [Js.clockReads Js.draws Js.calls] in *.
  replace (Js.draws w + 2 * 0)%nat with (Js.draws w) by lia.
  replace (Js.draws w + 1)%nat with (S (Js.draws w)) by lia.
  rewrite Nat.add_0_r.
  destruct ((i + 1) mod 10 =? 0).
  - eexists. split; [reflexivity|]. unfold Js.console_log, Js.emit, Js.extend.
    cbn [Js.clockReads Js.draws Js.calls].
    split; [exact Hc|]. split; [lia|]. split; [exact Hn|].
    destruct Hadds as (es & Hes & Hdates). eexists (es ++ [_])%list. split.
    + cbn [Js.trace] in *. rewrite Hes, <- app_assoc. reflexivity.
    + rewrite commitDates_app, Hdates. reflexivity.
  - eexists. split; [reflexivity|].
    split; [exact Hc|]. split; [lia|]. split; [exact Hn|].
    destruct Hadds as (es & Hes & Hdates). exists es. split; [exact Hes|exact Hdates].
Qed.

Lemma dateOfCommit_next (reading draw i : nat) :
  Random.dateOfCommit config env reading draw (S i)
  = Random.dateOfCommit config env (S reading) (draw + 2) i.
Proof.
  unfold Random.dateOfCommit.
  replace (reading + S i)%nat with (S reading + i)%nat by lia.
  replace (draw + 2 * S i)%nat with (draw + 2 + 2 * i)%nat by lia.
  replace (draw + 2 + 2 * i + 1)%nat with (draw + 2 * S i + 1)%nat by lia.
  replace (draw + 2 * S i)%nat with (draw + 2 + 2 * i)%nat by lia.
  reflexivity.
Qed.

(** The loop of makeRandomCommits: a commit for each round. *)
Lemma random_rounds (count : Z) (xs : list Z) :
  forall (w : Js.State),
  exists w',
    Js.forEach xs (fun i _ => Random.randomCommit config count i) tt env w
    = (Js.Returned tt, w')
    /\ Js.clockReads w' = (Js.clockReads w + List.length xs)%nat
    /\ Js.draws w' = (Js.draws w + 2 * List.length xs)%nat
    /\ Js.calls w' = (Js.calls w + 3 * List.length xs)%nat
    /\ Obs.adds w w'
         (map (Random.dateOfCommit config env (Js.clockReads w) (Js.draws w))
              (seq 0 (List.length xs))).
Proof.
  induction xs as [|i xs IH]; intros w; cbn [Js.forEach].
  - exists w. cbn. repeat split; try lia. apply adds_refl.
  - destruct (randomCommit_ok count i w) as (w1 & Hrun & Hc1 & Hd1 & Hn1 & Hadds1).
    destruct (IH w1) as (w' & Hrest & Hc & Hd & Hn & Hadds).
    exists w'. unfold Js.bind. rewrite Hrun, Hrest.
    cbn [List.length]. split; [reflexivity|].
    split; [lia|]. split; [lia|]. split; [lia|].
    change (seq 0 (S (List.length xs))) with (0%nat :: seq 1 (List.length xs)).
    rewrite <- seq_shift, map_cons, map_map.
    apply (adds_trans w w1 w' [_]); [exact Hadds1|].
    rewrite Hc1, Hd1 in Hadds.
    erewrite map_ext; [exact Hadds|].
    intros j. apply dateOfCommit_next.
Qed.

(** X19. With every call succeeding, makeRandomCommits returns and
    creates as many commits as it is asked for (none for a count that
    is not positive), with three calls, one reading of the clock and
    two random integers for each: commit number [i] bears the date
    generateDate gives, at that reading, for the week and the day
    drawn for it. *)
Theorem makeRandomCommits_creates_the_count (count : Z) (w : Js.State) :
  let n := Z.to_nat count in
  let run := Random.makeRandomCommits config count env w in
  fst run = Js.Returned tt
  /\ Obs.commitDates (Obs.since w (snd run))
     = map (Random.dateOfCommit config env (Js.clockReads w) (Js.draws w)) (seq 0 n)
  /\ List.length (Obs.commitDates (Obs.since w (snd run))) = n
  /\ Js.calls (snd run) = (Js.calls w + 3 * n)%nat
  /\ Js.clockReads (snd run) = (Js.clockReads w + n)%nat
  /\ Js.draws (snd run) = (Js.draws w + 2 * n)%nat.
Proof.
  intros n run.
  assert (Hrun : exists w',
             run = (Js.Returned tt, w')
             /\ Js.clockReads w' = (Js.clockReads w + n)%nat
             /\ Js.draws w' = (Js.draws w + 2 * n)%nat
             /\ Js.calls w' = (Js.calls w + 3 * n)%nat
             /\ Obs.adds w w'
                  (map (Random.dateOfCommit config env (Js.clockReads w) (Js.draws w))
                       (seq 0 n))).
  { unfold run, Random.makeRandomCommits.
    unfold Js.bind at 1. unfold Js.console_log at 1. unfold Js.emit.
    match goal with
    | |- context [Js.extend w ?es] =>
        destruct (random_rounds count (Js.upto count) (Js.extend w es))
          as (w1 & Hloop & Hc & Hd & Hn & Hadds);
        set (w0 := Js.extend w es) in *
    end.
    rewrite upto_length in Hc, Hd, Hn, Hadds. fold n in Hc, Hd, Hn, Hadds.
    unfold Js.bind. rewrite Hloop. unfold Js.console_log, Js.emit.
    eexists. split; [reflexivity|]. unfold Js.extend at 1 2 3.
    cbn [Js.clockReads Js.draws Js.calls].
    split; [exact Hc|]. split; [exact Hd|]. split; [exact Hn|].
    assert (H0 : Obs.adds w w0 []) by (apply adds_silent; reflexivity).
    match goal with
    | |- Obs.adds w ?final _ =>
        assert (H2 : Obs.adds w1 final [])
          by (exists [Js.EConsole Js.Stdout
                        (Text.nl ++ "✅ All " ++ Text.of_Z count
                         ++ " commits created successfully!")];
              split; reflexivity)
    end.
    pose proof (adds_trans _ _ _ _ _ H0 (adds_trans _ _ _ _ _ Hadds H2)) as H.
    cbn [app] in H. rewrite app_nil_r in H. exact H. }
  destruct Hrun as (w' & -> & Hc & Hd & Hn & Hadds). cbn [fst snd].
  rewrite (adds_since w w' _ Hadds), length_map, length_seq. repeat split; auto.
Qed.

End AllOk.

Section Window.
Import Hoare.

Lemma triple_after_now {B} (I : Js.State -> Prop) (Q : Js.Event -> Prop)
      (k : Moment.t -> Js.M B) (R : Js.Completion B -> Prop) :
  flagOnly I ->
  (forall i, triple env I Q (k (Js.clock env i)) R) ->
  triple env I Q (Js.bind Js.now k) R.
Proof.
  intros Hflag Hk.
  apply (triple_bind env I Q Js.now k
           (fun r => exists i, r = Js.Returned (Js.clock env i)) R).
  - intros w Hw; simpl.
    split; [eapply Hflag; [|eassumption]; reflexivity|].
    split; [eauto|]. exists []. now rewrite app_nil_r.
  - intros t [i Hi]. inversion Hi; subst. apply Hk.
  - intros e [i He]. discriminate.
Qed.

Lemma triple_assoc {A B C} (I : Js.State -> Prop) (Q : Js.Event -> Prop)
      (c : Js.M A) (k : A -> Js.M B) (k' : B -> Js.M C)
      (R : Js.Completion C -> Prop) :
  triple env I Q (Js.bind c (fun x => Js.bind (k x) k')) R ->
  triple env I Q (Js.bind (Js.bind c k) k') R.
Proof.
  intros H w Hw. specialize (H w Hw). unfold Js.bind in *.
  destruct (c env w) as [[a|e] w1]; exact H.
Qed.

Lemma triple_ret_then {A B} (I : Js.State -> Prop) (Q : Js.Event -> Prop)
      (a : A) (k : A -> Js.M B) (R : Js.Completion B -> Prop) :
  triple env I Q (k a) R -> triple env I Q (Js.bind (Js.ret a) k) R.
Proof. intros H w Hw. exact (H w Hw). Qed.

Lemma generateDate_in_window (i : nat) (r1 r2 : Q) :
  (0 <= r1)%Q -> (r1 < 1)%Q -> (0 <= r2)%Q -> (r2 < 1)%Q ->
  1 <= Random.weeksRange config -> 1 <= Random.daysRange config ->
  exists m,
    Random.generateDateAt config (Js.clock env i)
      (Js.floorMul r1 (Random.weeksRange config - 1 - 0 + 1) + 0)
      (Js.floorMul r2 (Random.daysRange config - 1 - 0 + 1) + 0)
    = Moment.format m
    /\ Random.window config env m.
Proof.
  intros H1 H1' H2 H2' Hw Hd.
  pose proof (floorMul_range r1 (Random.weeksRange config - 1 - 0 + 1) H1 H1'
                ltac:(lia)) as Hweek.
  pose proof (floorMul_range r2 (Random.daysRange config - 1 - 0 + 1) H2 H2'
                ltac:(lia)) as Hday.
  eexists. split; [reflexivity|]. exists i. cbv zeta.
  unfold Moment.add_d, Moment.add_w, Moment.add_d, Moment.subtract_y.
  destruct (Moment.civil_from_days (Moment.days (Js.clock env i))) as [[y m] d].
  cbn [Moment.days Moment.ms]. split; [lia|reflexivity].
Qed.

Lemma stamped_random_createCommit (P : Moment.t -> Prop) (m : Moment.t) :
  P m ->
  footprint env (fun _ => True) (Seen.stamped P)
            (Random.createCommit (Moment.format m)).
Proof.
  intros Hm. pose proof anything_flagOnly as Hflag.
  unfold Random.createCommit, Random.writeData.
  apply footprint_bind.
  { apply footprint_bind; [|intros ?; footprint_step].
    apply footprint_call; [assumption|]. intros a. cbn. eauto. }
  intros _. apply footprint_bind; [repeat footprint_step|intros _].
  apply footprint_bind; [|intros _; unfold Js.console_log; now apply footprint_emit].
  apply footprint_call; [assumption|]. intros a. cbn. eauto.
Qed.

(** X20. With Math.random in the unit interval and ranges of at least
    one week and one day, every marker file makeRandomCommits writes
    and every commit it asks for is dated inside the window of the
    script, whatever the calls answer: not before the day behind the
    day yearsBack years before the reading of the clock, less than
    7 * (weeksRange - 1) + daysRange days from there, and at the time
    of day of the reading. *)
Theorem random_commits_stay_in_the_window (count : Z) (w : Js.State) :
  Obs.unitRandom env ->
  1 <= Random.weeksRange config -> 1 <= Random.daysRange config ->
  Forall (Seen.stamped (Random.window config env))
         (Obs.since w (snd (Random.makeRandomCommits config count env w))).
Proof.
  intros Hunit Hw Hd. pose proof anything_flagOnly as Hflag.
  apply (footprint_since env (fun _ => True)); [|exact Logic.I].
  unfold Random.makeRandomCommits.
  apply footprint_bind; [unfold Js.console_log; now apply footprint_emit|intros _].
  apply footprint_bind; [|intros _; unfold Js.console_log; now apply footprint_emit].
  apply footprint_forEach. intros i _.
  unfold Random.randomCommit, Random.randomInt, Random.generateDate.
  apply triple_assoc.
  apply triple_after_mathRandom; [assumption|intros i1]. apply triple_ret_then.
  apply triple_assoc.
  apply triple_after_mathRandom; [assumption|intros i2]. apply triple_ret_then.
  apply triple_assoc.
  apply triple_after_now; [assumption|intros j]. apply triple_ret_then.
  destruct (generateDate_in_window j (Js.random env i1) (Js.random env i2)
              (proj1 (Hunit i1)) (proj2 (Hunit i1))
              (proj1 (Hunit i2)) (proj2 (Hunit i2)) Hw Hd) as (m & -> & Hm).
  apply footprint_bind; [now apply stamped_random_createCommit|intros _].
  apply footprint_if; unfold Js.console_log;
    [now apply footprint_emit|now apply footprint_ret].
Qed.

End Window.

End RandomScript.
(** ** The two scripts: how main ends *)

Section ScriptMain.
Import Hoare.
Variable env : Js.Env.

Lemma local_random_makeRandomCommits (config : Random.Config) (count : Z) :
  footprint env (fun _ => True) Seen.local (Random.makeRandomCommits config count).
Proof.
  pose proof anything_flagOnly as Hflag.
  unfold Random.makeRandomCommits, Random.randomCommit, Random.randomInt,
    Random.generateDate, Random.createCommit, Random.writeData, Js.console_log.
  repeat footprint_step; now apply footprint_emit.
Qed.

Lemma local_pattern_drawPattern (config : Pattern.Config)
      (table : list (string * Pattern.Grid)) (patternName : string) (startWeek : Z) :
  footprint env (fun _ => True) Seen.local
            (Pattern.drawPattern config table patternName startWeek).
Proof.
  pose proof anything_flagOnly as Hflag.
  unfold Pattern.drawPattern, Pattern.drawCell, Pattern.generateDate,
    Pattern.createCommit, Pattern.writeData, Js.console_log, Js.console_error.
  destruct (Pattern.get table patternName) as [|[|row0 rows]|].
  - repeat footprint_step; now apply footprint_emit.
  - repeat footprint_step; now apply footprint_emit.
  - apply footprint_bind; [now apply footprint_emit|intros _].
    apply footprint_bind; [now apply footprint_emit|intros _].
    apply footprint_bind; [|intros c; now apply footprint_emit].
    apply footprint_forEach. intros week acc.
    apply footprint_forEach. intros day acc'.
    apply footprint_if; [|footprint_step].
    repeat footprint_step; now apply footprint_emit.
  - repeat footprint_step; now apply footprint_emit.
Qed.

Lemma local_events (es : list Js.Event) :
  Forall Seen.local es ->
  filter Seen.isGitPush (Obs.callsOf es) = [] /\ Seen.exitsOf es = [].
Proof.
  induction 1 as [|e es He Hes [IHp IHe]]; [split; reflexivity|].
  destruct e as [c a| | | |]; cbn in *; try contradiction; auto.
  destruct c; cbn in *; try discriminate; auto.
Qed.

(** How the main of a script ends: [work] being what it does before it
    pushes. *)
Lemma script_ends (work : Js.M unit) (pushing pushed done : string) (w1 : Js.State) :
  footprint env (fun _ => True) Seen.local work ->
  let run :=
    Js.try_catch
      (work ;;
       (Js.console_log pushing ;;
        _ <- Js.call (Js.GitPush "" "") ;;
        Js.console_log pushed) ;;
       Js.console_log done)
      (fun message =>
         Js.console_error (Text.nl ++ "❌ Error: " ++ message) ;;
         Js.emit (Js.EExit 1)) env w1 in
  fst run = Js.Returned tt
  /\ exists es,
       Js.trace (snd run) = (Js.trace w1 ++ es)%list
       /\ match fst (work env w1) with
          | Js.Thrown e =>
              filter Seen.isGitPush (Obs.callsOf es) = []
              /\ Seen.exitsOf es = [1]
              /\ In (Js.EConsole Js.Stderr (Text.nl ++ "❌ Error: " ++ e)) es
          | Js.Returned _ =>
              filter Seen.isGitPush (Obs.callsOf es) = [Js.GitPush "" ""]
              /\ Seen.exitsOf es
                 = match Js.answer env (Js.calls (snd (work env w1))) with
                   | Js.Ok _ => []
                   | Js.Fail _ => [1]
                   end
          end.
Proof.
  intros Hwork run. destruct (Hwork w1 Logic.I) as (_ & _ & es & Hes & Hev).
  destruct (local_events es Hev) as [Hpush Hexit].
  unfold run, Js.try_catch, Js.bind, Js.call, Js.console_log, Js.console_error,
    Js.emit, Js.answered.
  destruct (work env w1) as [[[]|e] w2]; cbn [fst snd] in *.
  - unfold Js.extend. cbn [Js.calls Js.trace Js.clockReads Js.draws Js.initialized].
    destruct (Js.answer env (Js.calls w2)) as [p|e];
      cbn [fst snd Js.calls Js.trace Js.clockReads Js.draws Js.initialized];
      (split; [reflexivity|]);
      rewrite Hes, <- !app_assoc; (eexists; split; [reflexivity|]);
      rewrite !callsOf_app, !filter_app, !exitsOf_app, Hpush, Hexit;
      split; reflexivity.
  - split; [reflexivity|]. unfold Js.extend; cbn [Js.trace].
    rewrite Hes, <- !app_assoc. eexists; split; [reflexivity|].
    rewrite !callsOf_app, !filter_app, !exitsOf_app, Hpush, Hexit.
    split; [reflexivity|]. split; [reflexivity|].
    apply in_or_app. right. left. reflexivity.
Qed.

(** X21. The main of the random script and the main of the pattern script
    never throw.  When the commits before the push fail, at the first
    call that fails, main prints the error and exits with 1 without
    pushing; when they all succeed it pushes once, and exits, with 1,
    only when the push fails. *)
Theorem scripts_push_only_after_all_commits
      (random : Random.Config) (pattern : Pattern.Config)
      (table : list (string * Pattern.Grid))
      (argv2 : option string) (argv3 : option Z) (w : Js.State) :
  let outcome (run work : Js.Completion unit * Js.State) :=
    fst run = Js.Returned tt
    /\ match fst work with
       | Js.Thrown e =>
           filter Seen.isGitPush (Obs.callsOf (Obs.since w (snd run))) = []
           /\ Seen.exitsOf (Obs.since w (snd run)) = [1]
           /\ In (Js.EConsole Js.Stderr (Text.nl ++ "❌ Error: " ++ e))
                 (Obs.since w (snd run))
       | Js.Returned _ =>
           filter Seen.isGitPush (Obs.callsOf (Obs.since w (snd run)))
           = [Js.GitPush "" ""]
           /\ Seen.exitsOf (Obs.since w (snd run))
              = match Js.answer env (Js.calls (snd work)) with
                | Js.Ok _ => []
                | Js.Fail _ => [1]
                end
       end in
  outcome (Random.main random env w)
          (Random.makeRandomCommits random (Random.commitsCount random) env
             (Js.extend w [Js.EConsole Js.Stdout (Text.repeat "=" 50);
                           Js.EConsole Js.Stdout "   GitHub Contribution Graph Generator";
                           Js.EConsole Js.Stdout (Text.repeat "=" 50)]))
  /\ outcome (Pattern.main pattern table argv2 argv3 env w)
             (Pattern.drawPattern pattern table
                (match argv2 with
                 | Some s => if String.eqb s "" then "heart" else s
                 | None => "heart"
                 end)
                (match argv3 with
                 | Some z => if z =? 0 then 10 else z
                 | None => 10
                 end) env
                (Js.extend w
                   [Js.EConsole Js.Stdout (Text.repeat "=" 50);
                    Js.EConsole Js.Stdout "   GitHub Contribution Pattern Generator";
                    Js.EConsole Js.Stdout (Text.repeat "=" 50);
                    Js.EConsole Js.Stdout (Text.nl ++ Pattern.available table);
                    Js.EConsole Js.Stdout
                      ("Usage: npm run pattern <pattern-name> <start-week>"
                       ++ Text.nl)])).
Proof.
  intros outcome.
  assert (Hgeneral : forall (run : Js.Completion unit * Js.State) (work : Js.M unit)
                            (banner : list Js.Event) (pushing pushed done : string),
             footprint env (fun _ => True) Seen.local work ->
             Seen.exitsOf banner = [] -> Obs.callsOf banner = [] ->
             ~ In (Js.EExit 1) banner ->
             run = Js.try_catch
                     (work ;;
                      (Js.console_log pushing ;;
                       _ <- Js.call (Js.GitPush "" "") ;;
                       Js.console_log pushed) ;;
                      Js.console_log done)
                     (fun message =>
                        Js.console_error (Text.nl ++ "❌ Error: " ++ message) ;;
                        Js.emit (Js.EExit 1)) env (Js.extend w banner) ->
             outcome run (work env (Js.extend w banner))).
  { intros run work banner pushing pushed done Hwork Hexits Hcalls _ ->.
    destruct (script_ends work pushing pushed done (Js.extend w banner) Hwork)
      as (Hret & es & Hes & Hcases).
    split; [exact Hret|].
    rewrite (since_trace w _ (banner ++ es)%list)
      by (rewrite Hes; unfold Js.extend; cbn [Js.trace]; now rewrite app_assoc).
    rewrite callsOf_app, filter_app, exitsOf_app, Hexits, Hcalls. cbn [app filter].
    destruct (fst (work env (Js.extend w banner))); [exact Hcases|].
    destruct Hcases as (Hp & He & Hin). repeat split; auto.
    apply in_or_app. now right. }
  split.
  - eapply Hgeneral;
      [apply local_random_makeRandomCommits|reflexivity|reflexivity| |].
    + cbn. intros [H|[H|[H|[]]]]; discriminate.
    + unfold Random.main, Random.pushCommits. unfold Js.try_catch.
      unfold Js.bind at 1 2 3. unfold Js.console_log at 1 2 3. unfold Js.emit.
      rewrite !extend_extend. reflexivity.
  - eapply Hgeneral;
      [apply local_pattern_drawPattern|reflexivity|reflexivity| |].
    + cbn. intros [H|[H|[H|[H|[H|[]]]]]]; discriminate.
    + unfold Pattern.main, Pattern.pushCommits. unfold Js.try_catch.
      cbv zeta.
      unfold Js.bind at 1 2 3 4 5. unfold Js.console_log at 1 2 3 4 5. unfold Js.emit.
      rewrite !extend_extend. reflexivity.
Qed.

End ScriptMain.
(** ** The pattern script: grids and names out of the ordinary *)

Section PatternEdges.
Variable config : Pattern.Config.
Variable env : Js.Env.

Lemma onCells_inside (pattern : Pattern.Grid) (week day : nat) :
  In (week, day) (Pattern.onCells pattern)
  <-> (week < Pattern.width pattern)%nat /\ (day < 7)%nat
      /\ Pattern.cell pattern day week = true.
Proof.
  unfold Pattern.onCells, Pattern.column. rewrite in_flat_map. split.
  - intros (week' & Hweek & Hin). apply in_map_iff in Hin.
    destruct Hin as (d & Heq & Hd). inversion Heq; subst.
    apply filter_In in Hd. destruct Hd as [Hd Hcell].
    apply in_seq in Hweek. apply in_seq in Hd. repeat split; [lia|lia|assumption].
  - intros (Hweek & Hday & Hcell). exists week. split; [apply in_seq; lia|].
    apply in_map, filter_In. split; [apply in_seq; lia|assumption].
Qed.

(** X22. drawPattern takes the number of weeks from the first row of the
    grid and looks at seven days, whatever the shape of the grid: with
    every call succeeding it returns and creates commitsPerCell commits
    for each cell that is set among the first seven rows and within the
    width of the first row, in column-major order; cells that are set
    outside are passed over, a row that is missing or short counts as
    not set.  On the grid without rows it throws a type error after its
    two opening lines, without a call. *)
Theorem drawPattern_on_any_grid
      (table : list (string * Pattern.Grid)) (patternName : string)
      (grid : Pattern.Grid) (startWeek : Z) (w : Js.State) :
  Obs.allOk env ->
  Pattern.own table patternName = Some grid ->
  let n := Z.to_nat (Pattern.commitsPerCell config) in
  let run := Pattern.drawPattern config table patternName startWeek env w in
  (grid = [] ->
   run = (Js.Thrown "Cannot read properties of undefined (reading 'length')",
          Js.extend w
            [Js.EConsole Js.Stdout (Text.nl ++ "🎨 Drawing pattern: " ++ patternName);
             Js.EConsole Js.Stdout
               ("Starting at week: " ++ Text.of_Z startWeek ++ Text.nl)]))
  /\ (grid <> [] ->
      fst run = Js.Returned tt
      /\ Obs.commitDates (Obs.since w (snd run))
         = Pattern.expandPattern config (Js.clock env) grid startWeek n
                                 (Js.clockReads w)
      /\ List.length (Obs.commitDates (Obs.since w (snd run)))
         = (List.length (Pattern.onCells grid) * n)%nat)
  /\ (forall week day,
        In (week, day) (Pattern.onCells grid)
        <-> (week < List.length (hd [] grid))%nat /\ (day < 7)%nat
            /\ Pattern.cell grid day week = true).
Proof.
  intros Hok Hown n run. split; [|split].
  - intros ->. unfold run, Pattern.drawPattern, Pattern.get. rewrite Hown.
    unfold_js. now rewrite extend_extend.
  - intros Hne.
    destruct (drawPattern_expands config env Hok table patternName grid startWeek w
                Hown Hne) as (w' & Hrun & Hadds).
    unfold run. rewrite Hrun. cbn [fst snd].
    rewrite (adds_since w w' _ Hadds).
    split; [reflexivity|]. split; [reflexivity|].
    unfold Pattern.expandPattern. apply expand_length.
  - intros week day. apply onCells_inside.
Qed.

(** X23. A name that is no key of the pattern table but one of the names
    every object inherits is not reported as unknown: drawPattern prints
    its two opening lines and throws a type error, without a call; main
    prints the error and exits with 1, and nothing is pushed. *)
Theorem an_inherited_name_is_a_type_error
      (table : list (string * Pattern.Grid)) (patternName : string)
      (startWeek : Z) (argv3 : option Z) (w : Js.State) :
  Pattern.own table patternName = None ->
  Pattern.isInherited patternName = true ->
  Pattern.drawPattern config table patternName startWeek env w
  = (Js.Thrown "pattern.flat is not a function",
     Js.extend w
       [Js.EConsole Js.Stdout (Text.nl ++ "🎨 Drawing pattern: " ++ patternName);
        Js.EConsole Js.Stdout ("Starting at week: " ++ Text.of_Z startWeek ++ Text.nl)])
  /\ let run := Pattern.main config table (Some patternName) argv3 env w in
     fst run = Js.Returned tt
     /\ Obs.callsOf (Obs.since w (snd run)) = []
     /\ Seen.exitsOf (Obs.since w (snd run)) = [1]
     /\ In (Js.EConsole Js.Stderr
              (Text.nl ++ "❌ Error: " ++ "pattern.flat is not a function"))
           (Obs.since w (snd run)).
Proof.
  intros Hown Hinh.
  assert (Hdraw : forall week w',
             Pattern.drawPattern config table patternName week env w'
             = (Js.Thrown "pattern.flat is not a function",
                Js.extend w'
                  [Js.EConsole Js.Stdout
                     (Text.nl ++ "🎨 Drawing pattern: " ++ patternName);
                   Js.EConsole Js.Stdout
                     ("Starting at week: " ++ Text.of_Z week ++ Text.nl)])).
  { intros week w'. unfold Pattern.drawPattern, Pattern.get. rewrite Hown, Hinh.
    unfold_js. now rewrite extend_extend. }
  split; [apply Hdraw|]. cbv zeta.
  assert (Hname : (if String.eqb patternName "" then "heart" else patternName)
                  = patternName).
  { destruct (String.eqb_spec patternName "") as [->|]; [discriminate|reflexivity]. }
  unfold Pattern.main. rewrite Hname.
  unfold Js.try_catch, Js.bind, Js.console_log, Js.console_error, Js.emit.
  rewrite Hdraw. cbn [fst snd]. rewrite !extend_extend, since_extend.
  split; [reflexivity|]. split; [reflexivity|]. split; [reflexivity|].
  cbn [app]. do 7 right. left. reflexivity.
Qed.

End PatternEdges.
(** ** index.js of the application: the scheduled mode *)

Section ScheduledMode.
Variable CONFIG : Settings.t.
Variable validate : string -> bool.
Variable env : Js.Env.

(** X24. runScheduled, when the initialisation succeeds and neither the
    scheduler nor the health server has been started: with a cron
    expression that validates it registers the job, starts the health
    server exactly when that is enabled, and stays, having made no call
    but the initialisation; with one that does not validate it throws
    the error of the scheduler, and by then the health server has been
    started if it is enabled. *)
Theorem runScheduled_starts_what_is_enabled (o : App.Objects) (w : Js.State) :
  (exists payload, Js.answer env (Js.calls w) = Js.Ok payload) ->
  Sched.job (App.scheduler o) = None ->
  App.healthServer o = None ->
  let cron := Settings.schedule_cron CONFIG in
  let run := App.runScheduled CONFIG validate o env w in
  Obs.callsOf (Obs.since w (snd run)) = [Js.GitInitialize]
  /\ Seen.exitsOf (Obs.since w (snd run)) = []
  /\ Js.initialized (snd run) = true
  /\ (validate cron = true ->
      exists o',
        fst run = Js.Returned o'
        /\ Sched.job (App.scheduler o') = Some cron
        /\ Sched.nextRun (App.scheduler o') = Some ("See cron expression: " ++ cron)
        /\ Sched.isRunning (App.scheduler o') = Sched.isRunning (App.scheduler o)
        /\ Sched.stats (App.scheduler o') = Sched.stats (App.scheduler o)
        /\ App.healthServer o'
           = (if Settings.health_enabled CONFIG
              then Some (Settings.health_port CONFIG) else None))
  /\ (validate cron = false ->
      fst run = Js.Thrown ("Invalid cron expression: " ++ cron)
      /\ In (Js.ELog Js.Error "Failed to start scheduled mode")
            (Obs.since w (snd run))).
Proof.
  intros [payload Hok] Hjob Hserver cron run.
  assert (Hinit : forall w0,
             Js.calls w0 = Js.calls w ->
             Git.initialize env w0
             = (Js.Returned true,
                Js.mkState
                  (Js.trace w0
                   ++ [Js.ELog Js.Info "Initializing Git service...";
                       Js.ECall Js.GitInitialize (Js.Ok payload);
                       Js.ELog Js.Info "Git service initialized successfully"])%list
                  (S (Js.calls w0)) (Js.clockReads w0) (Js.draws w0) true)).
  { intros w0 Hcalls.
    unfold Git.initialize, Js.call, Js.answered, Js.try_catch, Js.bind, Js.log,
      Js.emit, Js.setInitialized, Js.ret, Js.throw, Js.extend. cbn.
    rewrite Hcalls, Hok. cbn. now rewrite <- !app_assoc. }
  remember run as r eqn:Hr.
  unfold run, App.runScheduled in Hr.
  unfold Js.bind at 1 in Hr. unfold Js.log at 1 in Hr. unfold Js.emit in Hr.
  unfold Js.try_catch in Hr. unfold Js.bind at 1 in Hr.
  rewrite Hinit in Hr by reflexivity.
  unfold Health.start, Control.start in Hr. rewrite Hjob, Hserver in Hr.
  fold cron in Hr.
  destruct (validate cron); destruct (Settings.health_enabled CONFIG);
    unfold Js.bind, Js.log, Js.emit, Js.ret, Js.throw in Hr; cbn in Hr; subst r;
    cbn [fst snd Js.initialized];
    (erewrite since_trace
       by (unfold Js.extend; cbn [Js.trace]; rewrite <- ?app_assoc; reflexivity));
    (split; [reflexivity|]); (split; [reflexivity|]); (split; [reflexivity|]);
    (split; [intros Hv; try discriminate|intros Hv; try discriminate]).
  - eexists. split; [reflexivity|]. cbn. repeat split; reflexivity.
  - eexists. split; [reflexivity|]. cbn. repeat split; reflexivity.
  - split; [reflexivity|]. cbn. tauto.
  - split; [reflexivity|]. cbn. tauto.
Qed.

End ScheduledMode.
(** ** scheduler.js: what makes a run fail *)

Section RunOutcome.
Import Hoare.
Variable CONFIG : Config.t.
Variable env : Js.Env.

(** createTodayContributions returns, whatever the calls answer. *)
Lemma createTodayContributions_returns :
  triple env (fun _ => True) Seen.service
         (Commit.createTodayContributions CONFIG) returns.
Proof.
  pose proof anything_flagOnly as Hflag.
  unfold Commit.createTodayContributions, Commit.getRandomCommitCount.
  apply triple_then; [apply triple_now; [assumption|intros t; exact Logic.I]|intros today].
  apply triple_then.
  { apply triple_after_mathRandom; [assumption|intros i]. now apply triple_ret. }
  intros commitCount.
  apply triple_after_emit; [assumption|exact Logic.I|].
  eapply triple_weaken.
  - apply (triple_forEach env (fun _ => True) Seen.service _
             (fun _ _ => True) (fun _ => False)); [|exact Logic.I].
    intros i rest results _.
    apply triple_after_mathRandom; [assumption|intros n]. cbv zeta.
    eapply triple_try_catch with (R1 := fun _ => True).
    + apply footprint_bind; [apply service_createCommit|intros result].
      repeat footprint_step.
    + intros a _. exact Logic.I.
    + intros e _. apply triple_after_emit; [assumption|exact Logic.I|].
      now apply triple_ret.
  - intros [results|e]; auto.
Qed.

(** X25. A commit that fails does not fail the run: createTodayContributions
    never throws, so executeTask counts a run as successful exactly when
    pull and push return, also when not one commit was created, and as
    failed exactly when one of these two throws. *)
Theorem a_failed_commit_does_not_fail_the_run (this : Sched.Scheduler) (w : Js.State) :
  Sched.isRunning this = false ->
  let pulled := Git.pull CONFIG Git.noOptions env (Sched.started w) in
  let created := Commit.createTodayContributions CONFIG env (snd pulled) in
  let pushed := Git.push CONFIG Git.noOptions env (snd created) in
  Hoare.returns (fst created)
  /\ exists this' w',
       Sched.executeTask CONFIG this env w = (Js.Returned this', w')
       /\ (Hoare.returns (fst pulled) /\ Hoare.returns (fst pushed) ->
           Sched.successfulRuns (Sched.stats this')
           = Sched.successfulRuns (Sched.stats this) + 1
           /\ Sched.failedRuns (Sched.stats this') = Sched.failedRuns (Sched.stats this))
       /\ (~ (Hoare.returns (fst pulled) /\ Hoare.returns (fst pushed)) ->
           Sched.successfulRuns (Sched.stats this')
           = Sched.successfulRuns (Sched.stats this)
           /\ Sched.failedRuns (Sched.stats this')
              = Sched.failedRuns (Sched.stats this) + 1).
Proof.
  intros Hidle pulled created pushed.
  pose proof (proj1 (proj2 (createTodayContributions_returns (snd pulled) Logic.I)))
    as Hcreated.
  fold created in Hcreated. split; [exact Hcreated|].
  remember (Sched.executeTask CONFIG this env w) as r eqn:Hr.
  unfold Sched.executeTask in Hr. rewrite Hidle in Hr.
  unfold Js.bind at 1 in Hr. unfold Js.now in Hr.
  unfold Js.bind at 1 in Hr. unfold Js.log at 1 in Hr. unfold Js.emit at 1 in Hr.
  change (Js.extend _ [Js.ELog Js.Info "Starting scheduled contribution task"])
    with (Sched.started w) in Hr.
  unfold Js.bind at 1 in Hr. unfold Js.try_catch in Hr.
  unfold Js.bind at 1 in Hr. fold pulled in Hr.
  destruct pulled as [[v1|e1] w1] eqn:Epull; cbn [fst snd] in *.
  - unfold Js.bind at 1 in Hr. fold created in Hr.
    destruct created as [[v2|e2] w2] eqn:Ecreate; cbn [fst snd] in *; [|contradiction].
    unfold Js.bind at 1 in Hr. fold pushed in Hr.
    destruct pushed as [[v3|e3] w3] eqn:Epush; cbn [fst snd] in *;
      unfold Js.bind, Js.log, Js.emit, Js.ret in Hr; subst r;
      (eexists _, _; split; [reflexivity|]); cbn; split; tauto.
  - unfold Js.bind, Js.log, Js.emit, Js.ret in Hr. subst r.
    eexists _, _. split; [reflexivity|]. cbn. split; tauto.
Qed.

End RunOutcome.

(* ===================================================================== *)
(** * The statements at sample inputs *)
(* ===================================================================== *)

Lemma C1_witness :
  Sched.isRunning Sample.busy = true
  /\ Sched.runNow Config.defaults Sample.busy Sample.calm Js.initial
     = (Js.Returned Sample.busy,
        Js.extend Js.initial [Sched.manualNotice; Sched.skipNotice]).
Proof.
  split; [reflexivity|].
  exact (proj1 (proj2 (proj2
           (C1_trigger_while_running_is_dropped Config.defaults Sample.calm
              Sample.busy Js.initial eq_refl)))).
Defined.

Lemma C2_witness :
  fst (Git.push Config.defaults Git.noOptions (Sample.failing "network timeout")
         Sample.ready)
  = Js.Thrown "network timeout"
  /\ Obs.sleepsOf
       (Obs.since Sample.ready
          (snd (Git.push Config.defaults Git.noOptions
                  (Sample.failing "network timeout") Sample.ready)))
     = [1000; 2000]
  /\ Js.calls (snd (Git.push Config.defaults Git.noOptions
                      (Sample.failing "network timeout") Sample.ready))
     = 3%nat.
Proof.
  assert (Hother : ~ Git.remoteMissing "network timeout").
  { intros H. apply remoteAbsent_iff in H. vm_compute in H. discriminate. }
  pose proof (C2_push_retry_policy Config.defaults (Sample.failing "network timeout")
                Git.noOptions Sample.ready Sample.ready (fun _ => "network timeout")
                2 eq_refl eq_refl ltac:(vm_compute; lia)
                ltac:(intros i _; split; [reflexivity|exact Hother]) eq_refl) as H.
  cbv zeta in H. destruct H as (_ & Hthrown & Hends).
  destruct (Hends (or_intror eq_refl)) as (Hsleeps & _ & Hcalls).
  split; [now rewrite (Hthrown Hother eq_refl)|].
  split; [exact Hsleeps|exact Hcalls].
Defined.

Lemma C3_witness :
  exists this' w',
    Sched.executeTask Config.defaults Sched.constructor Sample.calm Js.initial
    = (Js.Returned this', w')
    /\ Sched.isRunning this' = false
    /\ Sched.totalRuns (Sched.stats this') = 1.
Proof.
  destruct (C3_executeTask_sequence Config.defaults Sample.calm Sched.constructor
              Js.initial eq_refl) as (this' & w' & Hrun & Hflag & _ & _ & Htotal & _).
  exists this', w'. repeat split; assumption.
Defined.

Lemma C5_witness :
  Pattern.generateDateAt Pattern.CONFIG
    (Moment.mk (Moment.days_from_civil 2024 3 10) 36000999) 2 3
  = Pattern.generateDateAt Pattern.CONFIG
      (Moment.mk (Moment.days_from_civil 2024 3 10) 36000000) 2 3.
Proof.
  exact (proj2 (proj2 (proj2 (proj2
           (C5_generateDate_follows_the_clock Pattern.CONFIG
              (Moment.mk (Moment.days_from_civil 2024 3 10) 36000000)
              (Moment.mk (Moment.days_from_civil 2024 3 10) 36000999)
              2 3 Sample.calm Js.initial eq_refl)))) eq_refl).
Defined.


Lemma C8_witness :
  Pattern.drawPattern Pattern.CONFIG Pattern.PATTERNS "nope" 10 Sample.calm Js.initial
  = (Js.Returned tt,
     Js.extend Js.initial
       [Js.EConsole Js.Stderr (Pattern.notFound "nope");
        Js.EConsole Js.Stdout (Pattern.available Pattern.PATTERNS)]).
Proof.
  exact (proj1 (C8_unknown_pattern_is_reported Pattern.CONFIG Pattern.PATTERNS
                  "nope" 10 Sample.calm Js.initial eq_refl eq_refl)).
Defined.

Lemma C9_witness :
  Git.pull Config.defaults Git.noOptions
    (Sample.failing "fatal: couldn't find remote ref main") Sample.ready
  = (Js.Returned Git.PullEmpty,
     Js.extend
       (Js.answered (Sample.failing "fatal: couldn't find remote ref main")
                    Sample.ready (Js.GitPull "origin" "main"))
       [Js.ELog Js.Debug "Remote not available or local changes, skipping pull"]).
Proof.
  apply (proj1 (C9_pull_failure_classes Config.defaults
                  (Sample.failing "fatal: couldn't find remote ref main")
                  Git.noOptions Sample.ready Sample.ready
                  "fatal: couldn't find remote ref main" eq_refl eq_refl eq_refl)).
  apply pullIgnored_iff. reflexivity.
Defined.

Lemma C10_witness :
  exists sys,
    Sched.reachable Config.defaults Sample.calm Js.initial sys
    /\ Sched.isRunning (Sched.scheduler sys) = true
    /\ Sched.stats (Sched.scheduler sys) = Sched.mkStats 1 0 0
    /\ Sched.totalRuns (Sched.stats (Sched.scheduler sys))
       = Sched.successfulRuns (Sched.stats (Sched.scheduler sys))
         + Sched.failedRuns (Sched.stats (Sched.scheduler sys)) + 1.
Proof.
  assert (Hreach : { sys | Sched.reachable Config.defaults Sample.calm Js.initial sys
                           /\ Sched.isRunning (Sched.scheduler sys) = true
                           /\ Sched.stats (Sched.scheduler sys) = Sched.mkStats 1 0 0 }).
  { eexists. split; [|split].
    - eapply Sched.reach_step; [apply Sched.reach_boot|].
      apply Sched.step_trigger. eapply Sched.trigger_tick. lazy. reflexivity.
    - reflexivity.
    - reflexivity. }
  destruct Hreach as (sys & Hsys & Hrunning & Hstats).
  exists sys. split; [exact Hsys|]. split; [exact Hrunning|]. split; [exact Hstats|].
  destruct (C10_run_statistics Config.defaults Sample.calm Js.initial sys Hsys)
    as (_ & _ & _ & H & _).
  exact (H Hrunning).
Defined.

Lemma C4_witness :
  List.length
    (Obs.commitDates
       (Obs.since Js.initial
          (snd (Pattern.drawPattern Pattern.CONFIG Pattern.PATTERNS "heart" 10
                  Sample.calm Js.initial))))
  = (Pattern.totalCells Sample.heart * 5)%nat.
Proof.
  assert (Hwf : Pattern.wellFormed Sample.heart)
    by (split; [reflexivity|repeat constructor]).
  assert (Hok : Obs.allOk Sample.calm) by (intros i; now exists "abc1234").
  exact (proj1 (proj2 (proj2 (proj2
           (C4_drawPattern_expansion Pattern.CONFIG Pattern.PATTERNS "heart"
              Sample.heart 10 Sample.calm Js.initial eq_refl Hwf
              ltac:(cbn; lia) Hok))))).
Defined.

Lemma C6_witness :
  exists stats,
    fst (Commit.backfillContributions Config.defaults
           (Sample.midnight 2024 1 5) (Sample.midnight 2024 1 7)
           (Commit.mkOptions (Some false) (Some 2) (Some 2)) Sample.calm Js.initial)
    = Js.Returned stats
    /\ Commit.totalDays stats = 3
    /\ Commit.totalCommits stats = 6
    /\ Commit.skippedDays stats = 0.
Proof.
  assert (Hok : Obs.allOk Sample.calm) by (intros i; now exists "abc1234").
  assert (Hunit : Obs.unitRandom Sample.calm)
    by (intros i; split; [discriminate|reflexivity]).
  destruct (C6_backfill_counts Config.defaults Sample.calm
              (Sample.midnight 2024 1 5) (Sample.midnight 2024 1 7)
              (Commit.mkOptions (Some false) (Some 2) (Some 2)) Js.initial
              ltac:(cbn; lia))
    as (stats & Hrun & Hsum & _ & _ & Hnoskip & _ & Hcommits).
  destruct (Hnoskip eq_refl) as [Hskipped Hdays].
  destruct (Hcommits eq_refl ltac:(cbn; lia) Hok Hunit) as [Htotal _].
  exists stats. split; [exact Hrun|].
  cbn in Hdays. split; [exact Hdays|]. split; [|exact Hskipped].
  rewrite Htotal, Hdays. reflexivity.
Defined.

(* ===================================================================== *)
(** * The further facts at sample inputs *)
(* ===================================================================== *)

Lemma unitRandom_half (env : Js.Env) :
  (forall i, Js.random env i = (1 # 2)%Q) -> Obs.unitRandom env.
Proof.
  intros H i. rewrite H. split; [unfold Qle; cbn; lia|unfold Qlt; cbn; lia].
Defined.

Lemma allOk_calm : Obs.allOk Sample.calm.
Proof. intros i. now exists "abc1234". Defined.

Lemma push_succeeds_after_retries_witness :
  fst (Git.push Config.defaults Git.noOptions Cases.recovering Sample.ready)
  = Js.Returned (Git.PushOutput "abc1234")
  /\ Obs.sleepsOf
       (Obs.since Sample.ready
          (snd (Git.push Config.defaults Git.noOptions Cases.recovering Sample.ready)))
     = [1000; 2000].
Proof.
  assert (Hother : ~ Git.remoteMissing "network timeout").
  { intros H. apply remoteAbsent_iff in H. vm_compute in H. discriminate. }
  pose proof (push_succeeds_after_retries Config.defaults Cases.recovering Git.noOptions
                Sample.ready Sample.ready (fun _ => "network timeout") 2 "abc1234"
                eq_refl eq_refl ltac:(vm_compute; lia)
                ltac:(intros i Hi; split;
                      [destruct i as [|[|i]]; [reflexivity|reflexivity|lia]
                      |exact Hother])
                eq_refl) as H.
  cbv zeta in H. destruct H as (Hres & _ & Hsleeps & _).
  split; [exact Hres|exact Hsleeps].
Defined.

Lemma push_is_bounded_witness :
  Git.push Cases.noRetries Git.noOptions Sample.calm Sample.ready
  = (Js.Returned Git.PushNothing, Sample.ready).
Proof.
  exact (proj2 (push_is_bounded Cases.noRetries Sample.calm Git.noOptions Sample.ready)
           ltac:(cbn; lia) eq_refl).
Defined.

Lemma initialisation_is_not_repeated_witness :
  filter Seen.isGitInitialize
    (Obs.callsOf
       (Obs.since Sample.ready
          (snd (Git.pull Config.defaults Git.noOptions Sample.calm Sample.ready))))
  = [].
Proof.
  destruct (proj2 (initialisation_is_not_repeated Config.defaults Sample.calm Git.noOptions
                     "message" "" (Sample.midnight 2024 1 8) None Sample.ready) eq_refl)
    as (_ & _ & _ & _ & Hpull & _).
  exact (proj1 Hpull).
Defined.


Lemma backfill_accounts_for_every_commit_witness :
  exists stats,
    fst (Commit.backfillContributions Config.defaults
           (Sample.midnight 2024 1 5) (Sample.midnight 2024 1 7)
           (Commit.mkOptions (Some false) (Some 2) (Some 2)) Cases.breaking Js.initial)
    = Js.Returned stats
    /\ 2 * Commit.totalDays stats
       <= Commit.totalCommits stats + Commit.errors stats
       <= 2 * Commit.totalDays stats.
Proof.
  destruct (backfill_accounts_for_every_commit Config.defaults Cases.breaking
              (Sample.midnight 2024 1 5) (Sample.midnight 2024 1 7)
              (Commit.mkOptions (Some false) (Some 2) (Some 2)) Js.initial
              (unitRandom_half Cases.breaking (fun _ => eq_refl))
              ltac:(cbn; lia) ltac:(cbn; lia))
    as (stats & Hres & _ & _ & _ & _ & Hacc & _).
  exists stats. split; [exact Hres|exact Hacc].
Defined.

Lemma backfill_commits_in_office_hours_witness :
  Forall (Seen.stamped Seen.officeHours)
         (Obs.since Js.initial
            (snd (Commit.backfillContributions Config.defaults
                    (Sample.midnight 2024 1 5) (Sample.midnight 2024 1 7)
                    Commit.noOptions Sample.calm Js.initial))).
Proof.
  exact (backfill_commits_in_office_hours Config.defaults Sample.calm
           (Sample.midnight 2024 1 5) (Sample.midnight 2024 1 7) Commit.noOptions
           Js.initial (unitRandom_half Sample.calm (fun _ => eq_refl))).
Defined.

Lemma backfill_of_an_empty_range_witness :
  Commit.backfillContributions Config.defaults
    (Sample.midnight 2024 1 7) (Sample.midnight 2024 1 5) Commit.noOptions
    Sample.calm Js.initial
  = (Js.Returned (Commit.mkStats 0 0 0 0),
     Js.extend Js.initial [Js.ELog Js.Info "Starting backfill operation";
                           Js.ELog Js.Info "Backfill completed"]).
Proof.
  exact (backfill_of_an_empty_range Config.defaults Sample.calm
           (Sample.midnight 2024 1 7) (Sample.midnight 2024 1 5) Commit.noOptions
           Js.initial eq_refl).
Defined.

Lemma createCommit_stops_at_the_first_failure_witness :
  exists text,
    fst (Commit.createCommit Config.defaults (Sample.midnight 2024 1 8)
           (Some "by hand") Cases.breaking Sample.ready)
    = Js.Thrown "disk full"
    /\ Obs.callsOf
         (Obs.since Sample.ready
            (snd (Commit.createCommit Config.defaults (Sample.midnight 2024 1 8)
                    (Some "by hand") Cases.breaking Sample.ready)))
       = [Js.WriteFile (Moment.format (Sample.midnight 2024 1 8)) text; Js.GitAdd].
Proof.
  destruct (createCommit_stops_at_the_first_failure Config.defaults Cases.breaking
              (Sample.midnight 2024 1 8) (Some "by hand") Sample.ready eq_refl eq_refl)
    as (text & _ & Hcases).
  exists text. exact Hcases.
Defined.

Lemma start_registers_the_job_once_witness :
  exists this',
    fst (Control.start Cases.scheduled Cases.validate Sched.constructor
           Sample.calm Js.initial)
    = Js.Returned this'
    /\ Sched.job this' = Some "0 9 * * *".
Proof.
  destruct (proj2 (start_registers_the_job_once Cases.scheduled Cases.validate Sample.calm
                     Sched.constructor Js.initial eq_refl) eq_refl)
    as (this' & Hstart & Hjob & _).
  exists this'. split; [now rewrite Hstart|exact Hjob].
Defined.

Lemma stop_only_clears_the_job_witness :
  exists this',
    fst (Control.stop Sample.busy Sample.calm Js.initial) = Js.Returned this'
    /\ Sched.job this' = None
    /\ Sched.isRunning this' = true.
Proof.
  destruct (stop_only_clears_the_job Cases.scheduled Cases.validate Sample.calm
              Sample.busy Js.initial)
    as (this' & w' & Hstop & _ & _ & Hjob & Hrunning & _).
  exists this'. split; [now rewrite Hstop|]. split; [exact Hjob|exact Hrunning].
Defined.

Lemma only_a_posted_trigger_changes_the_scheduler_witness :
  exists response,
    Health.serve Cases.scheduled Cases.getTrigger Sample.calm (Sched.boot Js.initial)
    = (Some response, Sched.boot Js.initial)
    /\ Health.statusCode response = 405.
Proof.
  destruct (only_a_posted_trigger_changes_the_scheduler Cases.scheduled Sample.calm
              Cases.getTrigger (Sched.boot Js.initial)
              ltac:(intros [_ H]; discriminate))
    as (response & sys' & Hserve & _ & _ & _ & _ & _ & _ & _ & Htrigger & _).
  destruct (Htrigger eq_refl) as (Hcode & _ & ->).
  exists response. split; [exact Hserve|exact Hcode].
Defined.

Lemma a_posted_trigger_is_always_accepted_witness :
  exists response sys',
    Health.serve Cases.scheduled Cases.postTrigger Sample.calm (Sched.boot Js.initial)
    = (Some response, sys')
    /\ Health.statusCode response = 202
    /\ Sched.suspended sys' = [Sched.AwaitPull].
Proof.
  destruct (a_posted_trigger_is_always_accepted Cases.scheduled Sample.calm
              Cases.postTrigger (Sched.boot Js.initial) eq_refl eq_refl)
    as (response & sys' & Hserve & Hcode & _ & _ & Hidle & _).
  exists response, sys'. split; [exact Hserve|]. split; [exact Hcode|].
  exact (proj1 (proj2 (Hidle eq_refl))).
Defined.

Lemma runs_never_overlap_witness :
  (List.length
     (Sched.suspended
        (snd (Health.serve Cases.scheduled Cases.postTrigger Sample.calm
                (snd (Health.serve Cases.scheduled Cases.postTrigger Sample.calm
                        (Sched.boot Js.initial)))))) <= 1)%nat.
Proof.
  exact (proj1 (runs_never_overlap Cases.scheduled Sample.calm Js.initial _
                  (Health.reach_step _ _ _ _ _
                     (Health.reach_step _ _ _ _ _
                        (Health.reach_boot _ _ _)
                        (Health.step_request _ _ Cases.postTrigger _))
                     (Health.step_request _ _ Cases.postTrigger _)))).
Defined.

Lemma main_exit_code_witness :
  Seen.exitsOf
    (Obs.since Js.initial
       (snd (App.main Settings.defaults Cases.validate Cases.parse App.initialObjects
               Sample.calm Js.initial)))
  = [0].
Proof.
  destruct (main_exit_code Settings.defaults Cases.validate Cases.parse
              Sample.calm App.initialObjects Js.initial) as (_ & _ & H).
  specialize (H eq_refl). cbn [Settings.backfill_enabled Settings.schedule_enabled
                                 Settings.defaults] in H.
  rewrite H. vm_compute. reflexivity.
Defined.

Lemma backfill_needs_both_dates_witness :
  Seen.exitsOf
    (Obs.since Js.initial
       (snd (App.main Cases.backfillWithoutDates Cases.validate Cases.parse
               App.initialObjects Sample.calm Js.initial)))
  = [1].
Proof.
  exact (proj2 (proj2 (proj2
           (backfill_needs_both_dates Cases.backfillWithoutDates Cases.validate
              Cases.parse Sample.calm App.initialObjects Js.initial
              eq_refl (or_introl eq_refl))))).
Defined.

Lemma validateConfig_verdict_witness :
  Settings.valid (Settings.validateConfig Cases.scheduled) = true.
Proof.
  destruct (validateConfig_verdict Cases.scheduled) as (_ & Hvalid & _).
  apply Hvalid. split.
  - intros [H|H]; discriminate.
  - intros [H _]; discriminate.
Defined.

Lemma makeRandomCommits_creates_the_count_witness :
  List.length
    (Obs.commitDates
       (Obs.since Js.initial
          (snd (Random.makeRandomCommits Random.CONFIG 3 Sample.calm Js.initial))))
  = 3%nat.
Proof.
  exact (proj1 (proj2 (proj2
           (makeRandomCommits_creates_the_count Random.CONFIG Sample.calm allOk_calm
              3 Js.initial)))).
Defined.

Lemma random_commits_stay_in_the_window_witness :
  Forall (Seen.stamped (Random.window Random.CONFIG Cases.late))
         (Obs.since Js.initial
            (snd (Random.makeRandomCommits Random.CONFIG 3 Cases.late Js.initial))).
Proof.
  exact (random_commits_stay_in_the_window Random.CONFIG Cases.late 3 Js.initial
           ltac:(intros i; split; [unfold Qle|unfold Qlt]; cbn; lia)
           ltac:(cbn; lia) ltac:(cbn; lia)).
Defined.

Lemma drawPattern_on_any_grid_witness :
  List.length
    (Obs.commitDates
       (Obs.since Js.initial
          (snd (Pattern.drawPattern Pattern.CONFIG [("ragged", Cases.ragged)] "ragged" 0
                  Sample.calm Js.initial))))
  = 10%nat
  /\ Pattern.totalCells Cases.ragged = 3%nat.
Proof.
  destruct (drawPattern_on_any_grid Pattern.CONFIG Sample.calm
              [("ragged", Cases.ragged)] "ragged" Cases.ragged 0 Js.initial
              allOk_calm eq_refl) as (_ & Hdraws & _).
  destruct (Hdraws ltac:(discriminate)) as (_ & _ & Hlength).
  split; [exact Hlength|reflexivity].
Defined.

Lemma an_inherited_name_is_a_type_error_witness :
  fst (Pattern.drawPattern Pattern.CONFIG Pattern.PATTERNS "toString" 10
         Sample.calm Js.initial)
  = Js.Thrown "pattern.flat is not a function".
Proof.
  destruct (an_inherited_name_is_a_type_error Pattern.CONFIG Sample.calm
              Pattern.PATTERNS "toString" 10 None Js.initial eq_refl eq_refl)
    as [Hdraw _].
  now rewrite Hdraw.
Defined.

Lemma runScheduled_starts_what_is_enabled_witness :
  exists o',
    fst (App.runScheduled Cases.scheduled Cases.validate App.initialObjects
           Sample.calm Js.initial)
    = Js.Returned o'
    /\ Sched.job (App.scheduler o') = Some "0 9 * * *"
    /\ App.healthServer o' = Some 3000.
Proof.
  destruct (runScheduled_starts_what_is_enabled Cases.scheduled Cases.validate
              Sample.calm App.initialObjects Js.initial
              (ex_intro _ "abc1234" eq_refl) eq_refl eq_refl)
    as (_ & _ & _ & Hvalid & _).
  destruct (Hvalid eq_refl) as (o' & Hrun & Hjob & _ & _ & _ & Hserver).
  exists o'. split; [exact Hrun|]. split; [exact Hjob|exact Hserver].
Defined.

Lemma a_failed_commit_does_not_fail_the_run_witness :
  exists this' w',
    Sched.executeTask Config.defaults Sched.constructor Cases.commitsFail Js.initial
    = (Js.Returned this', w')
    /\ Sched.successfulRuns (Sched.stats this') = 1
    /\ Obs.commitDates (Js.trace w') = [].
Proof.
  destruct (a_failed_commit_does_not_fail_the_run Config.defaults Cases.commitsFail
              Sched.constructor Js.initial eq_refl)
    as (_ & this' & w' & Hrun & Hsuccess & _).
  exists this', w'. split; [exact Hrun|]. split.
  - apply Hsuccess. vm_compute. split; exact Logic.I.
  - assert (Hw : w' = snd (Sched.executeTask Config.defaults Sched.constructor
                             Cases.commitsFail Js.initial)) by now rewrite Hrun.
    rewrite Hw. vm_compute. reflexivity.
Defined.
